(** * The plotting helpers of the VAE examples (utils/vae_plots.py)

    The module is glue code: every function is a fixed sequence of calls
    into torch, numpy, pandas, seaborn, matplotlib, scikit-learn, visdom
    and the Python runtime.  The functions are embedded as programs of a
    free monad over the signature of these calls ([ext]); a program is
    run against a handler that gives each call its behaviour.  Results
    that hold for every handler are properties of the glue code alone;
    results about files and figures are stated for [Py.py], a model of
    the libraries written from their documented behaviour, with the
    trained networks and the reduction algorithm left as parameters
    ([Py.collab]). *)

From Stdlib Require Import ZArith QArith Ascii String DecimalString Lia.
From stdpp Require Import gmap strings list.

Local Open Scope string_scope.
Local Open Scope Z_scope.

(** ** Python values *)

(** Exceptions of the Python runtime and of the libraries. *)
Inductive exn : Type :=
  | IndexError
  | KeyError
  | ValueError
  | TypeError
  | RuntimeError
  | AttributeError
  | FileExistsError
  | FileNotFoundError
  | IsADirectoryError
  | NotADirectoryError
  | LibraryError (origin : string).

(** A torch tensor and a numpy array: a shape and the elements in row-major
    order.  Floats are rationals here: the module only moves them around,
    negates them and compares them with 1. *)
Record tensor : Type := Tensor { t_shape : list nat; t_data : list Q }.
Record ndarray : Type := NdArray { shape : list nat; data : list Q }.
Record boolarray : Type := BoolArray { b_shape : list nat; b_data : list bool }.

(** The objects a display name can be: [str(name)] accepts any of them. *)
Inductive pyobj : Type :=
  | PyNone
  | PyStr (s : string)
  | PyInt (z : Z).

Definition str_int (z : Z) : string := NilZero.string_of_int (Z.to_int z).

Definition py_str (o : pyobj) : string :=
  match o with
  | PyNone => "None"
  | PyStr s => s
  | PyInt z => str_int z
  end.

(** A loss record: a dict from epoch to loss, in insertion order. *)
Definition loss_record : Type := list (Z * Q).
Definition keys (d : loss_record) : list Z := d.*1.
Definition values (d : loss_record) : list Q := d.*2.

(** Collaborator objects (a trained model, a visdom session) are opaque
    references; [range n] is Python's [range(n)]. *)
Definition handle : Type := nat.
Definition range (n : nat) : list nat := seq 0 n.

(** The held-out data set of a loader: [test_loader.dataset.test_data] and
    [test_loader.dataset.test_labels]. *)
Record loader : Type := Loader { test_data : tensor; test_labels : tensor }.

(** pandas: a column given to the DataFrame constructor, and a frame. *)
Inductive cell : Type :=
  | CInt (z : Z)
  | CFloat (q : Q)
  | CStr (s : string).

Inductive column : Type :=
  | ColCells (cs : list cell)
  | ColScalar (c : cell).

Definition dataframe : Type := list (string * list cell).

(** matplotlib and seaborn: a figure is the list of what was drawn on it. *)
Inductive color : Type :=
  | Set1 (i : Z)
  | Palette (k : nat).

Inductive plotfn : Type := scatterplot | lineplot.

#[global] Instance plotfn_eq_dec : EqDecision plotfn.
Proof. solve_decision. Defined.

Record layer : Type := Layer {
  l_kind : plotfn;
  l_x : list Q;
  l_y : list Q;
  l_color : color;
  l_label : option string;
  l_size : option Z;
  l_linestyle : option string
}.

Record figure : Type := Figure {
  f_size : option (Q * Q);
  f_style : string;
  f_layers : list layer;
  f_title : option string;
  f_legend : bool;
  f_integer_ticks : bool
}.

(** A figure is referred to by its number. *)
Abbreviation fig_ref := nat (only parsing).

Record grid : Type := Grid {
  g_fig : fig_ref;
  g_data : dataframe;
  g_hue : string;
  g_hue_names : list cell
}.

Record tsne : Type := TSNE { n_components : Z; random_state : option Z }.

(** ** The calls the module makes *)

Inductive ext : Type -> Type :=
  (* Python runtime *)
  | DictGetItem (d : gmap nat tensor) (k : nat) : ext tensor
  | TupleGetItem (t : list tensor) (i : nat) : ext tensor
  | AttrTestData (l : option loader) : ext tensor
  | AttrTestLabels (l : option loader) : ext tensor
  (* torch and the trained networks *)
  | TorchZeros (sh : list nat) : ext tensor
  | TensorSetItem (t : tensor) (idx : list nat) (v : Q) : ext tensor
  | TensorView (t : tensor) (sh : list nat) : ext tensor
  | TensorFloat (t : tensor) : ext tensor
  | TensorDetach (t : tensor) : ext tensor
  | TensorCpu (t : tensor) : ext tensor
  | TensorData (t : tensor) : ext tensor
  | TensorNumpy (t : tensor) : ext ndarray
  | SsvaeModel (m : handle) (xs ys : tensor) : ext (list tensor)
  | VaeModel (m : handle) (x : tensor) : ext (list tensor)
  | VaeEncoder (m : option handle) (x : tensor) : ext (tensor * tensor)
  | SsvaeEncoderZ (m : option handle) (x y : tensor) : ext (tensor * tensor)
  (* visdom *)
  | VisImages (vis : handle) (imgs : list ndarray) (nrow padding : Z) : ext unit
  (* pathlib, pandas, seaborn, pyplot *)
  | PathMkdir (p : string) (parents exist_ok : bool) : ext unit
  | PltFigure (figsize : option (Z * Z)) : ext fig_ref
  | SnsSetStyle (s : string) : ext unit
  | PdDataFrame (cols : list (string * column)) : ext dataframe
  | PdConcat (dfs : list dataframe) (axis : Z) : ext dataframe
  | SnsFacetGrid (df : dataframe) (height aspect : Q) (hue : string) : ext grid
  | GridMap (g : grid) (f : plotfn) (x y : string) (linestyle : option string) : ext unit
  | GridIntegerTicks (g : grid) : ext unit
  | GridAddLegend (g : grid) : ext unit
  | PltSavefig (path : string) : ext unit
  | PltClose (which : string) : ext unit
  (* matplotlib, scikit-learn, numpy *)
  | MplUse (backend : string) : ext unit
  | TsneNew (n : Z) (seed : option Z) : ext tsne
  | TsneFitTransform (m : tsne) (x : ndarray) : ext ndarray
  | NpZerosLike (a : ndarray) : ext ndarray
  | NpSetColumn (a : ndarray) (col : nat) (v : Q) : ext ndarray
  | NpGetColumn (a : ndarray) (col : nat) : ext ndarray
  | NpEqScalar (a : ndarray) (v : Q) : ext boolarray
  | NpMaskColumn (a : ndarray) (mask : boolarray) (col : nat) : ext ndarray
  | CmSet1 (i : Z) : ext color
  | PltScatter (x y : ndarray) (s : Z) (c : color) : ext unit
  | PltTitle (s : string) : ext unit
  | FigSavefig (f : fig_ref) (path : string) : ext unit.

(** ** Programs *)

Inductive prog (A : Type) : Type :=
  | Ret (a : A)
  | Call {X : Type} (c : ext X) (k : X -> prog A).

Arguments Ret {A} a.
Arguments Call {A X} c k.

Fixpoint bind {A B : Type} (p : prog A) (f : A -> prog B) : prog B :=
  match p with
  | Ret a => f a
  | Call c k => Call c (fun x => bind (k x) f)
  end.

Definition call {X : Type} (c : ext X) : prog X := Call c Ret.

#[global] Instance prog_ret : MRet prog := @Ret.
#[global] Instance prog_bind : MBind prog := fun A B f p => bind p f.

(** [for x in l: body(x)], and the same loop threading the local variables
    the body assigns. *)
Fixpoint for_each {A : Type} (l : list A) (body : A -> prog unit) : prog unit :=
  match l with
  | [] => Ret tt
  | x :: l' => bind (body x) (fun _ => for_each l' body)
  end.

Fixpoint for_fold {A S : Type} (l : list A) (body : A -> S -> prog S) (s : S) : prog S :=
  match l with
  | [] => Ret s
  | x :: l' => bind (body x s) (for_fold l' body)
  end.

(** ** The functions of vae_plots.py *)

Module VaePlots.

(** One image of a sample grid:
    [sample_loc_i[0].view(1, 28, 28).cpu().data.numpy()]. *)
Definition sample_image (sample_loc_i : list tensor) : prog ndarray :=
  s0 ← call (TupleGetItem sample_loc_i 0);
  v ← call (TensorView s0 [1; 28; 28]%nat);
  c ← call (TensorCpu v);
  d ← call (TensorData c);
  call (TensorNumpy d).

(** The body of the loop that fills [ys]: the label [i] as an indicator
    row. *)
Definition label_row (i : nat) (ys : gmap nat tensor) : prog (gmap nat tensor) :=
  z ← call (TorchZeros [1; 10]%nat);
  let ys := <[i := z]> ys in
  yi ← call (DictGetItem ys i);
  yi ← call (TensorSetItem yi [0; i]%nat 1%Q);
  mret (<[i := yi]> ys).

(** The body of the loop over [rr]: one more sample for the label [i]. *)
Definition conditional_sample (ssvae : handle) (xs : tensor) (ys : gmap nat tensor)
    (i rr : nat) (images : list ndarray) : prog (list ndarray) :=
  yi ← call (DictGetItem ys i);
  sample_loc_i ← call (SsvaeModel ssvae xs yi);
  img ← sample_image sample_loc_i;
  mret (images ++ [img])%list.

(** [[
def plot_conditional_samples_ssvae(ssvae, visdom_session):
    vis = visdom_session
    ys = {}
    for i in range(10):
        ys[i] = torch.zeros(1, 10)
        ys[i][0, i] = 1
    xs = torch.zeros(1, 784)
    for i in range(10):
        images = []
        for rr in range(100):
            sample_loc_i = ssvae.model(xs, ys[i])
            img = sample_loc_i[0].view(1, 28, 28).cpu().data.numpy()
            images.append(img)
        vis.images(images, 10, 2)
]] *)
Definition plot_conditional_samples_ssvae (ssvae visdom_session : handle) : prog unit :=
  let vis := visdom_session in
  ys ← for_fold (range 10) label_row ∅;
  xs ← call (TorchZeros [1; 784]%nat);
  for_each (range 10) (fun i =>
    images ← for_fold (range 100) (conditional_sample ssvae xs ys i) [];
    call (VisImages vis images 10 2)).

(** The columns of the frame of one split:
    [{"Epoch": elbo.keys(), "ELBO": [-val for val in elbo.values()],
      "dataset": split}]. *)
Definition elbo_columns (elbo : loss_record) (split : string) : list (string * column) :=
  [ ("Epoch", ColCells (CInt <$> keys elbo));
    ("ELBO", ColCells (CFloat <$> (Qopp <$> values elbo)));
    ("dataset", ColScalar (CStr split)) ].

(** [[
def plot_llk(train_elbo, test_elbo):
    Path("vae_results").mkdir(parents=True, exist_ok=True)
    plt.figure(figsize=(30, 10))
    sns.set_style("whitegrid")
    df1 = pd.DataFrame({"Epoch": train_elbo.keys(),
                        "ELBO": [-val for val in train_elbo.values()],
                        "dataset": "Train"})
    df2 = pd.DataFrame({"Epoch": test_elbo.keys(),
                        "ELBO": [-val for val in test_elbo.values()],
                        "dataset": "Test"})
    df = pd.concat([df1, df2], axis=0)
    g = sns.FacetGrid(df, height=4, aspect=1.5, hue="dataset")
    g.map(sns.scatterplot, "Epoch", "ELBO")
    g.map(sns.lineplot, "Epoch", "ELBO", linestyle="--")
    g.ax.yaxis.get_major_locator().set_params(integer=True)
    g.add_legend()
    plt.savefig("./vae_results/test_elbo_vae.png")
    plt.close("all")
]] *)
Definition plot_llk (train_elbo test_elbo : loss_record) : prog unit :=
  call (PathMkdir "vae_results" true true);;
  call (PltFigure (Some (30, 10)));;
  call (SnsSetStyle "whitegrid");;
  df1 ← call (PdDataFrame (elbo_columns train_elbo "Train"));
  df2 ← call (PdDataFrame (elbo_columns test_elbo "Test"));
  df ← call (PdConcat [df1; df2] 0);
  g ← call (SnsFacetGrid df 4%Q (3 # 2)%Q "dataset");
  call (GridMap g scatterplot "Epoch" "ELBO" None);;
  call (GridMap g lineplot "Epoch" "ELBO" (Some "--"));;
  call (GridIntegerTicks g);;
  call (GridAddLegend g);;
  call (PltSavefig "./vae_results/test_elbo_vae.png");;
  call (PltClose "all").

(** The body of the loop over [rr] of plot_vae_samples. *)
Definition unconditional_sample (vae : handle) (x : tensor) (rr : nat)
    (images : list ndarray) : prog (list ndarray) :=
  sample_loc_i ← call (VaeModel vae x);
  img ← sample_image sample_loc_i;
  mret (images ++ [img])%list.

(** [[
def plot_vae_samples(vae, visdom_session):
    vis = visdom_session
    x = torch.zeros([1, 784])
    for i in range(10):
        images = []
        for rr in range(100):
            sample_loc_i = vae.model(x)
            img = sample_loc_i[0].view(1, 28, 28).cpu().data.numpy()
            images.append(img)
        vis.images(images, 10, 2)
]] *)
Definition plot_vae_samples (vae visdom_session : handle) : prog unit :=
  let vis := visdom_session in
  x ← call (TorchZeros [1; 784]%nat);
  for_each (range 10) (fun i =>
    images ← for_fold (range 100) (unconditional_sample vae x) [];
    call (VisImages vis images 10 2)).

(** [x.detach().cpu().numpy()] *)
Definition to_numpy (x : tensor) : prog ndarray :=
  d ← call (TensorDetach x);
  c ← call (TensorCpu d);
  call (TensorNumpy c).

(** The reduction of plot_tsne: the statements from [model_tsne = TSNE(...)]
    to [z_embed = model_tsne.fit_transform(z_states)]. *)
Definition reduce_2d (z_loc : tensor) : prog ndarray :=
  model_tsne ← call (TsneNew 2 (Some 0));
  z_states ← to_numpy z_loc;
  call (TsneFitTransform model_tsne z_states).

(** ["./vae_results/" + str(name) + "_embedding_" + str(ic) + ".png"] and
    ["./vae_results/" + str(name) + "_embedding.png"]. *)
Definition class_path (name : pyobj) (ic : nat) : string :=
  "./vae_results/" +:+ py_str name +:+ "_embedding_" +:+ py_str (PyInt (Z.of_nat ic)) +:+ ".png".

Definition aggregate_path (name : pyobj) : string :=
  "./vae_results/" +:+ py_str name +:+ "_embedding.png".

(** The body of the loop over [ic]. *)
Definition plot_class (z_embed classes : ndarray) (fig : fig_ref) (name : pyobj)
    (ic : nat) : prog unit :=
  ind_vec ← call (NpZerosLike classes);
  ind_vec ← call (NpSetColumn ind_vec ic 1%Q);
  col ← call (NpGetColumn classes ic);
  ind_class ← call (NpEqScalar col 1%Q);
  color ← call (CmSet1 (Z.of_nat ic));
  x ← call (NpMaskColumn z_embed ind_class 0);
  y ← call (NpMaskColumn z_embed ind_class 1);
  call (PltScatter x y 10 color);;
  call (PltTitle "Latent Variable T-SNE per Class");;
  call (FigSavefig fig (class_path name ic)).

(** [[
def plot_tsne(z_loc, classes, name):
    matplotlib.use("Agg")
    model_tsne = TSNE(n_components=2, random_state=0)
    z_states = z_loc.detach().cpu().numpy()
    z_embed = model_tsne.fit_transform(z_states)
    classes = classes.detach().cpu().numpy()
    fig = plt.figure()
    for ic in range(10):
        ind_vec = np.zeros_like(classes)
        ind_vec[:, ic] = 1
        ind_class = classes[:, ic] == 1
        color = plt.cm.Set1(ic)
        plt.scatter(z_embed[ind_class, 0], z_embed[ind_class, 1], s=10, color=color)
        plt.title("Latent Variable T-SNE per Class")
        fig.savefig("./vae_results/" + str(name) + "_embedding_" + str(ic) + ".png")
    fig.savefig("./vae_results/" + str(name) + "_embedding.png")
]] *)
Definition plot_tsne (z_loc classes : tensor) (name : pyobj) : prog unit :=
  call (MplUse "Agg");;
  z_embed ← reduce_2d z_loc;
  classes ← to_numpy classes;
  fig ← call (PltFigure None);
  for_each (range 10) (plot_class z_embed classes fig name);;
  call (FigSavefig fig (aggregate_path name)).

(** [[
def mnist_test_tsne(vae=None, test_loader=None):
    name = "VAE"
    data = test_loader.dataset.test_data.float()
    mnist_labels = test_loader.dataset.test_labels
    z_loc, z_scale = vae.encoder(data)
    plot_tsne(z_loc, mnist_labels, name)
]] *)
Definition mnist_test_tsne (vae : option handle) (test_loader : option loader) : prog unit :=
  let name := PyStr "VAE" in
  data ← call (AttrTestData test_loader);
  data ← call (TensorFloat data);
  mnist_labels ← call (AttrTestLabels test_loader);
  zz ← call (VaeEncoder vae data);
  let '(z_loc, z_scale) := zz in
  plot_tsne z_loc mnist_labels name.

(** [[
def mnist_test_tsne_ssvae(name=None, ssvae=None, test_loader=None):
    if name is None:
        name = "SS-VAE"
    data = test_loader.dataset.test_data.float()
    mnist_labels = test_loader.dataset.test_labels
    z_loc, z_scale = ssvae.encoder_z([data, mnist_labels])
    plot_tsne(z_loc, mnist_labels, name)
]] *)
Definition mnist_test_tsne_ssvae (name : pyobj) (ssvae : option handle)
    (test_loader : option loader) : prog unit :=
  let name := match name with PyNone => PyStr "SS-VAE" | _ => name end in
  data ← call (AttrTestData test_loader);
  data ← call (TensorFloat data);
  mnist_labels ← call (AttrTestLabels test_loader);
  zz ← call (SsvaeEncoderZ ssvae data mnist_labels);
  let '(z_loc, z_scale) := zz in
  plot_tsne z_loc mnist_labels name.

(** The operations of the module, with their arguments. *)
Inductive operation : Type :=
  | OpPlotConditionalSamplesSsvae (ssvae visdom_session : handle)
  | OpPlotLlk (train_elbo test_elbo : loss_record)
  | OpPlotVaeSamples (vae visdom_session : handle)
  | OpMnistTestTsne (vae : option handle) (test_loader : option loader)
  | OpMnistTestTsneSsvae (name : pyobj) (ssvae : option handle) (test_loader : option loader)
  | OpPlotTsne (z_loc classes : tensor) (name : pyobj).

Definition body (op : operation) : prog unit :=
  match op with
  | OpPlotConditionalSamplesSsvae m v => plot_conditional_samples_ssvae m v
  | OpPlotLlk tr te => plot_llk tr te
  | OpPlotVaeSamples m v => plot_vae_samples m v
  | OpMnistTestTsne m l => mnist_test_tsne m l
  | OpMnistTestTsneSsvae n m l => mnist_test_tsne_ssvae n m l
  | OpPlotTsne z c n => plot_tsne z c n
  end.

End VaePlots.

(** ** Running a program *)

Inductive outcome (W A : Type) : Type :=
  | Ok (a : A) (w : W)
  | Raise (e : exn) (w : W).

Arguments Ok {W A} a w.
Arguments Raise {W A} e w.

Definition handler (W : Type) : Type := forall X : Type, ext X -> W -> outcome W X.

(** A call as it appears in a trace. *)
Inductive event : Type :=
  | Ev {X : Type} (c : ext X).

(** [run h p w] performs the calls of [p] from world [w] until the program
    returns or a call raises; it gives the calls made, in order, and the
    outcome. *)
Fixpoint run {W A : Type} (h : handler W) (p : prog A) (w : W) : list event * outcome W A :=
  match p with
  | Ret a => ([], Ok a w)
  | Call c k =>
      match h _ c w with
      | Ok x w' => let '(t, o) := run h (k x) w' in (Ev c :: t, o)
      | Raise e w' => ([Ev c], Raise e w')
      end
  end.

Definition trace {W A : Type} (h : handler W) (p : prog A) (w : W) : list event := (run h p w).1.
Definition result {W A : Type} (h : handler W) (p : prog A) (w : W) : outcome W A := (run h p w).2.

(** [issues h p w t c w0]: run from [w], the program [p] makes the calls [t],
    all of which return, and then issues the call [c] in world [w0]. *)
Inductive issues {W : Type} (h : handler W) :
    forall A : Type, prog A -> W -> list event -> event -> W -> Prop :=
  | issues_here A X (c : ext X) (k : X -> prog A) w :
      issues h A (Call c k) w [] (Ev c) w
  | issues_later A X (c : ext X) (k : X -> prog A) w x w1 t ev w0 :
      h X c w = Ok x w1 ->
      issues h A (k x) w1 t ev w0 ->
      issues h A (Call c k) w (Ev c :: t) ev w0.

(** What the handler answers to an event. *)
Definition raises {W : Type} (h : handler W) (ev : event) (w : W) (e : exn) (w' : W) : Prop :=
  match ev with Ev c => h _ c w = Raise e w' end.

(** The paths given to the two savefig calls. *)
Definition saved_path (ev : event) : option string :=
  match ev with
  | Ev (PltSavefig p) => Some p
  | Ev (FigSavefig _ p) => Some p
  | _ => None
  end.

Definition saved_paths (t : list event) : list string := omap saved_path t.

(** The rows given to the display sink. *)
Definition image_row (ev : event) : option (list ndarray) :=
  match ev with
  | Ev (VisImages _ imgs _ _) => Some imgs
  | _ => None
  end.

Definition image_rows (t : list event) : list (list ndarray) := omap image_row t.

(** ** A model of the libraries *)

Module Py.

(** *** The file system

    A path is the list of its components below the working directory; the
    working directory itself is the empty path.  A file holds the figure
    that was saved to it. *)
Inductive node : Type :=
  | Dir
  | File (content : figure).

(** Python's [s.split(sep)]. *)
Fixpoint split_on (sep : ascii) (s : string) : list string :=
  match s with
  | EmptyString => [EmptyString]
  | String c s' =>
      if Ascii.eqb c sep then EmptyString :: split_on sep s'
      else match split_on sep s' with
           | [] => [String c EmptyString]
           | x :: l => String c x :: l
           end
  end.

Definition resolve_step (acc : list string) (c : string) : list string :=
  if String.eqb c "" then acc
  else if String.eqb c "." then acc
  else if String.eqb c ".." then removelast acc
  else (acc ++ [c])%list.

(** The components of a relative path, with [.] and [..] resolved. *)
Definition resolve (p : string) : list string :=
  foldl resolve_step [] (split_on "/"%char p).

Definition parent (q : list string) : list string := removelast q.

Definition is_dir (fs : gmap (list string) node) (q : list string) : bool :=
  match q with
  | [] => true
  | _ => match fs !! q with Some Dir => true | _ => false end
  end.

(** [open(p, "wb")] followed by the write: the parent must be a directory
    and the path must not be one; an existing file is replaced. *)
Definition write_file (p : string) (content : figure) (fs : gmap (list string) node)
    : exn + gmap (list string) node :=
  let q := resolve p in
  if is_dir fs q then inl IsADirectoryError
  else if is_dir fs (parent q) then inr (<[q := File content]> fs)
  else match fs !! parent q with
       | Some (File _) => inl NotADirectoryError
       | _ => inl FileNotFoundError
       end.

(** [os.makedirs]-like creation of every missing ancestor of a path. *)
Fixpoint mkdir_parents (fs : gmap (list string) node) (above todo : list string)
    : exn + gmap (list string) node :=
  match todo with
  | [] => inr fs
  | c :: todo' =>
      let q := (above ++ [c])%list in
      match fs !! q with
      | Some Dir => mkdir_parents fs q todo'
      | Some (File _) =>
          inl (match todo' with [] => FileExistsError | _ => NotADirectoryError end)
      | None => mkdir_parents (<[q := Dir]> fs) q todo'
      end
  end.

(** [Path(p).mkdir(parents=..., exist_ok=...)]. *)
Definition mkdir (p : string) (parents exist_ok : bool) (fs : gmap (list string) node)
    : exn + gmap (list string) node :=
  let q := resolve p in
  if is_dir fs q then (if exist_ok then inr fs else inl FileExistsError)
  else match fs !! q with
       | Some _ => inl FileExistsError
       | None =>
           if is_dir fs (parent q) then inr (<[q := Dir]> fs)
           else if parents then mkdir_parents fs [] q
           else match fs !! parent q with
                | Some (File _) => inl NotADirectoryError
                | _ => inl FileNotFoundError
                end
       end.

(** *** The state of the interpreter and of its surroundings *)
Record world : Type := World {
  fs : gmap (list string) node;
  figs : gmap nat figure;          (* the figures pyplot holds open *)
  cur_fig : option nat;            (* pyplot's current figure *)
  style : string;                  (* seaborn's axes style *)
  backend : string;                (* matplotlib's backend *)
  displayed : list (handle * list ndarray * Z * Z);  (* rows sent to visdom *)
  np_seed : Z;                     (* state of numpy's global generator *)
  torch_seed : Z                   (* state of torch's global generator *)
}.

Definition with_fs (w : world) (x : gmap (list string) node) : world :=
  World x (figs w) (cur_fig w) (style w) (backend w) (displayed w) (np_seed w) (torch_seed w).
Definition with_figs (w : world) (x : gmap nat figure) (c : option nat) : world :=
  World (fs w) x c (style w) (backend w) (displayed w) (np_seed w) (torch_seed w).
Definition with_style (w : world) (x : string) : world :=
  World (fs w) (figs w) (cur_fig w) x (backend w) (displayed w) (np_seed w) (torch_seed w).
Definition with_backend (w : world) (x : string) : world :=
  World (fs w) (figs w) (cur_fig w) (style w) x (displayed w) (np_seed w) (torch_seed w).
Definition with_displayed (w : world) (x : list (handle * list ndarray * Z * Z)) : world :=
  World (fs w) (figs w) (cur_fig w) (style w) (backend w) x (np_seed w) (torch_seed w).
Definition with_np_seed (w : world) (x : Z) : world :=
  World (fs w) (figs w) (cur_fig w) (style w) (backend w) (displayed w) x (torch_seed w).
Definition with_torch_seed (w : world) (x : Z) : world :=
  World (fs w) (figs w) (cur_fig w) (style w) (backend w) (displayed w) (np_seed w) x.

(** The collaborators: the trained networks, as functions of the state of
    torch's generator and of their arguments, and the reduction algorithm
    of scikit-learn, as a function of the number of components, of the seed
    and of the data. *)
Record collab : Type := Collab {
  ssvae_model : handle -> Z -> tensor -> tensor -> exn + list tensor;
  vae_model : handle -> Z -> tensor -> exn + list tensor;
  vae_encoder : handle -> tensor -> exn + (tensor * tensor);
  ssvae_encoder_z : handle -> tensor -> tensor -> exn + (tensor * tensor);
  tsne_fit : Z -> Z -> ndarray -> exn + ndarray
}.

Definition lift {A : Type} (r : exn + A) (w : world) : outcome world A :=
  match r with
  | inl e => Raise e w
  | inr a => Ok a w
  end.

(** *** torch and numpy *)

Definition numel (sh : list nat) : nat := foldr Nat.mul 1%nat sh.

(** The elements of [l] whose position satisfies [keep]. *)
Definition select {A : Type} (keep : nat -> bool) (l : list A) : list A :=
  omap id (imap (fun j x => if keep j then Some x else None) l).

(** The elements of [l] replaced by [v] where the position satisfies [hit]. *)
Definition overwrite {A : Type} (hit : nat -> bool) (v : A) (l : list A) : list A :=
  imap (fun j x => if hit j then v else x) l.

(** Offset and extent of the block of a row-major array that an index
    prefix [idx] addresses; [None] when the index is out of bounds or has
    too many dimensions. *)
Fixpoint block (sh idx : list nat) : option (nat * nat) :=
  match idx, sh with
  | [], _ => Some (0%nat, numel sh)
  | i :: idx', n :: sh' =>
      if (i <? n)%nat
      then match block sh' idx' with
           | Some (off, len) => Some ((i * numel sh' + off)%nat, len)
           | None => None
           end
      else None
  | _ :: _, [] => None
  end.

(** [t[idx] = v] *)
Definition tensor_setitem (t : tensor) (idx : list nat) (v : Q) : exn + tensor :=
  match block (t_shape t) idx with
  | Some (off, len) =>
      inr (Tensor (t_shape t)
             (overwrite (fun j => (off <=? j)%nat && (j <? off + len)%nat) v (t_data t)))
  | None => inl IndexError
  end.

(** [t.view(sh)] *)
Definition tensor_view (t : tensor) (sh : list nat) : exn + tensor :=
  if (numel sh =? length (t_data t))%nat then inr (Tensor sh (t_data t))
  else inl RuntimeError.

(** The index along the second axis of the element at flat position [j]
    of an array of shape [_ :: m :: rest]. *)
Definition column_of (m : nat) (rest : list nat) (j : nat) : nat :=
  ((j / numel rest) mod m)%nat.

Definition row_of (m : nat) (rest : list nat) (j : nat) : nat :=
  (j / (m * numel rest))%nat.

(** [a[:, col] = v] *)
Definition np_set_column (a : ndarray) (col : nat) (v : Q) : exn + ndarray :=
  match shape a with
  | n :: m :: rest =>
      if (col <? m)%nat
      then inr (NdArray (shape a)
                  (overwrite (fun j => (column_of m rest j =? col)%nat) v (data a)))
      else inl IndexError
  | _ => inl IndexError
  end.

(** [a[:, col]] *)
Definition np_get_column (a : ndarray) (col : nat) : exn + ndarray :=
  match shape a with
  | n :: m :: rest =>
      if (col <? m)%nat
      then inr (NdArray (n :: rest)
                  (select (fun j => (column_of m rest j =? col)%nat) (data a)))
      else inl IndexError
  | _ => inl IndexError
  end.

(** [a[mask, col]] for a boolean [mask].  A mask of one dimension selects
    rows; for an array [a] of two dimensions every other mask has too many
    indices.  (Masks of several dimensions over arrays of more than two are
    not modelled: the arrays here come out of a reduction to a plane.) *)
Definition np_mask_column (a : ndarray) (mask : boolarray) (col : nat) : exn + ndarray :=
  match shape a, b_shape mask with
  | n :: m :: rest, [n'] =>
      if (n' =? n)%nat && (col <? m)%nat
      then inr (NdArray (length (filter (fun b => b = true) (b_data mask)) :: rest)
                  (select (fun j => (column_of m rest j =? col)%nat
                                    && default false (b_data mask !! row_of m rest j))
                          (data a)))
      else inl IndexError
  | _, _ => inl IndexError
  end.

(** *** pandas *)

Definition cell_eqb (a b : cell) : bool :=
  match a, b with
  | CInt x, CInt y => Z.eqb x y
  | CFloat x, CFloat y => Qeq_bool x y
  | CStr x, CStr y => String.eqb x y
  | _, _ => false
  end.

Definition column_length (c : column) : option nat :=
  match c with
  | ColCells cs => Some (length cs)
  | ColScalar _ => None
  end.

Definition fill_column (n : nat) (c : column) : list cell :=
  match c with
  | ColCells cs => cs
  | ColScalar x => replicate n x
  end.

(** [pd.DataFrame({name: column, ...})]: the list-like columns must have
    one length, to which the scalars are repeated; scalars alone are
    refused. *)
Definition pd_dataframe (cols : list (string * column)) : exn + dataframe :=
  match omap (fun nc => column_length nc.2) cols with
  | [] => inl ValueError
  | n :: ns =>
      if forallb (Nat.eqb n) ns
      then inr (prod_map id (fill_column n) <$> cols)
      else inl ValueError
  end.

Definition column_names (df : dataframe) : list string := df.*1.

Definition get_column (df : dataframe) (name : string) : option (list cell) :=
  (fun r => r.2.2) <$> list_find (fun nc => nc.1 = name) df.

(** [pd.concat(dfs, axis=0)] of frames with the same columns; other axes
    and frames with different columns are not modelled. *)
Definition pd_concat (dfs : list dataframe) (axis : Z) : exn + dataframe :=
  match dfs with
  | [] => inl ValueError
  | df :: rest =>
      if Z.eqb axis 0 && forallb (fun d => bool_decide (column_names d = column_names df)) rest
      then inr ((fun name => (name, mjoin (omap (fun d => get_column d name) dfs)))
                  <$> column_names df)
      else inl (LibraryError "pandas.concat")
  end.

(** The distinct values of a column, in order of first appearance. *)
Fixpoint distinct_cells (cs : list cell) : list cell :=
  match cs with
  | [] => []
  | c :: cs' => c :: filter (fun d => cell_eqb c d = false) (distinct_cells cs')
  end.

(** *** pyplot and seaborn *)

Definition blank (size : option (Q * Q)) (sty : string) : figure :=
  Figure size sty [] None false false.

(** matplotlib numbers a new figure one above the highest open one. *)
Definition next_fig (fg : gmap nat figure) : nat :=
  S (map_fold (fun k _ m => Nat.max k m) 0%nat fg).

Definition new_figure (size : option (Q * Q)) (w : world) : nat * world :=
  let n := next_fig (figs w) in
  (n, with_figs w (<[n := blank size (style w)]> (figs w)) (Some n)).

(** [plt.gcf()]: the current figure, opened when there is none. *)
Definition gcf (w : world) : nat * world :=
  match cur_fig w with
  | Some n => if bool_decide (is_Some (figs w !! n)) then (n, w) else new_figure None w
  | None => new_figure None w
  end.

Definition draw (n : nat) (f : figure -> figure) (w : world) : world :=
  with_figs w (alter f n (figs w)) (Some n).

Definition add_layer (l : layer) (f : figure) : figure :=
  Figure (f_size f) (f_style f) (f_layers f ++ [l])%list (f_title f) (f_legend f)
    (f_integer_ticks f).
Definition set_title (s : string) (f : figure) : figure :=
  Figure (f_size f) (f_style f) (f_layers f) (Some s) (f_legend f) (f_integer_ticks f).
Definition set_legend (f : figure) : figure :=
  Figure (f_size f) (f_style f) (f_layers f) (f_title f) true (f_integer_ticks f).
Definition set_integer_ticks (f : figure) : figure :=
  Figure (f_size f) (f_style f) (f_layers f) (f_title f) (f_legend f) true.

(** [fig.savefig(p)] for the figure numbered [n]. *)
Definition savefig (n : nat) (p : string) (w : world) : outcome world unit :=
  match figs w !! n with
  | Some f =>
      match write_file p f (fs w) with
      | inr fs' => Ok tt (with_fs w fs')
      | inl e => Raise e w
      end
  | None => Raise (LibraryError "matplotlib: figure not open") w
  end.

(** [plt.scatter(x, y, s=s, color=c)] *)
Definition plt_scatter (x y : ndarray) (s : Z) (c : color) (w : world) : outcome world unit :=
  if (length (data x) =? length (data y))%nat
  then let '(n, w1) := gcf w in
       Ok tt (draw n (add_layer (Layer scatterplot (data x) (data y) c None (Some s) None)) w1)
  else Raise ValueError w.

Definition sns_styles : list string := ["darkgrid"; "whitegrid"; "dark"; "white"; "ticks"].

Definition cell_number (c : cell) : option Q :=
  match c with
  | CInt z => Some (inject_Z z)
  | CFloat q => Some q
  | CStr _ => None
  end.

(** [sns.FacetGrid(df, height=h, aspect=a, hue=hue)]: one facet, a new
    figure of [h * a] by [h] inches, one hue level per distinct value. *)
Definition sns_facet_grid (df : dataframe) (h a : Q) (hue : string) (w : world)
    : outcome world grid :=
  match get_column df hue with
  | Some cs =>
      let '(n, w1) := new_figure (Some (h * a, h)%Q) w in
      Ok (Grid n df hue (distinct_cells cs)) w1
  | None => Raise KeyError w
  end.

(** The rows of a frame whose hue is [name], as the layer that [f] draws
    for them. *)
Definition hue_layer (hs xs ys : list cell) (f : plotfn) (ls : option string)
    (k : nat) (name : cell) : option layer :=
  let keep := fun j => default false (cell_eqb name <$> hs !! j) in
  px ← mapM cell_number (select keep xs);
  py ← mapM cell_number (select keep ys);
  Some (Layer f px py (Palette k)
          (match name with CStr s => Some s | _ => None end) None ls).

(** [g.map(f, x, y, linestyle=ls)]: one layer per hue level, in order, on
    the figure of the grid.  A missing column is a KeyError; columns of
    strings are not modelled as coordinates. *)
Definition grid_map (g : grid) (f : plotfn) (x y : string) (ls : option string) (w : world)
    : outcome world unit :=
  match get_column (g_data g) (g_hue g), get_column (g_data g) x, get_column (g_data g) y with
  | Some hs, Some xs, Some ys =>
      match mapM (fun kn => hue_layer hs xs ys f ls kn.1 kn.2) (imap pair (g_hue_names g)) with
      | Some layers =>
          if bool_decide (is_Some (figs w !! g_fig g))
          then Ok tt (draw (g_fig g) (fun fig => foldl (fun fg l => add_layer l fg) fig layers) w)
          else Raise (LibraryError "matplotlib: figure not open") w
      | None => Raise (LibraryError "seaborn: coordinates") w
      end
  | _, _, _ => Raise KeyError w
  end.

Definition on_grid (g : grid) (f : figure -> figure) (w : world) : outcome world unit :=
  if bool_decide (is_Some (figs w !! g_fig g))
  then Ok tt (with_figs w (alter f (g_fig g) (figs w)) (cur_fig w))
  else Raise (LibraryError "matplotlib: figure not open") w.

(** *** The handler *)

Definition on_model (m : option handle) {A : Type} (f : handle -> exn + A) (w : world)
    : outcome world A :=
  match m with
  | Some h => lift (f h) w
  | None => Raise AttributeError w
  end.

(** scikit-learn's [check_random_state]: an integer seeds a generator of
    its own; without one the reduction draws from numpy's global
    generator, whose state moves on. *)
Definition tsne_fit_transform (c : collab) (m : tsne) (x : ndarray) (w : world)
    : outcome world ndarray :=
  match random_state m with
  | Some seed => lift (tsne_fit c (n_components m) seed x) w
  | None => lift (tsne_fit c (n_components m) (np_seed w) x) (with_np_seed w (np_seed w + 1))
  end.

Definition py (c : collab) : handler world :=
  fun X call w =>
    match call in ext X return outcome world X with
    | DictGetItem d k => lift (from_option inr (inl KeyError) (d !! k)) w
    | TupleGetItem t i => lift (from_option inr (inl IndexError) (t !! i)) w
    | AttrTestData l => lift (from_option (fun l => inr (test_data l)) (inl AttributeError) l) w
    | AttrTestLabels l => lift (from_option (fun l => inr (test_labels l)) (inl AttributeError) l) w
    | TorchZeros sh => Ok (Tensor sh (replicate (numel sh) 0%Q)) w
    | TensorSetItem t idx v => lift (tensor_setitem t idx v) w
    | TensorView t sh => lift (tensor_view t sh) w
    | TensorFloat t => Ok t w
    | TensorDetach t => Ok t w
    | TensorCpu t => Ok t w
    | TensorData t => Ok t w
    | TensorNumpy t => Ok (NdArray (t_shape t) (t_data t)) w
    | SsvaeModel m xs ys =>
        lift (ssvae_model c m (torch_seed w) xs ys) (with_torch_seed w (torch_seed w + 1))
    | VaeModel m x =>
        lift (vae_model c m (torch_seed w) x) (with_torch_seed w (torch_seed w + 1))
    | VaeEncoder m x => on_model m (fun h => vae_encoder c h x) w
    | SsvaeEncoderZ m x y => on_model m (fun h => ssvae_encoder_z c h x y) w
    | VisImages vis imgs nrow padding =>
        Ok tt (with_displayed w (displayed w ++ [(vis, imgs, nrow, padding)])%list)
    | PathMkdir p parents exist_ok =>
        match mkdir p parents exist_ok (fs w) with
        | inr fs' => Ok tt (with_fs w fs')
        | inl e => Raise e w
        end
    | PltFigure figsize =>
        let '(n, w1) := new_figure (prod_map inject_Z inject_Z <$> figsize) w in Ok n w1
    | SnsSetStyle s =>
        if bool_decide (s ∈ sns_styles) then Ok tt (with_style w s) else Raise ValueError w
    | PdDataFrame cols => lift (pd_dataframe cols) w
    | PdConcat dfs axis => lift (pd_concat dfs axis) w
    | SnsFacetGrid df h a hue => sns_facet_grid df h a hue w
    | GridMap g f x y ls => grid_map g f x y ls w
    | GridIntegerTicks g => on_grid g set_integer_ticks w
    | GridAddLegend g => on_grid g set_legend w
    | PltSavefig p => let '(n, w1) := gcf w in savefig n p w1
    | PltClose which =>
        if String.eqb which "all" then Ok tt (with_figs w ∅ None) else Ok tt w
    | MplUse b => Ok tt (with_backend w b)
    | TsneNew n seed => Ok (TSNE n seed) w
    | TsneFitTransform m x => tsne_fit_transform c m x w
    | NpZerosLike a => Ok (NdArray (shape a) (replicate (length (data a)) 0%Q)) w
    | NpSetColumn a col v => lift (np_set_column a col v) w
    | NpGetColumn a col => lift (np_get_column a col) w
    | NpEqScalar a v => Ok (BoolArray (shape a) ((fun x => Qeq_bool x v) <$> data a)) w
    | NpMaskColumn a mask col => lift (np_mask_column a mask col) w
    | CmSet1 i => Ok (Set1 i) w
    | PltScatter x y s col => plt_scatter x y s col w
    | PltTitle s => let '(n, w1) := gcf w in Ok tt (draw n (set_title s) w1)
    | FigSavefig f p => savefig f p w
    end.

End Py.

(** Every call of a program satisfies [P], whatever the calls return. *)
Inductive calls_ok (P : event -> Prop) {A : Type} : prog A -> Prop :=
  | calls_ok_ret a : calls_ok P (Ret a)
  | calls_ok_call X (c : ext X) k :
      P (Ev c) -> (forall x, calls_ok P (k x)) -> calls_ok P (Call c k).



(** ** The naming scheme of the saved files *)

Definition elbo_path : string := "./vae_results/" +:+ "test_elbo_vae.png".

(** The paths of the embedding plots of a model called [name]. *)
Definition embedding_path (name : string) (p : string) : Prop :=
  p = "./vae_results/" +:+ name +:+ "_embedding.png" \/
  exists ic : nat, (ic < 10)%nat /\
    p = "./vae_results/" +:+ name +:+ "_embedding_" +:+ str_int (Z.of_nat ic) +:+ ".png".

(** The paths an operation may save to. *)
Definition in_scheme (op : VaePlots.operation) (p : string) : Prop :=
  match op with
  | VaePlots.OpPlotConditionalSamplesSsvae _ _ => False
  | VaePlots.OpPlotVaeSamples _ _ => False
  | VaePlots.OpPlotLlk _ _ => p = elbo_path
  | VaePlots.OpMnistTestTsne _ _ => embedding_path "VAE" p
  | VaePlots.OpMnistTestTsneSsvae PyNone _ _ => embedding_path "SS-VAE" p
  | VaePlots.OpMnistTestTsneSsvae name _ _ => embedding_path (py_str name) p
  | VaePlots.OpPlotTsne _ _ name => embedding_path (py_str name) p
  end.

(** ** Sample inputs *)

Module Demo.

(** Networks that return a constant sample of 784 pixels, an encoder that
    returns its input, and a stand-in for the reduction that keeps the
    first two coordinates of every row. *)
Definition keep_two (x : ndarray) : ndarray :=
  match shape x with
  | [n; m] => NdArray [n; 2%nat]
                (Py.select (fun j => (Py.column_of m [] j <? 2)%nat) (data x))
  | _ => x
  end.

Definition nets : Py.collab :=
  Py.Collab
    (fun _ _ _ _ => inr [Tensor [1; 784]%nat (replicate 784 (1 # 2)%Q)])
    (fun _ _ _ => inr [Tensor [1; 784]%nat (replicate 784 (1 # 2)%Q)])
    (fun _ x => inr (x, x))
    (fun _ x _ => inr (x, x))
    (fun _ _ x => if (hd 0%nat (shape x) <? 2)%nat then inl ValueError else inr (keep_two x)).

(** The same networks with a reduction whose result moves with the seed. *)
Definition jitter : Py.collab :=
  Py.Collab (Py.ssvae_model nets) (Py.vae_model nets) (Py.vae_encoder nets)
    (Py.ssvae_encoder_z nets)
    (fun _ seed x => inr (NdArray (shape x) ((fun q => q + inject_Z seed)%Q <$> data x))).

(** A working directory that holds [vae_results/] and nothing else. *)
Definition ready : Py.world :=
  Py.World {[ ["vae_results"] := Py.Dir ]} ∅ None "darkgrid" "TkAgg" [] 0 0.

(** An empty working directory. *)
Definition empty : Py.world := Py.World ∅ ∅ None "darkgrid" "TkAgg" [] 0 0.

(** Three observations in three dimensions. *)
Definition z_loc : tensor := Tensor [3; 3]%nat [1; 2; 3; 4; 5; 6; 7; 8; 9]%Q.

(** One-hot labels: two observations of class 0 and one of class 4. *)
Definition one_hot : tensor :=
  Tensor [3; 10]%nat [1; 0; 0; 0; 0; 0; 0; 0; 0; 0;
                      1; 0; 0; 0; 0; 0; 0; 0; 0; 0;
                      0; 0; 0; 0; 1; 0; 0; 0; 0; 0]%Q.

(** The same labels as class indices. *)
Definition class_indices : tensor := Tensor [3]%nat [0; 0; 4]%Q.

Definition held_out : loader := Loader z_loc one_hot.

Definition train : loss_record := [(0, (-241 # 2)%Q); (1, (-501 # 5)%Q)].
Definition test : loss_record := [(0, (-130)%Q); (1, (-1107 # 10)%Q)].

End Demo.

(** What a run gives back to the caller: a value or an exception. *)
Definition value {W A : Type} (o : outcome W A) : exn + A :=
  match o with
  | Ok a _ => inr a
  | Raise e _ => inl e
  end.

Definition numpy_of (t : tensor) : ndarray := NdArray (t_shape t) (t_data t).

(** An image of a sample grid: one channel of 28 by 28 pixels. *)
Definition is_image (a : ndarray) : Prop := shape a = [1; 28; 28]%nat.

(** A row of a sample grid: 100 images. *)
Definition is_row (row : list ndarray) : Prop :=
  length row = 100%nat /\ Forall is_image row.

(** ** The chart of plot_llk

    What the calls of plot_llk build on the model of the libraries: the
    frame of one split, the frame of both, the layers of one plotting
    function and the figure that is saved. *)
Module Llk.

Definition split_frame (elbo : loss_record) (split : string) : dataframe :=
  [ ("Epoch", CInt <$> keys elbo);
    ("ELBO", CFloat <$> (Qopp <$> values elbo));
    ("dataset", replicate (length elbo) (CStr split)) ].

Definition frame (train_elbo test_elbo : loss_record) : dataframe :=
  [ ("Epoch", (CInt <$> keys train_elbo) ++ (CInt <$> keys test_elbo) ++ []);
    ("ELBO", (CFloat <$> (Qopp <$> values train_elbo))
               ++ (CFloat <$> (Qopp <$> values test_elbo)) ++ []);
    ("dataset", replicate (length train_elbo) (CStr "Train")
                  ++ replicate (length test_elbo) (CStr "Test") ++ []) ]%list.

Definition hue_names (train_elbo test_elbo : loss_record) : list cell :=
  Py.distinct_cells (replicate (length train_elbo) (CStr "Train")
                       ++ replicate (length test_elbo) (CStr "Test") ++ [])%list.

Definition layers (f : plotfn) (ls : option string) (train_elbo test_elbo : loss_record)
    : list layer :=
  default []
    (mapM (fun kn => Py.hue_layer
                       (replicate (length train_elbo) (CStr "Train")
                          ++ replicate (length test_elbo) (CStr "Test") ++ [])%list
                       ((CInt <$> keys train_elbo) ++ (CInt <$> keys test_elbo) ++ [])%list
                       ((CFloat <$> (Qopp <$> values train_elbo))
                          ++ (CFloat <$> (Qopp <$> values test_elbo)) ++ [])%list
                       f ls kn.1 kn.2)
          (imap pair (hue_names train_elbo test_elbo))).

Definition chart (train_elbo test_elbo : loss_record) : figure :=
  Py.set_legend
    (Py.set_integer_ticks
       (foldl (fun fg l => Py.add_layer l fg)
          (foldl (fun fg l => Py.add_layer l fg)
             (Py.blank (Some (4 * (3 # 2), 4)%Q) "whitegrid")
             (layers scatterplot None train_elbo test_elbo))
          (layers lineplot (Some "--") train_elbo test_elbo))).

Definition out_dir : list string := ["vae_results"].
Definition out_file : list string := ["vae_results"; "test_elbo_vae.png"].

(** The world after plot_llk. *)
Definition after (train_elbo test_elbo : loss_record) (w : Py.world) : Py.world :=
  Py.World (<[out_file := Py.File (chart train_elbo test_elbo)]> (<[out_dir := Py.Dir]> (Py.fs w)))
    ∅ None "whitegrid" (Py.backend w) (Py.displayed w) (Py.np_seed w) (Py.torch_seed w).

(** The points of the scatter layers of a figure, by colour and label. *)
Definition scatter_series (f : figure) : list (color * option string * list (Q * Q)) :=
  (fun l => (l_color l, l_label l, zip (l_x l) (l_y l)))
    <$> filter (fun l => l_kind l = scatterplot) (f_layers f).

End Llk.

(** ** The plots of plot_tsne

    What the calls of plot_tsne compute on the model of the libraries. *)
Module Tsne.

(** [classes[:, ic] == 1], for labels of [m] columns. *)
Definition class_mask (m : nat) (classes : ndarray) (ic : nat) : list bool :=
  (fun x => Qeq_bool x 1) <$> Py.select (fun j => (Py.column_of m [] j =? ic)%nat) (data classes).

(** [z_embed[mask, col]], for an embedding of [k] columns. *)
Definition class_points (k : nat) (z_embed : ndarray) (mask : list bool) (col : nat) : list Q :=
  Py.select (fun j => (Py.column_of k [] j =? col)%nat
                      && default false (mask !! Py.row_of k [] j)) (data z_embed).

(** The class indices that occur in the labels, and their number. *)
Definition occurs (m : nat) (classes : ndarray) (ic : nat) : bool :=
  existsb id (class_mask m classes ic).

Definition distinct_classes (classes : ndarray) : nat :=
  match shape classes with
  | [n; m] => length (filter (fun ic => occurs m classes ic = true) (seq 0 m))
  | _ => 0
  end.

(** The endings of the file names of plot_tsne, in order. *)
Definition suffixes : list string :=
  ((fun ic => "_embedding_" +:+ str_int (Z.of_nat ic) +:+ ".png") <$> range 10)
    ++ ["_embedding.png"].

(** The paths plot_tsne saves to, in order. *)
Definition paths (name : pyobj) : list string :=
  (VaePlots.class_path name <$> range 10) ++ [VaePlots.aggregate_path name].

(** A path that can be written: its parent is a directory and it is not
    one itself. *)
Definition writable (fs : gmap (list string) Py.node) (p : string) : Prop :=
  Py.is_dir fs (Py.resolve p) = false /\ Py.is_dir fs (Py.parent (Py.resolve p)) = true.

End Tsne.

(** The scatter calls of a trace: colour and coordinates. *)
Definition scatter_call (ev : event) : option (color * list Q * list Q) :=
  match ev with
  | Ev (PltScatter x y _ c) => Some (c, data x, data y)
  | _ => None
  end.

Definition scatter_calls (t : list event) : list (color * list Q * list Q) :=
  omap scatter_call t.

Definition is_file (n : Py.node) : bool :=
  match n with
  | Py.File _ => true
  | Py.Dir => false
  end.

(** The state of a world while plot_tsne draws on the figure [fig]: the
    figure is open and current, and the directories are those of [fs0]. *)
Definition plotting (fs0 : gmap (list string) Py.node) (fig : fig_ref) (w : Py.world) : Prop :=
  is_Some (Py.figs w !! fig) /\ Py.cur_fig w = Some fig /\
  forall q, Py.is_dir (Py.fs w) q = Py.is_dir fs0 q.

(** The number of files of a file system. *)
Definition count_files (fs : gmap (list string) Py.node) : nat :=
  length (filter (fun kv => is_file kv.2 = true) (map_to_list fs)).

(** The steps of a sample grid in a trace: a sample drawn for a label, a
    row of images appended to the display. *)
Inductive grid_step : Type :=
  | Sampled (label : tensor)
  | Appended (images : nat).

Definition grid_step_of (ev : event) : option grid_step :=
  match ev with
  | Ev (SsvaeModel _ _ y) => Some (Sampled y)
  | Ev (VisImages _ imgs _ _) => Some (Appended (length imgs))
  | _ => None
  end.

Definition grid_steps (t : list event) : list grid_step := omap grid_step_of t.

(** The label [i] as an indicator row of ten entries. *)
Definition indicator_row (i : nat) : tensor :=
  Tensor [1; 10]%nat (<[i := 1%Q]> (replicate 10 0%Q)).

(** A file system that holds a file at a path, and one that differs from
    another by files at the paths [qs] only. *)
Definition holds_file (fs : gmap (list string) Py.node) (q : list string) : Prop :=
  exists f, fs !! q = Some (Py.File f).

Definition written (qs : list (list string)) (fs fs' : gmap (list string) Py.node) : Prop :=
  (forall q, q ∈ qs -> holds_file fs' q) /\ (forall q, q ∉ qs -> fs' !! q = fs !! q).

(** ** Further notions for the properties of the module *)

(** Calls that create a directory and calls that close figures. *)
Definition makes_directory (ev : event) : bool :=
  match ev with
  | Ev (PathMkdir _ _ _) => true
  | _ => false
  end.

Definition closes_figures (ev : event) : bool :=
  match ev with
  | Ev (PltClose _) => true
  | _ => false
  end.

Definition is_plot_llk (op : VaePlots.operation) : bool :=
  match op with
  | VaePlots.OpPlotLlk _ _ => true
  | _ => false
  end.

(** What plot_tsne has drawn and saved after its first [i] classes, on the
    model of the libraries: the scatter layer of a class, the figure after
    [i] classes and the file system after [i] class files. *)
Module Embedding.

Definition title : string := "Latent Variable T-SNE per Class".

Definition dots (k m : nat) (z_embed classes : ndarray) (ic : nat) : layer :=
  Layer scatterplot
    (Tsne.class_points k z_embed (Tsne.class_mask m classes ic) 0)
    (Tsne.class_points k z_embed (Tsne.class_mask m classes ic) 1)
    (Set1 (Z.of_nat ic)) None (Some 10) None.

Definition picture (sty : string) (k m : nat) (z_embed classes : ndarray) (i : nat) : figure :=
  Figure None sty (dots k m z_embed classes <$> seq 0 i)
    (match i with O => None | S _ => Some title end) false false.

Definition files (name : pyobj) (pic : nat -> figure) (i : nat)
    (fs : gmap (list string) Py.node) : gmap (list string) Py.node :=
  foldl (fun fs ic => <[Py.resolve (VaePlots.class_path name ic) := Py.File (pic (S ic))]> fs)
    fs (seq 0 i).

(** The world after the first [i] classes, from the world [w0] in which
    the figure [fig] was opened, and the world after plot_tsne. *)
Definition after_classes (w0 : Py.world) (fig : nat) (name : pyobj) (pic : nat -> figure)
    (i : nat) : Py.world :=
  Py.World (files name pic i (Py.fs w0)) (<[fig := pic i]> (Py.figs w0)) (Some fig)
    (Py.style w0) (Py.backend w0) (Py.displayed w0) (Py.np_seed w0) (Py.torch_seed w0).

Definition finished (w : Py.world) (name : pyobj) (pic : nat -> figure) : Py.world :=
  Py.World
    (<[Py.resolve (VaePlots.aggregate_path name) := Py.File (pic 10%nat)]>
       (files name pic 10 (Py.fs w)))
    (<[Py.next_fig (Py.figs w) := pic 10%nat]> (Py.figs w))
    (Some (Py.next_fig (Py.figs w)))
    (Py.style w) "Agg" (Py.displayed w) (Py.np_seed w) (Py.torch_seed w).

End Embedding.

(** The scatter series that plot_llk draws for a split, and the splits that
    get one. *)
Module Curves.

Definition series (k : nat) (split : string) (elbo : loss_record)
    : color * option string * list (Q * Q) :=
  (Palette k, Some split, zip (inject_Z <$> keys elbo) (Qopp <$> values elbo)).

Definition has_epochs (elbo : loss_record) : bool :=
  match elbo with
  | [] => false
  | _ => true
  end.

Definition drawn_splits (train_elbo test_elbo : loss_record) : list (string * loss_record) :=
  filter (fun sp => has_epochs sp.2 = true) [("Train", train_elbo); ("Test", test_elbo)].

End Curves.

(** The steps of the unconditional sample grid in a trace. *)
Definition vae_step_of (ev : event) : option grid_step :=
  match ev with
  | Ev (VaeModel _ x) => Some (Sampled x)
  | Ev (VisImages _ imgs _ _) => Some (Appended (length imgs))
  | _ => None
  end.

Definition vae_steps (t : list event) : list grid_step := omap vae_step_of t.

(** The input of the unconditional model: [torch.zeros([1, 784])]. *)
Definition blank_input : tensor := Tensor [1; 784]%nat (replicate 784 0%Q).

(** The images of a sample grid when the samples of the model are given
    by the state of torch's generator: a sample as an image, the row drawn
    from the state [s0] on and the [b] rows drawn from [s0] on. *)
Module Samples.

Definition as_image (s : tensor) : ndarray := NdArray [1; 28; 28]%nat (t_data s).

Definition row (sample : Z -> tensor) (s0 : Z) : list ndarray :=
  (fun j => as_image (sample (s0 + Z.of_nat j))) <$> range 100.

Definition rows (sample : Z -> tensor) (s0 : Z) (b : nat) : list (list ndarray) :=
  (fun r => row sample (s0 + 100 * Z.of_nat r)) <$> seq 0 b.

Definition shown (vis : handle) (rs : list (list ndarray))
    : list (handle * list ndarray * Z * Z) :=
  (fun r => (vis, r, 10, 2)) <$> rs.

(** The world after [calls] calls of the model and the rows [rs]. *)
Definition after (w : Py.world) (vis : handle) (calls : Z) (rs : list (list ndarray))
    : Py.world :=
  Py.with_displayed (Py.with_torch_seed w (Py.torch_seed w + calls))
    (Py.displayed w ++ shown vis rs)%list.

End Samples.

(** The layers that plot_llk draws with one plotting function: one per
    split that has epochs, coloured by position. *)
Definition curve (f : plotfn) (ls : option string) (k : nat) (sp : string * loss_record)
    : layer :=
  Layer f (inject_Z <$> keys sp.2) (Qopp <$> values sp.2) (Palette k) (Some sp.1) None ls.

Definition curves (f : plotfn) (ls : option string) (train_elbo test_elbo : loss_record)
    : list layer :=
  imap (curve f ls) (Curves.drawn_splits train_elbo test_elbo).

(** ** What a program emits

    [emits obs l p]: whatever the calls return, the calls of [p] that [obs]
    observes are made in the order of [l], each at most once: a run that
    returns has made all of them, a run that raises the first ones. *)
Inductive emits {B : Type} (obs : event -> option B) {A : Type} : list B -> prog A -> Prop :=
  | emits_ret a : emits obs [] (Ret a)
  | emits_seen X (c : ext X) k b l :
      obs (Ev c) = Some b -> (forall x, emits obs l (k x)) -> emits obs (b :: l) (Call c k)
  | emits_unseen X (c : ext X) k l :
      obs (Ev c) = None -> (forall x, emits obs l (k x)) -> emits obs l (Call c k).

(** The files an operation saves, in order. *)
Definition scheduled (op : VaePlots.operation) : list string :=
  match op with
  | VaePlots.OpPlotConditionalSamplesSsvae _ _ => []
  | VaePlots.OpPlotVaeSamples _ _ => []
  | VaePlots.OpPlotLlk _ _ => ["./vae_results/test_elbo_vae.png"]
  | VaePlots.OpMnistTestTsne _ _ => Tsne.paths (PyStr "VAE")
  | VaePlots.OpMnistTestTsneSsvae PyNone _ _ => Tsne.paths (PyStr "SS-VAE")
  | VaePlots.OpMnistTestTsneSsvae name _ _ => Tsne.paths name
  | VaePlots.OpPlotTsne _ _ name => Tsne.paths name
  end.

(** The calls of a sample grid: a sample asked of a model, a row sent to
    the display. *)
Inductive grid_call : Type := ModelCall | RowSent.

Definition grid_call_of (ev : event) : option grid_call :=
  match ev with
  | Ev (SsvaeModel _ _ _) => Some ModelCall
  | Ev (VaeModel _ _) => Some ModelCall
  | Ev (VisImages _ _ _ _) => Some RowSent
  | _ => None
  end.

Definition grid_calls (t : list event) : list grid_call := omap grid_call_of t.

(** Ten times: a hundred samples, then one row. *)
Definition grid_schedule (op : VaePlots.operation) : list grid_call :=
  match op with
  | VaePlots.OpPlotConditionalSamplesSsvae _ _ | VaePlots.OpPlotVaeSamples _ _ =>
      mjoin (replicate 10 (replicate 100 ModelCall ++ [RowSent])%list)
  | _ => []
  end.

(** A name without path separator, and a working directory with nothing
    at [vae_results] or below it. *)
Definition slash_free (s : string) : Prop := Py.split_on "/" s = [s].

Definition no_output_dir (fs : gmap (list string) Py.node) : Prop :=
  forall q, fs !! ("vae_results" :: q) = None.

(** The model returns the sample [sample s], of 784 pixels, when it is
    called on the blank input in the state [s] of torch's generator. *)
Definition returns_sample (c : Py.collab) (vae : handle) (sample : Z -> tensor) (s : Z) : Prop :=
  exists rest,
    Py.vae_model c vae s blank_input = inr (sample s :: rest)
    /\ length (t_data (sample s)) = 784%nat.

(** A working directory in which the output path of plot_llk is a
    directory. *)
Definition shadowed : Py.world :=
  Py.with_fs Demo.ready (<[ ["vae_results"; "test_elbo_vae.png"] := Py.Dir ]> (Py.fs Demo.ready)).

(** Further sample networks: the constant sample of [Demo.nets], a model
    that fails from its 251st call on, and a model whose samples have four
    pixels. *)
Definition half_grey (s : Z) : tensor := Tensor [1; 784]%nat (replicate 784 (1 # 2)%Q).

Definition flaky : Py.collab :=
  Py.Collab (Py.ssvae_model Demo.nets)
    (fun h seed x => if seed <? 250 then Py.vae_model Demo.nets h seed x else inl RuntimeError)
    (Py.vae_encoder Demo.nets) (Py.ssvae_encoder_z Demo.nets) (Py.tsne_fit Demo.nets).

Definition tiny : Py.collab :=
  Py.Collab (Py.ssvae_model Demo.nets)
    (fun _ _ _ => inr [Tensor [2; 2]%nat [1; 2; 3; 4]%Q])
    (Py.vae_encoder Demo.nets) (Py.ssvae_encoder_z Demo.nets) (Py.tsne_fit Demo.nets).

(** The observations of a class, read off the arrays: the row [r] is
    labelled with the class [ic] when the entry [classes[r, ic]] equals 1;
    the coordinates of a class are the entries [z_embed[r, col]] of the
    rows labelled with it, in the order of the rows. *)
Definition labelled (m : nat) (classes : ndarray) (r ic : nat) : bool :=
  match data classes !! (r * m + ic)%nat with
  | Some x => Qeq_bool x 1
  | None => false
  end.

Definition class_coordinates (n k m : nat) (z_embed classes : ndarray) (ic col : nat)
    : list Q :=
  omap (fun r => if labelled m classes r ic then data z_embed !! (r * k + col)%nat else None)
    (seq 0 n).

(** The same for the conditional grid: the model returns the sample
    [sample s i], of 784 pixels, when it is called on the blank input and
    the indicator row of the label [i] in the state [s]; the row of a label
    drawn from the state [s0] on, and the rows of the labels [a] to
    [a + b - 1]. *)
Definition returns_sample_for (c : Py.collab) (ssvae : handle) (sample : Z -> nat -> tensor)
    (s : Z) (i : nat) : Prop :=
  exists rest,
    Py.ssvae_model c ssvae s blank_input (indicator_row i) = inr (sample s i :: rest)
    /\ length (t_data (sample s i)) = 784%nat.

Definition labelled_row (sample : Z -> nat -> tensor) (s0 : Z) (i : nat) : list ndarray :=
  (fun j => Samples.as_image (sample (s0 + Z.of_nat j) i)) <$> range 100.

Definition labelled_rows (sample : Z -> nat -> tensor) (s0 : Z) (a b : nat)
    : list (list ndarray) :=
  (fun r => labelled_row sample (s0 + 100 * Z.of_nat r) (a + r)) <$> seq 0 b.

(** The constant sample of [Demo.nets], for every label. *)
Definition half_grey_for (s : Z) (i : nat) : tensor := half_grey s.
(** ** Programs and runs: general facts *)

Section Runs.

Context {W : Type} (h : handler W).

Lemma run_bind {A B : Type} (p : prog A) (f : A -> prog B) (w : W) :
  run h (bind p f) w =
  match run h p w with
  | (t, Ok a w') => let '(t', o) := run h (f a) w' in ((t ++ t')%list, o)
  | (t, Raise e w') => (t, Raise e w')
  end.
Proof.
  revert w. induction p as [a | X c k IH]; intros w; simpl.
  - by destruct (run h (f a) w).
  - destruct (h X c w) as [x w' | e w']; [| done].
    rewrite IH. destruct (run h (k x) w') as [t [a w'' | e w'']]; [| done].
    by destruct (run h (f a) w'').
Qed.

Lemma run_call_bind {X B : Type} (c : ext X) (f : X -> prog B) (w : W) :
  run h (bind (call c) f) w =
  match h X c w with
  | Ok x w' => let '(t, o) := run h (f x) w' in (Ev c :: t, o)
  | Raise e w' => ([Ev c], Raise e w')
  end.
Proof. reflexivity. Qed.

Lemma run_call_ok {X B : Type} (c : ext X) (f : X -> prog B) (w : W) x w' :
  h X c w = Ok x w' ->
  run h (bind (call c) f) w = (Ev c :: (run h (f x) w').1, (run h (f x) w').2).
Proof. intros Hc. rewrite run_call_bind, Hc. by destruct (run h (f x) w'). Qed.

Lemma run_call_last {X : Type} (c : ext X) (w : W) x w' :
  h X c w = Ok x w' -> run h (call c) w = ([Ev c], Ok x w').
Proof. intros Hc. cbn. by rewrite Hc. Qed.

Lemma run_bind_ok {A B : Type} (p : prog A) (f : A -> prog B) (w : W) t a w' :
  run h p w = (t, Ok a w') ->
  run h (bind p f) w = ((t ++ (run h (f a) w').1)%list, (run h (f a) w').2).
Proof. intros Hp. rewrite run_bind, Hp. by destruct (run h (f a) w'). Qed.

(** A run that raises stopped at a call that raised. *)
Lemma raise_origin {A : Type} (p : prog A) (w : W) t e w' :
  run h p w = (t, Raise e w') ->
  exists t0 ev w0, t = (t0 ++ [ev])%list /\ issues h A p w t0 ev w0 /\ raises h ev w0 e w'.
Proof.
  revert w t. induction p as [a | X c k IH]; intros w t; simpl; [done |].
  destruct (h X c w) as [x w1 | e1 w1] eqn:Hc.
  - destruct (run h (k x) w1) as [t1 o] eqn:Hk. intros [= <- ->].
    destruct (IH x w1 t1 Hk) as (t0 & ev & w0 & -> & Hi & Hr).
    exists (Ev c :: t0), ev, w0. split; [done |]. split; [| done].
    by eapply issues_later.
  - intros [= <- <- <-]. exists [], (Ev c), w. split; [done |]. split; [constructor | done].
Qed.

(** A call that raises ends the run with its exception. *)
Lemma raise_propagates {A : Type} (p : prog A) (w : W) t0 ev w0 e w' :
  issues h A p w t0 ev w0 -> raises h ev w0 e w' ->
  run h p w = ((t0 ++ [ev])%list, Raise e w').
Proof.
  induction 1 as [A X c k w | A X c k w x w1 t ev w0 Hc Hi IH]; simpl; intros Hr.
  - by rewrite Hr.
  - rewrite Hc, (IH Hr). done.
Qed.

Lemma calls_ok_bind P {A B : Type} (p : prog A) (f : A -> prog B) :
  calls_ok P p -> (forall a, calls_ok P (f a)) -> calls_ok P (bind p f).
Proof. induction 1; simpl; [done |]. intros Hf. constructor; auto. Qed.

Lemma calls_ok_one P {X : Type} (c : ext X) : P (Ev c) -> calls_ok P (call c).
Proof. intros. constructor; [done |]. constructor. Qed.

Lemma calls_ok_for_each_in P {A : Type} (l : list A) body :
  (forall x, x ∈ l -> calls_ok P (body x)) -> calls_ok P (for_each l body).
Proof.
  induction l as [| x l IH]; intros Hb; simpl; [constructor |].
  apply calls_ok_bind.
  - apply Hb. by left.
  - intros _. apply IH. intros y Hy. apply Hb. by right.
Qed.

Lemma calls_ok_for_fold P {A S : Type} (l : list A) (body : A -> S -> prog S) s :
  (forall x s, calls_ok P (body x s)) -> calls_ok P (for_fold l body s).
Proof.
  intros Hb. revert s. induction l; intros s; simpl; [constructor |].
  apply calls_ok_bind; auto.
Qed.

Lemma calls_ok_trace P {A : Type} (p : prog A) (w : W) :
  calls_ok P p -> Forall P (trace h p w).
Proof.
  unfold trace. intros Hp. revert w. induction Hp as [a | X c k Hc Hk IH]; intros w; simpl.
  - constructor.
  - destruct (h X c w) as [x w' | e w']; simpl; [| by repeat constructor].
    specialize (IH x w'). destruct (run h (k x) w'). simpl in *. by constructor.
Qed.

End Runs.

Lemma Forall_saved_paths (Q : string -> Prop) (t : list event) :
  Forall (fun ev => forall p, saved_path ev = Some p -> Q p) t -> Forall Q (saved_paths t).
Proof.
  unfold saved_paths. induction 1 as [| ev t Hev _ IH]; simpl; [constructor |].
  destruct (saved_path ev) eqn:E; [constructor |]; auto.
Qed.

(** ** The model of the libraries on small inputs *)

Example resolve_output_path :
  Py.resolve "./vae_results/test_elbo_vae.png" = ["vae_results"; "test_elbo_vae.png"].
Proof. reflexivity. Qed.

Example resolve_dots : Py.resolve "a/../b/./c//d" = ["b"; "c"; "d"].
Proof. reflexivity. Qed.

Example mkdir_over_a_file :
  Py.mkdir "vae_results" true true {[ ["vae_results"] := Py.File (Py.blank None "white") ]}
  = inl FileExistsError.
Proof. reflexivity. Qed.

Example view_of_four_elements :
  Py.tensor_view (Tensor [2; 2]%nat [1; 2; 3; 4]%Q) [1; 28; 28]%nat = inl RuntimeError.
Proof. reflexivity. Qed.

Example second_column :
  Py.np_get_column (NdArray [2; 3]%nat [1; 2; 3; 4; 5; 6]%Q) 1
  = inr (NdArray [2]%nat [2; 5]%Q).
Proof. reflexivity. Qed.

Example column_of_a_vector :
  Py.np_get_column (numpy_of Demo.class_indices) 0 = inl IndexError.
Proof. reflexivity. Qed.

Example masked_second_column :
  Py.np_mask_column (NdArray [3; 2]%nat [1; 2; 3; 4; 5; 6]%Q)
    (BoolArray [3]%nat [true; false; true]) 1
  = inr (NdArray [2]%nat [2; 6]%Q).
Proof. reflexivity. Qed.

Example mask_of_class_0 : Tsne.class_mask 10 (numpy_of Demo.one_hot) 0 = [true; true; false].
Proof. reflexivity. Qed.

Example two_classes_occur : Tsne.distinct_classes (numpy_of Demo.one_hot) = 2%nat.
Proof. reflexivity. Qed.

Example paths_of_vae :
  Tsne.paths (PyStr "VAE")
  = [ "./vae_results/VAE_embedding_0.png"; "./vae_results/VAE_embedding_1.png";
      "./vae_results/VAE_embedding_2.png"; "./vae_results/VAE_embedding_3.png";
      "./vae_results/VAE_embedding_4.png"; "./vae_results/VAE_embedding_5.png";
      "./vae_results/VAE_embedding_6.png"; "./vae_results/VAE_embedding_7.png";
      "./vae_results/VAE_embedding_8.png"; "./vae_results/VAE_embedding_9.png";
      "./vae_results/VAE_embedding.png" ].
Proof. reflexivity. Qed.

Example path_without_a_name :
  VaePlots.aggregate_path PyNone = "./vae_results/None_embedding.png".
Proof. reflexivity. Qed.

(** On the demo inputs, with a loader and no encoder, the wrapper stops at
    the attribute access on [None]. *)
Example wrapper_without_encoder :
  value (result (Py.py Demo.nets)
           (VaePlots.mnist_test_tsne_ssvae PyNone None (Some Demo.held_out)) Demo.ready)
  = inl AttributeError.
Proof. reflexivity. Qed.

(** ** The glue code, for every behaviour of the libraries *)

Section Glue.

Import VaePlots.

Ltac unmonad := unfold mbind, prog_bind, mret, prog_ret.

(** Splits a program into its calls; leaves the obligations on calls that
    save a figure. *)
Ltac each_call :=
  repeat first
    [ apply calls_ok_ret
    | apply calls_ok_one
    | match goal with
      | |- calls_ok _ (for_each _ _) => apply calls_ok_for_each_in; intros ? ?
      | |- calls_ok _ (for_fold _ _ _) => apply calls_ok_for_fold; intros ? ?
      | |- calls_ok _ (let '(_, _) := ?z in _) => destruct z
      end
    | match goal with
      | |- calls_ok _ (plot_tsne _ _ _) => fail 1
      | |- _ => apply calls_ok_bind; [| intro]
      end ];
  try (intros ? ?; discriminate).

Lemma plot_tsne_calls (z_loc classes : tensor) (name : pyobj) :
  calls_ok (fun ev => forall p, saved_path ev = Some p -> embedding_path (py_str name) p)
    (plot_tsne z_loc classes name).
Proof.
  unfold plot_tsne, reduce_2d, to_numpy, plot_class, class_path. unmonad. each_call.
  - intros p [= <-]. right.
    match goal with H : _ ∈ range 10 |- _ => apply elem_of_seq in H end.
    eexists. split; [| reflexivity]. lia.
  - intros p [= <-]. by left.
Qed.




(** C7: called without a name, mnist_test_tsne_ssvae plots under the name
    SS-VAE.  Once the test data, the labels and the encoding are there, the
    run continues as plot_tsne of the encoding, the labels and the name
    SS-VAE: same calls, same outcome. *)
Theorem ssvae_default_name (ssvae : option handle) (test_loader : option loader)
    {W : Type} (h : handler W) (w w1 w2 w3 w4 : W)
    (data0 data mnist_labels z_loc z_scale : tensor) :
  h _ (AttrTestData test_loader) w = Ok data0 w1 ->
  h _ (TensorFloat data0) w1 = Ok data w2 ->
  h _ (AttrTestLabels test_loader) w2 = Ok mnist_labels w3 ->
  h _ (SsvaeEncoderZ ssvae data mnist_labels) w3 = Ok (z_loc, z_scale) w4 ->
  run h (mnist_test_tsne_ssvae PyNone ssvae test_loader) w =
  ( [ Ev (AttrTestData test_loader); Ev (TensorFloat data0); Ev (AttrTestLabels test_loader);
      Ev (SsvaeEncoderZ ssvae data mnist_labels) ]
      ++ trace h (plot_tsne z_loc mnist_labels (PyStr "SS-VAE")) w4,
    result h (plot_tsne z_loc mnist_labels (PyStr "SS-VAE")) w4 )%list.
Proof.
  intros H1 H2 H3 H4. unfold mnist_test_tsne_ssvae, trace, result. unmonad.
  rewrite run_call_bind, H1, run_call_bind, H2, run_call_bind, H3, run_call_bind, H4.
  by destruct (run h (plot_tsne z_loc mnist_labels (PyStr "SS-VAE")) w4).
Qed.

Lemma ssvae_default_name_witness :
  run (Py.py Demo.nets) (mnist_test_tsne_ssvae PyNone (Some 0%nat) (Some Demo.held_out))
    Demo.ready =
  ( [ Ev (AttrTestData (Some Demo.held_out)); Ev (TensorFloat Demo.z_loc);
      Ev (AttrTestLabels (Some Demo.held_out));
      Ev (SsvaeEncoderZ (Some 0%nat) Demo.z_loc Demo.one_hot) ]
      ++ trace (Py.py Demo.nets) (plot_tsne Demo.z_loc Demo.one_hot (PyStr "SS-VAE")) Demo.ready,
    result (Py.py Demo.nets) (plot_tsne Demo.z_loc Demo.one_hot (PyStr "SS-VAE")) Demo.ready )%list.
Proof.
  apply (ssvae_default_name (Some 0%nat) (Some Demo.held_out) (Py.py Demo.nets)
           Demo.ready Demo.ready Demo.ready Demo.ready Demo.ready
           Demo.z_loc Demo.z_loc Demo.one_hot Demo.z_loc Demo.z_loc);
    reflexivity.
Defined.

End Glue.

(** ** The operations on the model of the libraries *)

Section OnLibraries.

Import Py VaePlots.

Context (c : collab).

Ltac unmonad := unfold mbind, prog_bind, mret, prog_ret.

Lemma run_reduce_2d (z_loc : tensor) (w : world) :
  run (py c) (reduce_2d z_loc) w =
  ( [ Ev (TsneNew 2 (Some 0)); Ev (TensorDetach z_loc); Ev (TensorCpu z_loc);
      Ev (TensorNumpy z_loc); Ev (TsneFitTransform (TSNE 2 (Some 0)) (numpy_of z_loc)) ],
    lift (tsne_fit c 2 0 (numpy_of z_loc)) w ).
Proof.
  unfold reduce_2d, to_numpy. unmonad. cbn. unfold tsne_fit_transform. cbn.
  fold (numpy_of z_loc). by destruct (tsne_fit c 2 0 (numpy_of z_loc)).
Qed.

(** C3: the reduction of plot_tsne is deterministic.  Run in any two
    worlds on the same location vectors, it gives the caller the same
    coordinates (or the same exception): those of the reduction algorithm
    for two components and seed 0, which do not depend on the state of
    the global generators. *)
Theorem reduction_deterministic (z_loc : tensor) (w1 w2 : world) :
  value (result (py c) (reduce_2d z_loc) w1) = value (result (py c) (reduce_2d z_loc) w2)
  /\ value (result (py c) (reduce_2d z_loc) w1) = tsne_fit c 2 0 (numpy_of z_loc).
Proof.
  unfold result. rewrite !run_reduce_2d. simpl.
  by destruct (tsne_fit c 2 0 (numpy_of z_loc)).
Qed.

(** The seed matters: a reduction asked for without one depends on the
    state of numpy's generator. *)
Example unseeded_reduction_varies :
  value (Py.py Demo.jitter _ (TsneFitTransform (TSNE 2 None) (numpy_of Demo.z_loc)) Demo.ready)
  <> value (Py.py Demo.jitter _ (TsneFitTransform (TSNE 2 None) (numpy_of Demo.z_loc))
              (with_np_seed Demo.ready 1)).
Proof. vm_compute. discriminate. Qed.


(** *** The sample grid *)

Lemma image_rows_app (t1 t2 : list event) :
  image_rows (t1 ++ t2) = (image_rows t1 ++ image_rows t2)%list.
Proof. apply omap_app. Qed.

Lemma grid_steps_app (t1 t2 : list event) :
  grid_steps (t1 ++ t2) = (grid_steps t1 ++ grid_steps t2)%list.
Proof. apply omap_app. Qed.

Lemma run_sample_image (s : tensor) (rest : list tensor) (w : world) :
  length (t_data s) = 784%nat ->
  exists t, run (py c) (sample_image (s :: rest)) w = (t, Ok (NdArray [1; 28; 28]%nat (t_data s)) w)
            /\ image_rows t = [] /\ grid_steps t = [].
Proof.
  intros Hs. eexists. unfold sample_image. unmonad.
  rewrite run_call_bind. cbn [py lookup list_lookup from_option lift].
  rewrite run_call_bind. cbn [py]. unfold tensor_view. rewrite Hs.
  change (numel [1; 28; 28]%nat =? 784)%nat with true. cbn [lift].
  split; [| split]; reflexivity.
Qed.

Section ConditionalGrid.

Context (ssvae vis : handle).
Hypothesis samples_784 :
  forall seed xs ys, exists s rest,
    ssvae_model c ssvae seed xs ys = inr (s :: rest) /\ length (t_data s) = 784%nat.

Lemma run_conditional_sample xs ys i yi rr images w :
  ys !! i = Some yi ->
  exists t img,
    run (py c) (conditional_sample ssvae xs ys i rr images) w
      = (t, Ok (images ++ [img])%list (with_torch_seed w (torch_seed w + 1)))
    /\ image_rows t = [] /\ grid_steps t = [Sampled yi] /\ is_image img.
Proof.
  intros Hy. destruct (samples_784 (torch_seed w) xs yi) as (s & rest & Hm & Hs).
  destruct (run_sample_image s rest (with_torch_seed w (torch_seed w + 1)) Hs)
    as (t & Ht & Hrows & Hsteps).
  eexists _, _. unfold conditional_sample. unmonad.
  rewrite run_call_bind. cbn [py]. rewrite Hy. cbn [from_option lift].
  rewrite run_call_bind. cbn [py]. rewrite Hm. cbn [lift].
  rewrite run_bind, Ht. cbn [run]. split; [reflexivity |].
  split; [| split; [| reflexivity]].
  - cbn. by rewrite image_rows_app, Hrows.
  - cbn. by rewrite grid_steps_app, Hsteps.
Qed.

Lemma run_samples xs ys i yi (l : list nat) images w :
  ys !! i = Some yi ->
  exists t new,
    run (py c) (for_fold l (conditional_sample ssvae xs ys i) images) w
      = (t, Ok (images ++ new)%list (with_torch_seed w (torch_seed w + Z.of_nat (length l))))
    /\ image_rows t = [] /\ grid_steps t = replicate (length l) (Sampled yi)
    /\ length new = length l /\ Forall is_image new.
Proof.
  intros Hy. revert images w. induction l as [| rr l IH]; intros images w.
  - exists [], []. rewrite app_nil_r. cbn. destruct w. cbn. rewrite Z.add_0_r. done.
  - destruct (run_conditional_sample xs ys i yi rr images w Hy)
      as (t1 & img & H1 & Hr1 & Hg1 & Hi).
    destruct (IH (images ++ [img])%list (with_torch_seed w (torch_seed w + 1)))
      as (t2 & new & H2 & Hr2 & Hg2 & Hlen & Hall).
    exists (t1 ++ t2)%list, (img :: new). cbn [for_fold]. rewrite run_bind, H1, H2.
    split.
    + rewrite <- app_assoc. do 2 f_equal.
      change (with_torch_seed (with_torch_seed w (torch_seed w + 1))
                (torch_seed (with_torch_seed w (torch_seed w + 1)) + Z.of_nat (length l)))
        with (with_torch_seed w (torch_seed w + 1 + Z.of_nat (length l))).
      f_equal. simpl length. lia.
    + rewrite image_rows_app, grid_steps_app, Hr1, Hr2, Hg1, Hg2. cbn.
      split; [done |]. split; [done |]. split; [lia | by constructor].
Qed.

Lemma run_grid xs ys (label : nat -> tensor) (l : list nat) w :
  Forall (fun i => ys !! i = Some (label i)) l ->
  exists t w',
    run (py c)
      (for_each l (fun i =>
         images ← for_fold (range 100) (conditional_sample ssvae xs ys i) [];
         call (VisImages vis images 10 2))) w = (t, Ok tt w')
    /\ length (image_rows t) = length l
    /\ Forall is_row (image_rows t)
    /\ grid_steps t
       = mjoin ((fun i => replicate 100 (Sampled (label i)) ++ [Appended 100])%list <$> l)
    /\ displayed w' = (displayed w ++ ((fun row => (vis, row, 10, 2)) <$> image_rows t))%list.
Proof.
  intros Hl. revert w. unfold mbind, prog_bind.
  induction Hl as [| i l Hy _ IH]; intros w.
  - exists [], w. cbn. by rewrite app_nil_r.
  - destruct (run_samples xs ys i (label i) (range 100) [] w Hy)
      as (t1 & new & H1 & Hr1 & Hg1 & Hlen & Hall).
    cbn [app] in H1.
    set (w1 := with_displayed (with_torch_seed w (torch_seed w + Z.of_nat (length (range 100))))
                 (displayed w ++ [(vis, new, 10, 2)])%list).
    destruct (IH w1) as (t2 & w' & H2 & Hn2 & Hrows2 & Hg2 & Hd2).
    exists ((t1 ++ [Ev (VisImages vis new 10 2)]) ++ t2)%list, w'.
    cbn [for_each]. rewrite run_bind, run_bind, H1.
    cbn [app run call py].
    lazymatch goal with
    | |- context [with_displayed ?a ?b] => change (with_displayed a b) with w1
    end.
    rewrite H2.
    rewrite !image_rows_app, !grid_steps_app, Hr1, Hg1, Hg2.
    cbn [image_rows grid_steps omap list_omap image_row grid_step_of app].
    split; [done |]. split; [cbn; by rewrite Hn2 |]. split; [| split].
    + constructor; [| done]. split; [| done]. by rewrite Hlen.
    + rewrite Hlen. cbn [fmap list_fmap mjoin list_join]. by rewrite <- app_assoc.
    + rewrite Hd2. unfold w1. cbn. by rewrite <- app_assoc.
Qed.

(** The dict that the first loop builds maps each label to its indicator
    row. *)
Lemma run_label_rows (w : world) :
  exists t ys,
    run (py c) (for_fold (range 10) label_row ∅) w = (t, Ok ys w)
    /\ image_rows t = [] /\ grid_steps t = []
    /\ Forall (fun i => ys !! i = Some (indicator_row i)) (range 10).
Proof.
  eexists _, _. split; [vm_compute; reflexivity |]. split; [reflexivity |].
  split; [reflexivity |]. repeat constructor.
Qed.

End ConditionalGrid.


(** *** The loss curve *)

Lemma select_Forall {A : Type} (P : A -> Prop) (keep : nat -> bool) (l : list A) :
  Forall P l -> Forall P (select keep l).
Proof.
  unfold select. intros Hl. revert keep.
  induction Hl as [| x l Hx _ IH]; intros keep; cbn; [constructor |].
  destruct (keep 0%nat); cbn; [constructor; [done |] |]; apply (IH (keep ∘ S)).
Qed.

Lemma hue_layer_is_Some hs xs ys f ls k name :
  Forall (fun x => is_Some (cell_number x)) xs ->
  Forall (fun y => is_Some (cell_number y)) ys ->
  is_Some (hue_layer hs xs ys f ls k name).
Proof.
  intros Hx Hy. unfold hue_layer.
  set (keep := fun j => default false (cell_eqb name <$> hs !! j)).
  destruct (proj2 (mapM_is_Some cell_number (select keep xs))) as [px ->].
  { by apply select_Forall. }
  destruct (proj2 (mapM_is_Some cell_number (select keep ys))) as [py ->].
  { by apply select_Forall. }
  by eexists.
Qed.

Lemma numeric_epochs (tr te : loss_record) :
  Forall (fun x => is_Some (cell_number x))
    ((CInt <$> keys tr) ++ (CInt <$> keys te) ++ [])%list.
Proof.
  rewrite !Forall_app, !Forall_fmap.
  repeat split; first [by constructor | apply Forall_true; intros ?; by eexists].
Qed.

Lemma numeric_losses (tr te : loss_record) :
  Forall (fun x => is_Some (cell_number x))
    ((CFloat <$> (Qopp <$> values tr)) ++ (CFloat <$> (Qopp <$> values te)) ++ [])%list.
Proof.
  rewrite !Forall_app, !Forall_fmap.
  repeat split; first [by constructor | apply Forall_true; intros ?; by eexists].
Qed.

Lemma pd_dataframe_split (elbo : loss_record) (split : string) :
  pd_dataframe (elbo_columns elbo split) = inr (Llk.split_frame elbo split).
Proof.
  unfold pd_dataframe, elbo_columns, keys, values. cbn.
  rewrite !length_fmap, Nat.eqb_refl. reflexivity.
Qed.

Lemma mkdir_out_dir (fs0 : gmap (list string) node) :
  fs0 !! Llk.out_dir = None \/ fs0 !! Llk.out_dir = Some Dir ->
  mkdir "vae_results" true true fs0 = inr (<[Llk.out_dir := Dir]> fs0).
Proof.
  unfold mkdir. change (resolve "vae_results") with Llk.out_dir.
  unfold is_dir, Llk.out_dir. intros [H | H]; rewrite H; cbn.
  - reflexivity.
  - by rewrite insert_id.
Qed.

Lemma write_out_file (chart : figure) (fs0 : gmap (list string) node) :
  fs0 !! Llk.out_dir = Some Dir -> fs0 !! Llk.out_file <> Some Dir ->
  write_file "./vae_results/test_elbo_vae.png" chart fs0
  = inr (<[Llk.out_file := File chart]> fs0).
Proof.
  intros Hd Hf. unfold write_file.
  change (resolve "./vae_results/test_elbo_vae.png") with Llk.out_file.
  change (parent Llk.out_file) with Llk.out_dir.
  unfold is_dir, Llk.out_file, Llk.out_dir in *. rewrite Hd.
  destruct (fs0 !! ["vae_results"; "test_elbo_vae.png"]) as [[|] |]; done.
Qed.

Lemma layers_found (f : plotfn) (ls : option string) (tr te : loss_record) :
  mapM (fun kn => hue_layer
                    (replicate (length tr) (CStr "Train")
                       ++ replicate (length te) (CStr "Test") ++ [])%list
                    ((CInt <$> keys tr) ++ (CInt <$> keys te) ++ [])%list
                    ((CFloat <$> (Qopp <$> values tr))
                       ++ (CFloat <$> (Qopp <$> values te)) ++ [])%list
                    f ls kn.1 kn.2)
       (imap pair (Llk.hue_names tr te))
  = Some (Llk.layers f ls tr te).
Proof.
  unfold Llk.layers.
  match goal with |- ?m = _ => destruct (proj2 (mapM_is_Some _ _ : is_Some m ↔ _)) as [x ->] end;
    [| done].
  apply Forall_true. intros [k name]. apply hue_layer_is_Some.
  - apply numeric_epochs.
  - apply numeric_losses.
Qed.

Lemma grid_map_llk (n : nat) (f : plotfn) (ls : option string) (tr te : loss_record)
    (w : world) :
  is_Some (figs w !! n) ->
  grid_map (Grid n (Llk.frame tr te) "dataset" (Llk.hue_names tr te)) f "Epoch" "ELBO" ls w
  = Ok tt (draw n (fun fig => foldl (fun fg l => add_layer l fg) fig (Llk.layers f ls tr te)) w).
Proof.
  intros Hn. unfold grid_map.
  change (get_column (g_data _) (g_hue _))
    with (Some (replicate (length tr) (CStr "Train")
                  ++ replicate (length te) (CStr "Test") ++ [])%list).
  change (get_column (g_data _) "Epoch")
    with (Some ((CInt <$> keys tr) ++ (CInt <$> keys te) ++ [])%list).
  change (get_column (g_data _) "ELBO")
    with (Some ((CFloat <$> (Qopp <$> values tr))
                  ++ (CFloat <$> (Qopp <$> values te)) ++ [])%list).
  cbn [g_hue_names g_fig]. rewrite layers_found.
  by rewrite bool_decide_eq_true_2.
Qed.

Lemma on_grid_open (g : grid) (f : figure -> figure) (w : world) :
  is_Some (figs w !! g_fig g) ->
  on_grid g f w = Ok tt (with_figs w (alter f (g_fig g) (figs w)) (cur_fig w)).
Proof. intros Hn. unfold on_grid. by rewrite bool_decide_eq_true_2. Qed.

Lemma run_plot_llk (tr te : loss_record) (w : world) :
  fs w !! Llk.out_dir = None \/ fs w !! Llk.out_dir = Some Dir ->
  fs w !! Llk.out_file <> Some Dir ->
  exists t,
    run (py c) (plot_llk tr te) w = (t, Ok tt (Llk.after tr te w))
    /\ saved_paths t = ["./vae_results/test_elbo_vae.png"].
Proof.
  intros Hd Hf. eexists. unfold plot_llk. unmonad.
  set (w1 := with_fs w (<[Llk.out_dir := Dir]> (fs w))).
  set (n1 := next_fig (figs w1)).
  set (w2 := with_figs w1 (<[n1 := blank (Some (inject_Z 30, inject_Z 10)) (style w1)]> (figs w1))
               (Some n1)).
  set (w3 := with_style w2 "whitegrid").
  set (n2 := next_fig (figs w3)).
  set (w4 := with_figs w3 (<[n2 := blank (Some (4 * (3 # 2), 4)%Q) "whitegrid"]> (figs w3))
               (Some n2)).
  set (g := Grid n2 (Llk.frame tr te) "dataset" (Llk.hue_names tr te)).
  set (scatter := fun fig => foldl (fun fg l => add_layer l fg) fig
                                (Llk.layers scatterplot None tr te)).
  set (line := fun fig => foldl (fun fg l => add_layer l fg) fig
                             (Llk.layers lineplot (Some "--") tr te)).
  set (w5 := draw n2 scatter w4).
  set (w6 := draw n2 line w5).
  set (w7 := with_figs w6 (alter set_integer_ticks n2 (figs w6)) (cur_fig w6)).
  set (w8 := with_figs w7 (alter set_legend n2 (figs w7)) (cur_fig w7)).
  assert (figs w8 !! n2 = Some (Llk.chart tr te)) as Hchart.
  { unfold w8, w7, w6, w5, draw, w4. cbn [figs cur_fig with_figs].
    rewrite !lookup_alter_eq, lookup_insert_eq. reflexivity. }
  set (w9 := with_fs w8 (<[Llk.out_file := File (Llk.chart tr te)]> (fs w8))).
  rewrite (run_call_ok (py c) (PathMkdir _ _ _) _ w tt w1);
    [| cbn [py]; by rewrite (mkdir_out_dir _ Hd)].
  rewrite (run_call_ok (py c) (PltFigure _) _ w1 n1 w2); [| reflexivity].
  rewrite (run_call_ok (py c) (SnsSetStyle _) _ w2 tt w3); [| reflexivity].
  rewrite (run_call_ok (py c) (PdDataFrame _) _ w3 (Llk.split_frame tr "Train") w3);
    [| cbn [py]; by rewrite pd_dataframe_split].
  rewrite (run_call_ok (py c) (PdDataFrame _) _ w3 (Llk.split_frame te "Test") w3);
    [| cbn [py]; by rewrite pd_dataframe_split].
  rewrite (run_call_ok (py c) (PdConcat _ _) _ w3 (Llk.frame tr te) w3); [| reflexivity].
  rewrite (run_call_ok (py c) (SnsFacetGrid _ _ _ _) _ w3 g w4); [| reflexivity].
  rewrite (run_call_ok (py c) (GridMap _ _ _ _ _) _ w4 tt w5);
    [| cbn [py]; apply grid_map_llk; unfold w4; cbn [figs with_figs];
       rewrite lookup_insert_eq; by eexists].
  rewrite (run_call_ok (py c) (GridMap _ _ _ _ _) _ w5 tt w6);
    [| cbn [py]; apply grid_map_llk; unfold w5, draw, w4; cbn [figs with_figs];
       rewrite lookup_alter_eq, lookup_insert_eq; by eexists].
  rewrite (run_call_ok (py c) (GridIntegerTicks _) _ w6 tt w7);
    [| cbn [py]; apply on_grid_open; unfold w6, w5, draw, w4; cbn [figs with_figs g_fig g];
       rewrite !lookup_alter_eq, lookup_insert_eq; by eexists].
  rewrite (run_call_ok (py c) (GridAddLegend _) _ w7 tt w8);
    [| cbn [py]; apply on_grid_open; unfold w7, w6, w5, draw, w4; cbn [figs with_figs g_fig g];
       rewrite !lookup_alter_eq, lookup_insert_eq; by eexists].
  rewrite (run_call_ok (py c) (PltSavefig _) _ w8 tt w9).
  2:{ cbn [py]. unfold gcf.
      change (cur_fig w8) with (Some n2). cbv beta iota.
      rewrite bool_decide_eq_true_2 by (by rewrite Hchart). cbv beta iota.
      unfold savefig. rewrite Hchart. rewrite write_out_file; [done | |].
      - apply lookup_insert_eq.
      - change (fs w8) with (<[Llk.out_dir := Dir]> (fs w)).
        by rewrite lookup_insert_ne. }
  rewrite (run_call_last (py c) (PltClose _) w9 tt (Llk.after tr te w)); [| reflexivity].
  split; reflexivity.
Qed.

(** C4: plot_llk creates its output directory when it is absent, succeeds
    when it is already there, and can be repeated.  In a working directory
    where vae_results is absent or a directory (and the output path is not
    a directory), plot_llk completes; afterwards vae_results is a directory
    and the output path holds the chart of the two loss records, whatever
    file was there before.  A second call with the same records, run in the
    world the first one left, completes too, saves the same chart and
    leaves the file system as the first call left it. *)
Theorem plot_llk_idempotent (train_elbo test_elbo : loss_record) (w : world) :
  fs w !! resolve "vae_results" = None \/ fs w !! resolve "vae_results" = Some Dir ->
  fs w !! resolve "./vae_results/test_elbo_vae.png" <> Some Dir ->
  exists w1 w2 chart,
    result (py c) (plot_llk train_elbo test_elbo) w = Ok tt w1
    /\ fs w1 !! resolve "vae_results" = Some Dir
    /\ fs w1 !! resolve "./vae_results/test_elbo_vae.png" = Some (File chart)
    /\ result (py c) (plot_llk train_elbo test_elbo) w1 = Ok tt w2
    /\ fs w2 !! resolve "./vae_results/test_elbo_vae.png" = Some (File chart)
    /\ fs w2 = fs w1.
Proof.
  change (resolve "vae_results") with Llk.out_dir.
  change (resolve "./vae_results/test_elbo_vae.png") with Llk.out_file.
  intros Hd Hf.
  destruct (run_plot_llk train_elbo test_elbo w Hd Hf) as (t1 & H1 & _).
  set (w1 := Llk.after train_elbo test_elbo w) in *.
  assert (fs w1 !! Llk.out_dir = Some Dir) as Hd1.
  { unfold w1, Llk.after. cbn [fs]. rewrite lookup_insert_ne by done. apply lookup_insert_eq. }
  assert (fs w1 !! Llk.out_file = Some (File (Llk.chart train_elbo test_elbo))) as Hf1.
  { unfold w1, Llk.after. cbn [fs]. apply lookup_insert_eq. }
  destruct (run_plot_llk train_elbo test_elbo w1) as (t2 & H2 & _).
  { by right. }
  { by rewrite Hf1. }
  assert (fs (Llk.after train_elbo test_elbo w1) = fs w1) as Hsame.
  { unfold Llk.after at 1. cbn [fs]. by rewrite (insert_id _ _ _ Hd1), (insert_id _ _ _ Hf1). }
  exists w1, (Llk.after train_elbo test_elbo w1), (Llk.chart train_elbo test_elbo).
  unfold result. rewrite H1, H2, Hsame. done.
Qed.

(** C9: for train = {0: -120.5, 1: -100.2} and test = {0: -130.0,
    1: -110.7}, plot_llk saves exactly one chart, at
    ./vae_results/test_elbo_vae.png; its scatter layers are two series,
    one per split and each in its own colour, of two points each: four
    points, the losses with their sign changed against the epochs. *)
Theorem example_loss_chart (w : world) :
  fs w !! resolve "vae_results" = None \/ fs w !! resolve "vae_results" = Some Dir ->
  fs w !! resolve "./vae_results/test_elbo_vae.png" <> Some Dir ->
  exists t w' chart,
    run (py c) (plot_llk Demo.train Demo.test) w = (t, Ok tt w')
    /\ saved_paths t = ["./vae_results/test_elbo_vae.png"]
    /\ fs w' = <[resolve "./vae_results/test_elbo_vae.png" := File chart]>
                 (<[resolve "vae_results" := Dir]> (fs w))
    /\ Llk.scatter_series chart
       = [ (Palette 0, Some "Train", [(0, 241 # 2); (1, 501 # 5)]%Q);
           (Palette 1, Some "Test", [(0, 130); (1, 1107 # 10)]%Q) ].
Proof.
  intros Hd Hf. destruct (run_plot_llk Demo.train Demo.test w Hd Hf) as (t & Hrun & Hsaved).
  exists t, (Llk.after Demo.train Demo.test w), (Llk.chart Demo.train Demo.test).
  split; [done |]. split; [done |]. split; reflexivity.
Qed.

(** *** Paths *)

Lemma string_app_cons (a : ascii) (s u : string) : String a s +:+ u = String a (s +:+ u).
Proof. reflexivity. Qed.

Lemma string_length_app (s u : string) :
  String.length (s +:+ u) = (String.length s + String.length u)%nat.
Proof. induction s as [| a s IH]; [done |]. rewrite string_app_cons. cbn. by rewrite IH. Qed.

Lemma split_on_nonempty (sep : ascii) (s : string) : split_on sep s <> [].
Proof.
  induction s as [| a s IH]; cbn; [done |].
  destruct (Ascii.eqb a sep); [done |]. by destruct (split_on sep s).
Qed.

(** Splitting a string that ends in a part [u] without separator. *)
Lemma split_on_app (sep : ascii) (s u : string) :
  split_on sep u = [u] ->
  split_on sep (s +:+ u)
  = (removelast (split_on sep s) ++ [List.last (split_on sep s) "" +:+ u])%list.
Proof.
  intros Hu. induction s as [| a s IH].
  - change ("" +:+ u) with u. by rewrite Hu.
  - rewrite string_app_cons. cbn [split_on]. rewrite IH.
    pose proof (split_on_nonempty sep s) as Hne.
    destruct (split_on sep s) as [| y [| z l]]; [done | |];
      destruct (Ascii.eqb a sep); reflexivity.
Qed.

Lemma resolve_step_name (acc : list string) (x : string) :
  (2 < String.length x)%nat -> resolve_step acc x = (acc ++ [x])%list.
Proof.
  intros Hx. unfold resolve_step.
  destruct (String.eqb_spec x "") as [-> | _]; [cbn in Hx; lia |].
  destruct (String.eqb_spec x ".") as [-> | _]; [cbn in Hx; lia |].
  destruct (String.eqb_spec x "..") as [-> | _]; [cbn in Hx; lia |].
  done.
Qed.

(** The components of a path that ends in a file-name part [u]. *)
Lemma resolve_app (s u : string) :
  split_on "/"%char u = [u] -> (2 < String.length u)%nat ->
  resolve (s +:+ u)
  = (foldl resolve_step [] (removelast (split_on "/"%char s))
       ++ [List.last (split_on "/"%char s) "" +:+ u])%list.
Proof.
  intros Hu Hlen. unfold resolve. rewrite (split_on_app _ _ _ Hu), foldl_app. cbn [foldl].
  apply resolve_step_name. rewrite string_length_app. lia.
Qed.

Lemma paths_suffixes (name : pyobj) :
  Tsne.paths name = (fun u => ("./vae_results/" +:+ py_str name) +:+ u) <$> Tsne.suffixes.
Proof.
  unfold Tsne.paths, Tsne.suffixes, class_path, aggregate_path.
  rewrite fmap_app, <- list_fmap_compose. reflexivity.
Qed.

Lemma suffixes_are_names :
  Forall (fun u => split_on "/"%char u = [u] /\ (2 < String.length u)%nat) Tsne.suffixes.
Proof. repeat constructor; cbn; lia. Qed.

Lemma suffixes_NoDup : NoDup Tsne.suffixes.
Proof. apply (bool_decide_unpack (NoDup Tsne.suffixes)). vm_compute. exact I. Qed.

(** The files of plot_tsne are 11 different files. *)
Lemma resolved_paths_NoDup (name : pyobj) : NoDup (resolve <$> Tsne.paths name).
Proof.
  rewrite paths_suffixes, <- list_fmap_compose.
  apply NoDup_fmap_2_strong; [| apply suffixes_NoDup].
  intros u v Hu Hv. pose proof suffixes_are_names as Hs. rewrite Forall_forall in Hs.
  destruct (Hs u Hu) as [Hu1 Hu2], (Hs v Hv) as [Hv1 Hv2]. unfold compose.
  rewrite (resolve_app _ u Hu1 Hu2), (resolve_app _ v Hv1 Hv2).
  intros Heq. apply app_inv_head in Heq. injection Heq as Heq.
  by apply String.app_inj in Heq.
Qed.

Lemma written_nil (fs0 : gmap (list string) node) : written [] fs0 fs0.
Proof. split; [intros q Hq; by apply elem_of_nil in Hq | done]. Qed.

Lemma written_one (q : list string) (f : figure) (fs0 : gmap (list string) node) :
  written [q] fs0 (<[q := File f]> fs0).
Proof.
  split.
  - intros q' ->%list_elem_of_singleton. exists f. apply lookup_insert_eq.
  - intros q' Hq'. apply lookup_insert_ne. intros ->. apply Hq'. by apply list_elem_of_singleton.
Qed.

Lemma written_app (qs1 qs2 : list (list string)) (fs0 fs1 fs2 : gmap (list string) node) :
  written qs1 fs0 fs1 -> written qs2 fs1 fs2 -> written (qs1 ++ qs2) fs0 fs2.
Proof.
  intros [Hin1 Hout1] [Hin2 Hout2]. split.
  - intros q Hq. destruct (decide (q ∈ qs2)) as [H2 | H2]; [by apply Hin2 |].
    apply elem_of_app in Hq as [Hq | Hq]; [| done].
    destruct (Hin1 q Hq) as [f Hf]. exists f. by rewrite Hout2.
  - intros q Hq. rewrite not_elem_of_app in Hq. destruct Hq as [Hq1 Hq2].
    by rewrite Hout2, Hout1.
Qed.


(** *** The embedding plots *)

Lemma select_cons {A : Type} (keep : nat -> bool) (x : A) (l : list A) :
  select keep (x :: l) = ((if keep 0%nat then [x] else []) ++ select (keep ∘ S) l)%list.
Proof. unfold select. cbn. by destruct (keep 0%nat). Qed.

Lemma select_ext {A : Type} (keep keep' : nat -> bool) (l : list A) :
  (forall j, (j < length l)%nat -> keep j = keep' j) -> select keep l = select keep' l.
Proof.
  revert keep keep'. induction l as [| x l IH]; intros keep keep' H; [done |].
  rewrite !select_cons, (H 0%nat) by (cbn; lia). f_equal.
  apply IH. intros j Hj. apply (H (S j)). cbn. lia.
Qed.

Lemma select_app {A : Type} (keep : nat -> bool) (l1 l2 : list A) :
  select keep (l1 ++ l2) = (select keep l1 ++ select (fun j => keep (length l1 + j)%nat) l2)%list.
Proof.
  revert keep. induction l1 as [| x l1 IH]; intros keep; [done |].
  cbn [app]. rewrite !select_cons, IH, <- app_assoc. done.
Qed.

Lemma select_none {A : Type} (keep : nat -> bool) (l : list A) :
  (forall j, (j < length l)%nat -> keep j = false) -> select keep l = [].
Proof.
  revert keep. induction l as [| x l IH]; intros keep H; [done |].
  rewrite select_cons, (H 0%nat) by (cbn; lia). cbn [app].
  apply IH. intros j Hj. apply (H (S j)). cbn. lia.
Qed.

(** Of one row, the mask and the column keep one element or none. *)
Lemma select_in_row {A : Type} (col : nat) (b : bool) (l : list A) :
  (col < length l)%nat ->
  length (select (fun j => (j =? col)%nat && b) l) = (if b then 1 else 0)%nat.
Proof.
  revert col. induction l as [| x l IH]; intros col Hc; [cbn in Hc; lia |].
  rewrite select_cons, length_app. destruct col as [| col].
  - rewrite select_none by (intros j _; done). cbn. by destruct b.
  - cbn [Nat.eqb andb app length]. rewrite (select_ext _ (fun j => (j =? col)%nat && b)) by done.
    rewrite IH by (cbn in Hc; lia). done.
Qed.

(** In an array of [n] rows of [k] elements, a mask on the rows keeps as
    many elements of one column as it has true entries. *)
Lemma select_rows_length {A : Type} (k col n : nat) (b : nat -> bool) (l : list A) :
  (col < k)%nat -> length l = (n * k)%nat ->
  length (select (fun j => (column_of k [] j =? col)%nat && b (row_of k [] j)) l)
  = length (filter (fun x => x = true) (b <$> seq 0 n)).
Proof.
  intros Hc. revert b l. induction n as [| n IH]; intros b l Hl.
  - destruct l; [done | cbn in Hl; lia].
  - rewrite <- (take_drop k l), select_app, length_app.
    assert (length (take k l) = k) as Hk by (rewrite length_take; cbn in Hl; lia).
    rewrite Hk.
    rewrite (select_ext _ (fun j => (j =? col)%nat && b 0%nat)).
    2:{ intros j Hj. rewrite Hk in Hj. unfold column_of, row_of. cbn [numel foldr].
        rewrite Nat.div_1_r, Nat.mul_1_r, Nat.mod_small, Nat.div_small by lia. done. }
    rewrite select_in_row by lia.
    rewrite (select_ext _ (fun j => (column_of k [] j =? col)%nat && (b ∘ S) (row_of k [] j))).
    2:{ intros j _. unfold column_of, row_of. cbn [numel foldr].
        rewrite !Nat.div_1_r, Nat.mul_1_r.
        replace (k + j)%nat with (j + 1 * k)%nat by lia.
        rewrite Nat.Div0.mod_add, Nat.div_add by lia. cbn. by rewrite Nat.add_1_r. }
    rewrite IH by (rewrite length_drop; cbn in Hl; lia).
    cbn [seq]. rewrite fmap_cons, filter_cons, <- (fmap_S_seq 0), <- list_fmap_compose.
    by destruct (b 0%nat).
Qed.

Lemma is_dir_insert_file (fs0 : gmap (list string) node) (q q' : list string) (f : figure) :
  is_dir fs0 q = false -> is_dir (<[q := File f]> fs0) q' = is_dir fs0 q'.
Proof.
  intros Hq. destruct q' as [| x q']; [done |].
  destruct (decide (q = x :: q')) as [-> | Hne].
  - rewrite Hq. unfold is_dir. by rewrite lookup_insert_eq.
  - unfold is_dir. by rewrite lookup_insert_ne.
Qed.

Lemma write_file_writable (p : string) (f : figure) (fs0 fs1 : gmap (list string) node) :
  (forall q, is_dir fs1 q = is_dir fs0 q) -> Tsne.writable fs0 p ->
  write_file p f fs1 = inr (<[resolve p := File f]> fs1).
Proof. intros Hd [H1 H2]. unfold write_file. by rewrite !Hd, H1, H2. Qed.

Section EmbeddingPlots.

Context (z_embed cls : ndarray) (n k m : nat) (name : pyobj).
Context (fs0 : gmap (list string) node) (fig : fig_ref).
Hypothesis embed_shape : shape z_embed = [n; k].
Hypothesis embed_columns : (2 <= k)%nat.
Hypothesis embed_size : length (data z_embed) = (n * k)%nat.
Hypothesis labels_shape : shape cls = [n; m].

Lemma class_points_length (mask : list bool) (col : nat) :
  (col < k)%nat ->
  length (Tsne.class_points k z_embed mask col)
  = length (filter (fun x => x = true) ((fun r => default false (mask !! r)) <$> seq 0 n)).
Proof.
  intros Hc. unfold Tsne.class_points.
  by rewrite (select_rows_length k col n (fun r => default false (mask !! r))).
Qed.

Lemma run_plot_class (ic : nat) (w : world) :
  (ic < m)%nat -> plotting fs0 fig w -> Tsne.writable fs0 (class_path name ic) ->
  exists t w',
    run (py c) (plot_class z_embed cls fig name ic) w = (t, Ok tt w')
    /\ plotting fs0 fig w'
    /\ written [resolve (class_path name ic)] (fs w) (fs w')
    /\ saved_paths t = [class_path name ic]
    /\ scatter_calls t
       = [ (Set1 (Z.of_nat ic),
            Tsne.class_points k z_embed (Tsne.class_mask m cls ic) 0,
            Tsne.class_points k z_embed (Tsne.class_mask m cls ic) 1) ].
Proof.
  intros Hic (Hopen & Hcur & Hdirs) Hw.
  apply Nat.ltb_lt in Hic.
  assert ((0 <? k)%nat = true /\ (1 <? k)%nat = true) as [Hk0 Hk1]
    by (split; apply Nat.ltb_lt; lia).
  destruct Hopen as [f0 Hf0].
  eexists _, _. unfold plot_class. unmonad.
  erewrite run_call_ok; [| reflexivity].
  erewrite run_call_ok;
    [| cbn [py]; unfold np_set_column; cbn [shape]; rewrite labels_shape, Hic; reflexivity].
  erewrite run_call_ok;
    [| cbn [py]; unfold np_get_column; rewrite labels_shape, Hic; reflexivity].
  erewrite run_call_ok; [| reflexivity].
  erewrite run_call_ok; [| reflexivity].
  erewrite run_call_ok;
    [| cbn [py]; unfold np_mask_column; cbn [b_shape shape];
       rewrite embed_shape, Nat.eqb_refl, Hk0; reflexivity].
  erewrite run_call_ok;
    [| cbn [py]; unfold np_mask_column; cbn [b_shape shape];
       rewrite embed_shape, Nat.eqb_refl, Hk1; reflexivity].
  set (mask := Tsne.class_mask m cls ic).
  set (xs := Tsne.class_points k z_embed mask 0).
  set (ys := Tsne.class_points k z_embed mask 1).
  set (dots := Layer scatterplot xs ys (Set1 (Z.of_nat ic)) None (Some 10) None).
  set (w1 := draw fig (add_layer dots) w).
  set (w2 := draw fig (set_title "Latent Variable T-SNE per Class") w1).
  assert (length xs = length ys) as Hxy.
  { unfold xs, ys. rewrite !class_points_length by lia. done. }
  assert (figs w2 !! fig
          = Some (set_title "Latent Variable T-SNE per Class" (add_layer dots f0))) as Hf2.
  { unfold w2, w1, draw. cbn [figs with_figs]. by rewrite !lookup_alter_eq, Hf0. }
  rewrite (run_call_ok (py c) (PltScatter _ _ _ _) _ w tt w1).
  2:{ cbn [py]. unfold plt_scatter.
      match goal with
      | |- context [(length ?a =? length ?b)%nat] => change a with xs; change b with ys
      end.
      rewrite Hxy, Nat.eqb_refl. unfold gcf. rewrite Hcur. cbv beta iota.
      rewrite (bool_decide_eq_true_2 (is_Some (figs w !! fig))) by (by eexists).
      reflexivity. }
  rewrite (run_call_ok (py c) (PltTitle _) _ w1 tt w2).
  2:{ cbn [py]. unfold gcf. change (cur_fig w1) with (Some fig). cbv beta iota.
      rewrite (bool_decide_eq_true_2 (is_Some (figs w1 !! fig))); [reflexivity |].
      unfold w1, draw. cbn [figs with_figs]. rewrite lookup_alter_eq, Hf0. by eexists. }
  rewrite (run_call_last (py c) (FigSavefig _ _) w2 tt
             (with_fs w2 (<[resolve (class_path name ic)
                            := File (set_title "Latent Variable T-SNE per Class"
                                       (add_layer dots f0))]> (fs w2)))).
  2:{ cbn [py]. unfold savefig. rewrite Hf2.
      by rewrite (write_file_writable _ _ fs0 (fs w2) Hdirs Hw). }
  split; [reflexivity |]. split; [| split; [apply written_one |split; reflexivity]].
  split; [change (is_Some (figs w2 !! fig)); rewrite Hf2; by eexists |]. split; [done |].
  intros q. cbn [fs with_fs]. rewrite is_dir_insert_file; [apply Hdirs |].
  rewrite Hdirs. apply Hw.
Qed.

Lemma run_plot_classes (l : list nat) (w : world) :
  Forall (fun ic => (ic < m)%nat /\ Tsne.writable fs0 (class_path name ic)) l ->
  plotting fs0 fig w ->
  exists t w',
    run (py c) (for_each l (plot_class z_embed cls fig name)) w = (t, Ok tt w')
    /\ plotting fs0 fig w'
    /\ written (resolve <$> (class_path name <$> l)) (fs w) (fs w')
    /\ saved_paths t = class_path name <$> l
    /\ scatter_calls t
       = (fun ic => (Set1 (Z.of_nat ic),
                     Tsne.class_points k z_embed (Tsne.class_mask m cls ic) 0,
                     Tsne.class_points k z_embed (Tsne.class_mask m cls ic) 1)) <$> l.
Proof.
  intros Hl. revert w. induction Hl as [| ic l [Hic Hw] _ IH]; intros w Hp.
  - exists [], w. split; [done |]. split; [done |]. split; [apply written_nil | done].
  - destruct (run_plot_class ic w Hic Hp Hw) as (t1 & w1 & H1 & Hp1 & Hw1 & Hs1 & Hc1).
    destruct (IH w1 Hp1) as (t2 & w2 & H2 & Hp2 & Hw2 & Hs2 & Hc2).
    exists (t1 ++ t2)%list, w2. cbn [for_each].
    rewrite (run_bind_ok _ _ _ _ _ _ _ H1), H2. cbn [fst snd].
    split; [done |]. split; [done |].
    split; [exact (written_app _ _ _ _ _ Hw1 Hw2) |].
    unfold saved_paths, scatter_calls in *. rewrite !omap_app, Hs1, Hs2, Hc1, Hc2. done.
Qed.


End EmbeddingPlots.

Lemma saved_paths_app (t1 t2 : list event) :
  saved_paths (t1 ++ t2) = (saved_paths t1 ++ saved_paths t2)%list.
Proof. apply omap_app. Qed.

Lemma saved_paths_cons (ev : event) (t : list event) :
  saved_paths (ev :: t)
  = match saved_path ev with Some p => p :: saved_paths t | None => saved_paths t end.
Proof. reflexivity. Qed.

Lemma scatter_calls_app (t1 t2 : list event) :
  scatter_calls (t1 ++ t2) = (scatter_calls t1 ++ scatter_calls t2)%list.
Proof. apply omap_app. Qed.

Lemma scatter_calls_cons (ev : event) (t : list event) :
  scatter_calls (ev :: t)
  = match scatter_call ev with Some p => p :: scatter_calls t | None => scatter_calls t end.
Proof. reflexivity. Qed.

Lemma run_to_numpy (x : tensor) (w : world) :
  run (py c) (to_numpy x) w
  = ([Ev (TensorDetach x); Ev (TensorCpu x); Ev (TensorNumpy x)], Ok (numpy_of x) w).
Proof. reflexivity. Qed.

(** The run of plot_tsne on well-formed input. *)
Lemma run_plot_tsne (z_loc classes : tensor) (name : pyobj) (w : world)
    (z_embed : ndarray) (n k m : nat) :
  tsne_fit c 2 0 (numpy_of z_loc) = inr z_embed ->
  shape z_embed = [n; k] -> (2 <= k)%nat -> length (data z_embed) = (n * k)%nat ->
  t_shape classes = [n; m] -> (10 <= m)%nat ->
  Forall (Tsne.writable (fs w)) (Tsne.paths name) ->
  exists t w',
    run (py c) (plot_tsne z_loc classes name) w = (t, Ok tt w')
    /\ saved_paths t = Tsne.paths name
    /\ written (resolve <$> Tsne.paths name) (fs w) (fs w')
    /\ scatter_calls t
       = (fun ic => (Set1 (Z.of_nat ic),
                     Tsne.class_points k z_embed (Tsne.class_mask m (numpy_of classes) ic) 0,
                     Tsne.class_points k z_embed (Tsne.class_mask m (numpy_of classes) ic) 1))
           <$> range 10.
Proof.
  intros Hz Hshape Hk Hsize Hlabels Hm Hfs.
  unfold Tsne.paths in Hfs. rewrite Forall_app, Forall_singleton, Forall_fmap in Hfs.
  destruct Hfs as [Hclasses Hagg].
  set (w0 := with_backend w "Agg").
  set (n1 := next_fig (figs w0)).
  set (w1 := with_figs w0 (<[n1 := blank None (style w0)]> (figs w0)) (Some n1)).
  destruct (run_plot_classes z_embed (numpy_of classes) n k m name (fs w) n1
              Hshape Hk Hsize Hlabels (range 10) w1) as (t & w2 & Hrun & Hp2 & Hw2 & Hs & Hsc).
  { apply Forall_forall. intros ic Hic.
    split; [apply elem_of_seq in Hic; lia |].
    exact (proj1 (Forall_forall _ _) Hclasses ic Hic). }
  { split; [| split; [done |]].
    - unfold w1. cbn [figs with_figs]. rewrite lookup_insert_eq. by eexists.
    - done. }
  destruct Hp2 as ([f Hf] & Hcur & Hdirs).
  eexists _, _. unfold plot_tsne. unmonad.
  rewrite (run_call_ok (py c) (MplUse _) _ w tt w0); [| reflexivity].
  erewrite (run_bind_ok (py c) (reduce_2d z_loc) _ w0 _ z_embed w0);
    [| by rewrite run_reduce_2d, Hz].
  erewrite (run_bind_ok (py c) (to_numpy classes) _ w0 _ (numpy_of classes) w0);
    [| apply run_to_numpy].
  rewrite (run_call_ok (py c) (PltFigure None) _ w0 n1 w1); [| reflexivity].
  rewrite (run_bind_ok _ _ _ _ _ _ _ Hrun).
  rewrite (run_call_last (py c) (FigSavefig _ _) w2 tt
             (with_fs w2 (<[resolve (aggregate_path name) := File f]> (fs w2)))).
  2:{ cbn [py]. unfold savefig. rewrite Hf.
      by rewrite (write_file_writable _ _ (fs w) (fs w2) Hdirs Hagg). }
  cbn [fst snd]. split; [reflexivity |].
  repeat first [rewrite saved_paths_cons | rewrite saved_paths_app].
  repeat first [rewrite scatter_calls_cons | rewrite scatter_calls_app].
  cbn [saved_path scatter_call saved_paths scatter_calls omap list_omap app].
  rewrite Hs, Hsc, app_nil_r. split; [done |]. split; [| done].
  unfold Tsne.paths. rewrite fmap_app. cbn [fs with_fs].
  exact (written_app _ _ _ _ _ Hw2 (written_one _ _ _)).
Qed.

Lemma absent_class_points (k m : nat) (z_embed cls : ndarray) (ic col : nat) :
  Tsne.occurs m cls ic = false ->
  Tsne.class_points k z_embed (Tsne.class_mask m cls ic) col = [].
Proof.
  unfold Tsne.occurs, Tsne.class_points. intros Hno.
  apply select_none. intros j _. apply andb_false_iff. right.
  destruct (Tsne.class_mask m cls ic !! row_of k [] j) as [b |] eqn:Hb; [| done].
  cbn. destruct b; [| done].
  apply list_elem_of_lookup_2, list_elem_of_In in Hb.
  assert (existsb id (Tsne.class_mask m cls ic) = true) as Hex
    by (apply existsb_exists; by exists true).
  congruence.
Qed.



End OnLibraries.



Lemma plot_llk_idempotent_witness :
  exists w1 w2 chart,
    result (Py.py Demo.nets) (VaePlots.plot_llk Demo.train Demo.test) Demo.empty = Ok tt w1
    /\ Py.fs w1 !! Py.resolve "vae_results" = Some Py.Dir
    /\ Py.fs w1 !! Py.resolve "./vae_results/test_elbo_vae.png" = Some (Py.File chart)
    /\ result (Py.py Demo.nets) (VaePlots.plot_llk Demo.train Demo.test) w1 = Ok tt w2
    /\ Py.fs w2 !! Py.resolve "./vae_results/test_elbo_vae.png" = Some (Py.File chart)
    /\ Py.fs w2 = Py.fs w1.
Proof.
  apply (plot_llk_idempotent Demo.nets Demo.train Demo.test Demo.empty).
  - left. reflexivity.
  - vm_compute. discriminate.
Defined.

Lemma example_loss_chart_witness :
  exists t w' chart,
    run (Py.py Demo.nets) (VaePlots.plot_llk Demo.train Demo.test) Demo.ready = (t, Ok tt w')
    /\ saved_paths t = ["./vae_results/test_elbo_vae.png"]
    /\ Py.fs w' = <[Py.resolve "./vae_results/test_elbo_vae.png" := Py.File chart]>
                    (<[Py.resolve "vae_results" := Py.Dir]> (Py.fs Demo.ready))
    /\ Llk.scatter_series chart
       = [ (Palette 0, Some "Train", [(0, 241 # 2); (1, 501 # 5)]%Q);
           (Palette 1, Some "Test", [(0, 130); (1, 1107 # 10)]%Q) ].
Proof.
  apply (example_loss_chart Demo.nets Demo.ready).
  - right. reflexivity.
  - vm_compute. discriminate.
Defined.

Lemma demo_paths_writable :
  Forall (Tsne.writable (Py.fs Demo.ready)) (Tsne.paths (PyStr "VAE")).
Proof.
  unfold Tsne.paths. cbn [fmap list_fmap range seq app].
  repeat (constructor; [split; vm_compute; reflexivity |]). constructor.
Defined.




(** * Further properties of the module *)

(** ** For every behaviour of the libraries *)

Section MoreGlue.

Import VaePlots.

Ltac unmonad := unfold mbind, prog_bind, mret, prog_ret.

Ltac each_call :=
  repeat first
    [ apply calls_ok_ret
    | apply calls_ok_one
    | match goal with
      | |- calls_ok _ (for_each _ _) => apply calls_ok_for_each_in; intros ? ?
      | |- calls_ok _ (for_fold _ _ _) => apply calls_ok_for_fold; intros ? ?
      | |- calls_ok _ (let '(_, _) := ?z in _) => destruct z
      end
    | apply calls_ok_bind; [| intro] ].

(** X1: only plot_llk creates a directory or closes figures.  Whatever the
    libraries answer, no other operation of the module makes a mkdir call
    or a close call: plot_tsne and its wrappers save into vae_results
    without creating it, and the figure they open is not closed. *)
Theorem only_plot_llk_makes_the_directory (op : operation) {W : Type} (h : handler W) (w : W) :
  is_plot_llk op = false ->
  Forall (fun ev => makes_directory ev = false /\ closes_figures ev = false)
    (trace h (body op) w).
Proof.
  intros Hop. apply calls_ok_trace.
  destruct op as [m v | tr te | m v | m l | name m l | z c name]; [| done | ..];
    cbn [body];
    unfold plot_conditional_samples_ssvae, plot_vae_samples, mnist_test_tsne,
      mnist_test_tsne_ssvae, plot_tsne, label_row, conditional_sample, unconditional_sample,
      sample_image, reduce_2d, to_numpy, plot_class;
    unmonad; each_call; done.
Qed.

Lemma only_plot_llk_makes_the_directory_witness :
  Forall (fun ev => makes_directory ev = false /\ closes_figures ev = false)
    (trace (Py.py Demo.nets) (body (OpPlotTsne Demo.z_loc Demo.one_hot (PyStr "VAE")))
       Demo.ready).
Proof.
  apply (only_plot_llk_makes_the_directory
           (OpPlotTsne Demo.z_loc Demo.one_hot (PyStr "VAE")) (Py.py Demo.nets) Demo.ready).
  reflexivity.
Defined.

(** X2: mnist_test_tsne plots under the fixed name VAE.  Once the test
    data, the labels and the encoding are there, its run continues as
    plot_tsne of the location vectors, the labels and the name VAE; the
    scale vectors of the encoder are not used. *)
Theorem mnist_test_tsne_names_vae (vae : option handle) (test_loader : option loader)
    {W : Type} (h : handler W) (w w1 w2 w3 w4 : W)
    (data0 data mnist_labels z_loc z_scale : tensor) :
  h _ (AttrTestData test_loader) w = Ok data0 w1 ->
  h _ (TensorFloat data0) w1 = Ok data w2 ->
  h _ (AttrTestLabels test_loader) w2 = Ok mnist_labels w3 ->
  h _ (VaeEncoder vae data) w3 = Ok (z_loc, z_scale) w4 ->
  run h (mnist_test_tsne vae test_loader) w =
  ( [ Ev (AttrTestData test_loader); Ev (TensorFloat data0); Ev (AttrTestLabels test_loader);
      Ev (VaeEncoder vae data) ]
      ++ trace h (plot_tsne z_loc mnist_labels (PyStr "VAE")) w4,
    result h (plot_tsne z_loc mnist_labels (PyStr "VAE")) w4 )%list.
Proof.
  intros H1 H2 H3 H4. unfold mnist_test_tsne, trace, result. unmonad.
  rewrite run_call_bind, H1, run_call_bind, H2, run_call_bind, H3, run_call_bind, H4.
  by destruct (run h (plot_tsne z_loc mnist_labels (PyStr "VAE")) w4).
Qed.

Lemma mnist_test_tsne_names_vae_witness :
  run (Py.py Demo.nets) (mnist_test_tsne (Some 0%nat) (Some Demo.held_out)) Demo.ready =
  ( [ Ev (AttrTestData (Some Demo.held_out)); Ev (TensorFloat Demo.z_loc);
      Ev (AttrTestLabels (Some Demo.held_out));
      Ev (VaeEncoder (Some 0%nat) Demo.z_loc) ]
      ++ trace (Py.py Demo.nets) (plot_tsne Demo.z_loc Demo.one_hot (PyStr "VAE")) Demo.ready,
    result (Py.py Demo.nets) (plot_tsne Demo.z_loc Demo.one_hot (PyStr "VAE")) Demo.ready )%list.
Proof.
  apply (mnist_test_tsne_names_vae (Some 0%nat) (Some Demo.held_out) (Py.py Demo.nets)
           Demo.ready Demo.ready Demo.ready Demo.ready Demo.ready
           Demo.z_loc Demo.z_loc Demo.one_hot Demo.z_loc Demo.z_loc);
    reflexivity.
Defined.

(** X3: a name that is supplied to mnist_test_tsne_ssvae is passed on as
    it is.  Only None is replaced: any other name, the empty string
    included, is the name plot_tsne is called with. *)
Theorem ssvae_supplied_name (name : pyobj) (ssvae : option handle)
    (test_loader : option loader) {W : Type} (h : handler W) (w w1 w2 w3 w4 : W)
    (data0 data mnist_labels z_loc z_scale : tensor) :
  name <> PyNone ->
  h _ (AttrTestData test_loader) w = Ok data0 w1 ->
  h _ (TensorFloat data0) w1 = Ok data w2 ->
  h _ (AttrTestLabels test_loader) w2 = Ok mnist_labels w3 ->
  h _ (SsvaeEncoderZ ssvae data mnist_labels) w3 = Ok (z_loc, z_scale) w4 ->
  run h (mnist_test_tsne_ssvae name ssvae test_loader) w =
  ( [ Ev (AttrTestData test_loader); Ev (TensorFloat data0); Ev (AttrTestLabels test_loader);
      Ev (SsvaeEncoderZ ssvae data mnist_labels) ]
      ++ trace h (plot_tsne z_loc mnist_labels name) w4,
    result h (plot_tsne z_loc mnist_labels name) w4 )%list.
Proof.
  intros Hname H1 H2 H3 H4. unfold mnist_test_tsne_ssvae, trace, result. unmonad.
  rewrite run_call_bind, H1, run_call_bind, H2, run_call_bind, H3, run_call_bind, H4.
  destruct name; [done | |]; by destruct (run h (plot_tsne z_loc mnist_labels _) w4).
Qed.

Lemma ssvae_supplied_name_witness :
  run (Py.py Demo.nets)
    (mnist_test_tsne_ssvae (PyStr "") (Some 0%nat) (Some Demo.held_out)) Demo.ready =
  ( [ Ev (AttrTestData (Some Demo.held_out)); Ev (TensorFloat Demo.z_loc);
      Ev (AttrTestLabels (Some Demo.held_out));
      Ev (SsvaeEncoderZ (Some 0%nat) Demo.z_loc Demo.one_hot) ]
      ++ trace (Py.py Demo.nets) (plot_tsne Demo.z_loc Demo.one_hot (PyStr "")) Demo.ready,
    result (Py.py Demo.nets) (plot_tsne Demo.z_loc Demo.one_hot (PyStr "")) Demo.ready )%list.
Proof.
  apply (ssvae_supplied_name (PyStr "") (Some 0%nat) (Some Demo.held_out) (Py.py Demo.nets)
           Demo.ready Demo.ready Demo.ready Demo.ready Demo.ready
           Demo.z_loc Demo.z_loc Demo.one_hot Demo.z_loc Demo.z_loc);
    [discriminate | reflexivity ..].
Defined.

End MoreGlue.

(** ** On the model of the libraries *)

Import Py VaePlots.

Ltac unmonad := unfold mbind, prog_bind, mret, prog_ret.

(** X4: the wrappers need their loader and their model.  Called with the
    default None for the test loader or for the model, mnist_test_tsne and
    mnist_test_tsne_ssvae end with an AttributeError; nothing is reduced,
    drawn or saved and the world is as it was. *)
Theorem wrappers_need_loader_and_model (c : collab) (name : pyobj) (model : option handle)
    (test_loader : option loader) (w : world) :
  model = None \/ test_loader = None ->
  (exists t, run (py c) (mnist_test_tsne model test_loader) w = (t, Raise AttributeError w)
             /\ Forall (fun ev => match ev with
                                  | Ev (TsneFitTransform _ _) | Ev (PltFigure _)
                                  | Ev (FigSavefig _ _) => False
                                  | _ => True
                                  end) t)
  /\ (exists t, run (py c) (mnist_test_tsne_ssvae name model test_loader) w
                = (t, Raise AttributeError w)
                /\ Forall (fun ev => match ev with
                                     | Ev (TsneFitTransform _ _) | Ev (PltFigure _)
                                     | Ev (FigSavefig _ _) => False
                                     | _ => True
                                     end) t).
Proof.
  intros Hnone. destruct test_loader as [l |].
  - destruct Hnone as [-> | ?]; [| done].
    split; eexists; (split; [reflexivity | by repeat constructor]).
  - split; eexists; (split; [reflexivity | by repeat constructor]).
Qed.

Lemma wrappers_need_loader_and_model_witness :
  (exists t, run (Py.py Demo.nets) (mnist_test_tsne None (Some Demo.held_out)) Demo.ready
             = (t, Raise AttributeError Demo.ready)
             /\ Forall (fun ev => match ev with
                                  | Ev (TsneFitTransform _ _) | Ev (PltFigure _)
                                  | Ev (FigSavefig _ _) => False
                                  | _ => True
                                  end) t)
  /\ (exists t, run (Py.py Demo.nets)
                  (mnist_test_tsne_ssvae PyNone None (Some Demo.held_out)) Demo.ready
                = (t, Raise AttributeError Demo.ready)
                /\ Forall (fun ev => match ev with
                                     | Ev (TsneFitTransform _ _) | Ev (PltFigure _)
                                     | Ev (FigSavefig _ _) => False
                                     | _ => True
                                     end) t).
Proof.
  apply (wrappers_need_loader_and_model Demo.nets PyNone None (Some Demo.held_out) Demo.ready).
  by left.
Defined.

(** *** The embedding plots, class by class *)

Lemma picture_next (sty : string) (k m : nat) (z_embed cls : ndarray) (i : nat) :
  set_title Embedding.title
    (add_layer (Embedding.dots k m z_embed cls i) (Embedding.picture sty k m z_embed cls i))
  = Embedding.picture sty k m z_embed cls (S i).
Proof.
  unfold Embedding.picture, set_title, add_layer. cbn [f_size f_style f_layers f_legend
    f_integer_ticks]. by rewrite seq_S, fmap_app.
Qed.

Lemma files_next (name : pyobj) (pic : nat -> figure) (i : nat)
    (fs0 : gmap (list string) node) :
  Embedding.files name pic (S i) fs0
  = <[resolve (class_path name i) := File (pic (S i))]> (Embedding.files name pic i fs0).
Proof. unfold Embedding.files. by rewrite seq_S, foldl_app. Qed.

Lemma files_dirs (name : pyobj) (pic : nat -> figure) (i : nat)
    (fs0 : gmap (list string) node) :
  (forall ic, (ic < i)%nat -> Tsne.writable fs0 (class_path name ic)) ->
  forall q, is_dir (Embedding.files name pic i fs0) q = is_dir fs0 q.
Proof.
  induction i as [| i IH]; intros Hw q; [done |].
  rewrite files_next, is_dir_insert_file; [apply IH; intros; apply Hw; lia |].
  rewrite IH by (intros; apply Hw; lia). apply Hw. lia.
Qed.

Section ExactPlots.

Context (c : collab) (z_embed cls : ndarray) (n k m : nat) (name : pyobj).
Context (w0 : world) (fig : nat).
Hypothesis embed_shape : shape z_embed = [n; k].
Hypothesis embed_columns : (2 <= k)%nat.
Hypothesis embed_size : length (data z_embed) = (n * k)%nat.
Hypothesis labels_shape : shape cls = [n; m].

Abbreviation pic := (Embedding.picture (style w0) k m z_embed cls).
Abbreviation after := (Embedding.after_classes w0 fig name pic).

Lemma run_plot_class_exact (i : nat) :
  (i < m)%nat ->
  (forall ic, (ic <= i)%nat -> Tsne.writable (fs w0) (class_path name ic)) ->
  exists t,
    run (py c) (plot_class z_embed cls fig name i) (after i) = (t, Ok tt (after (S i)))
    /\ saved_paths t = [class_path name i].
Proof.
  intros Hic Hw.
  apply Nat.ltb_lt in Hic.
  assert ((0 <? k)%nat = true /\ (1 <? k)%nat = true) as [Hk0 Hk1]
    by (split; apply Nat.ltb_lt; lia).
  set (dots := Embedding.dots k m z_embed cls i).
  set (w1 := draw fig (add_layer dots) (after i)).
  set (w2 := draw fig (set_title Embedding.title) w1).
  assert (length (l_x dots) = length (l_y dots)) as Hxy.
  { unfold dots, Embedding.dots. cbn [l_x l_y].
    rewrite !(class_points_length z_embed n k embed_size) by lia. done. }
  assert (figs (after i) !! fig = Some (pic i)) as Hf0 by apply lookup_insert_eq.
  assert (figs w2 = <[fig := pic (S i)]> (figs w0)) as Hf2.
  { unfold w2, w1, draw. cbn [figs with_figs Embedding.after_classes].
    rewrite !alter_insert_eq. unfold dots. by rewrite picture_next. }
  eexists. unfold plot_class. unmonad.
  erewrite run_call_ok; [| reflexivity].
  erewrite run_call_ok;
    [| cbn [py]; unfold np_set_column; cbn [shape]; rewrite labels_shape, Hic; reflexivity].
  erewrite run_call_ok;
    [| cbn [py]; unfold np_get_column; rewrite labels_shape, Hic; reflexivity].
  erewrite run_call_ok; [| reflexivity].
  erewrite run_call_ok; [| reflexivity].
  erewrite run_call_ok;
    [| cbn [py]; unfold np_mask_column; cbn [b_shape shape];
       rewrite embed_shape, Nat.eqb_refl, Hk0; reflexivity].
  erewrite run_call_ok;
    [| cbn [py]; unfold np_mask_column; cbn [b_shape shape];
       rewrite embed_shape, Nat.eqb_refl, Hk1; reflexivity].
  rewrite (run_call_ok (py c) (PltScatter _ _ _ _) _ (after i) tt w1).
  2:{ cbn [py]. unfold plt_scatter.
      match goal with
      | |- context [(length ?a =? length ?b)%nat] =>
          change a with (l_x dots); change b with (l_y dots)
      end.
      rewrite Hxy, Nat.eqb_refl. unfold gcf.
      change (cur_fig (after i)) with (Some fig). cbv beta iota.
      rewrite (bool_decide_eq_true_2 (is_Some (figs (after i) !! fig)))
        by (rewrite Hf0; by eexists).
      reflexivity. }
  rewrite (run_call_ok (py c) (PltTitle _) _ w1 tt w2).
  2:{ cbn [py]. unfold gcf. change (cur_fig w1) with (Some fig). cbv beta iota.
      rewrite (bool_decide_eq_true_2 (is_Some (figs w1 !! fig))); [reflexivity |].
      unfold w1, draw. cbn [figs with_figs]. rewrite lookup_alter_eq, Hf0. by eexists. }
  rewrite (run_call_last (py c) (FigSavefig _ _) w2 tt (after (S i))).
  2:{ cbn [py]. unfold savefig. rewrite Hf2, lookup_insert_eq.
      rewrite (write_file_writable _ _ (fs w0) (fs w2)).
      - unfold Embedding.after_classes. rewrite files_next.
        unfold with_fs. rewrite Hf2. reflexivity.
      - apply files_dirs. intros ic Hlt. apply Hw. lia.
      - apply Hw. lia. }
  split; reflexivity.
Qed.

Lemma run_plot_classes_exact (b a : nat) :
  (a + b <= m)%nat ->
  (forall ic, (ic < a + b)%nat -> Tsne.writable (fs w0) (class_path name ic)) ->
  exists t,
    run (py c) (for_each (seq a b) (plot_class z_embed cls fig name)) (after a)
      = (t, Ok tt (after (a + b)))
    /\ saved_paths t = class_path name <$> seq a b.
Proof.
  revert a. induction b as [| b IH]; intros a Hm Hw.
  - exists []. rewrite Nat.add_0_r. done.
  - destruct (run_plot_class_exact a) as (t1 & H1 & Hs1); [lia | intros; apply Hw; lia |].
    destruct (IH (S a)) as (t2 & H2 & Hs2); [lia | intros; apply Hw; lia |].
    exists (t1 ++ t2)%list. cbn [seq for_each].
    rewrite (run_bind_ok _ _ _ _ _ _ _ H1), H2. cbn [fst snd].
    replace (a + S b)%nat with (S a + b)%nat by lia.
    split; [done |]. by rewrite saved_paths_app, Hs1, Hs2.
Qed.

End ExactPlots.

Lemma run_plot_tsne_exact (c : collab) (z_loc classes : tensor) (name : pyobj) (w : world)
    (z_embed : ndarray) (n k m : nat) :
  tsne_fit c 2 0 (numpy_of z_loc) = inr z_embed ->
  shape z_embed = [n; k] -> (2 <= k)%nat -> length (data z_embed) = (n * k)%nat ->
  t_shape classes = [n; m] -> (10 <= m)%nat ->
  Forall (Tsne.writable (fs w)) (Tsne.paths name) ->
  exists t,
    run (py c) (plot_tsne z_loc classes name) w
      = (t, Ok tt (Embedding.finished w name
                     (Embedding.picture (style w) k m z_embed (numpy_of classes))))
    /\ saved_paths t = Tsne.paths name.
Proof.
  intros Hz Hshape Hk Hsize Hlabels Hm Hfs.
  unfold Tsne.paths in Hfs. rewrite Forall_app, Forall_singleton, Forall_fmap in Hfs.
  destruct Hfs as [Hclasses Hagg]. rewrite Forall_forall in Hclasses.
  assert (forall ic, (ic < 10)%nat -> Tsne.writable (fs w) (class_path name ic)) as Hw.
  { intros ic Hic. apply (Hclasses ic). apply elem_of_seq. lia. }
  set (w0 := with_backend w "Agg").
  set (fig := next_fig (figs w0)).
  set (pic := Embedding.picture (style w0) k m z_embed (numpy_of classes)).
  destruct (run_plot_classes_exact c z_embed (numpy_of classes) n k m name w0 fig
              Hshape Hk Hsize Hlabels 10 0) as (t & Hrun & Hs); [lia | intros; apply Hw; lia |].
  change (0 + 10)%nat with 10%nat in Hrun.
  eexists. unfold plot_tsne. unmonad.
  rewrite (run_call_ok (py c) (MplUse _) _ w tt w0); [| reflexivity].
  erewrite (run_bind_ok (py c) (reduce_2d z_loc) _ w0 _ z_embed w0);
    [| by rewrite run_reduce_2d, Hz].
  erewrite (run_bind_ok (py c) (to_numpy classes) _ w0 _ (numpy_of classes) w0);
    [| apply run_to_numpy].
  rewrite (run_call_ok (py c) (PltFigure None) _ w0 fig
             (Embedding.after_classes w0 fig name pic 0)); [| reflexivity].
  rewrite (run_bind_ok _ _ _ _ _ _ _ Hrun).
  rewrite (run_call_last (py c) (FigSavefig _ _) (Embedding.after_classes w0 fig name pic 10) tt
             (Embedding.finished w name
                (Embedding.picture (style w) k m z_embed (numpy_of classes)))).
  2:{ cbn [py]. unfold savefig.
      change (figs (Embedding.after_classes w0 fig name pic 10))
        with (<[fig := pic 10%nat]> (figs w0)).
      rewrite lookup_insert_eq.
      rewrite (write_file_writable _ _ (fs w)); [reflexivity | | exact Hagg].
      apply (files_dirs name pic 10 (fs w)). exact Hw. }
  cbn [fst snd]. split; [reflexivity |].
  repeat first [rewrite saved_paths_cons | rewrite saved_paths_app].
  cbn [saved_path saved_paths omap list_omap app]. by rewrite Hs.
Qed.

Lemma resolved_path_at (name : pyobj) (i : nat) :
  (i < 10)%nat ->
  (resolve <$> Tsne.paths name) !! i = Some (resolve (class_path name i)).
Proof.
  intros Hi. unfold Tsne.paths, range.
  rewrite list_lookup_fmap, lookup_app_l by (rewrite length_fmap, length_seq; lia).
  by rewrite list_lookup_fmap, lookup_seq_lt.
Qed.

Lemma class_files_differ (name : pyobj) (i j : nat) :
  (i < 10)%nat -> (j < 10)%nat ->
  resolve (class_path name i) = resolve (class_path name j) -> i = j.
Proof.
  intros Hi Hj Heq.
  apply (NoDup_lookup _ i j _ (resolved_paths_NoDup name) (resolved_path_at name i Hi)).
  rewrite Heq. by apply resolved_path_at.
Qed.

Lemma aggregate_file_differs (name : pyobj) (i : nat) :
  (i < 10)%nat -> resolve (aggregate_path name) <> resolve (class_path name i).
Proof.
  intros Hi Heq.
  assert (i = 10%nat); [| lia].
  apply (NoDup_lookup _ i 10 _ (resolved_paths_NoDup name) (resolved_path_at name i Hi)).
  rewrite <- Heq. reflexivity.
Qed.

Lemma files_lookup (name : pyobj) (pic : nat -> figure) (fs0 : gmap (list string) node)
    (i ic : nat) :
  (i <= 10)%nat -> (ic < i)%nat ->
  Embedding.files name pic i fs0 !! resolve (class_path name ic) = Some (File (pic (S ic))).
Proof.
  induction i as [| i IH]; intros Hi Hic; [lia |].
  rewrite files_next. destruct (decide (ic = i)) as [-> | Hne].
  - apply lookup_insert_eq.
  - rewrite lookup_insert_ne; [apply IH; lia |].
    intros Heq. apply Hne. symmetry. apply (class_files_differ name); [lia .. | done].
Qed.

Lemma next_fig_fresh (fg : gmap nat figure) : fg !! next_fig fg = None.
Proof.
  assert (forall k, is_Some (fg !! k) ->
                    (k <= map_fold (fun k (_ : figure) m => Nat.max k m) 0%nat fg)%nat) as Hmax.
  { apply (map_fold_weak_ind
             (fun r (m : gmap nat figure) => forall k, is_Some (m !! k) -> (k <= r)%nat)).
    - intros k [x Hx]. by rewrite lookup_empty in Hx.
    - intros i x m r _ IH k Hk. destruct (decide (i = k)) as [-> | Hne]; [lia |].
      rewrite lookup_insert_ne in Hk by done. specialize (IH k Hk). lia. }
  destruct (fg !! next_fig fg) eqn:Hn; [| done].
  specialize (Hmax (next_fig fg) (ex_intro _ _ Hn)). unfold next_fig in Hmax. lia.
Qed.

(** ** The order of the calls, for every behaviour of the libraries *)

Section Emits.

Context {B : Type} (obs : event -> option B).

Lemma emits_bind {A C : Type} (l1 l2 : list B) (p : prog A) (f : A -> prog C) :
  emits obs l1 p -> (forall a, emits obs l2 (f a)) -> emits obs (l1 ++ l2) (bind p f).
Proof.
  induction 1 as [a | X c k b l Hb _ IH | X c k l Hb _ IH]; intros Hf; cbn.
  - apply Hf.
  - apply emits_seen; [done |]. intros x. by apply IH.
  - apply emits_unseen; [done |]. intros x. by apply IH.
Qed.

Lemma emits_silent {A C : Type} (l : list B) (p : prog A) (f : A -> prog C) :
  emits obs [] p -> (forall a, emits obs l (f a)) -> emits obs l (bind p f).
Proof. apply (emits_bind [] l). Qed.

Lemma emits_one {X : Type} (c : ext X) :
  emits obs (option_list (obs (Ev c))) (call c).
Proof.
  destruct (obs (Ev c)) as [b |] eqn:Hb; cbn.
  - apply emits_seen; [done |]. intros x. constructor.
  - apply emits_unseen; [done |]. intros x. constructor.
Qed.

Lemma emits_for_each {A : Type} (g : A -> list B) (l : list A) (body : A -> prog unit) :
  (forall x, emits obs (g x) (body x)) -> emits obs (mjoin (g <$> l)) (for_each l body).
Proof.
  intros Hb. induction l as [| x l IH]; cbn; [constructor |].
  apply emits_bind; [apply Hb | intros _; apply IH].
Qed.

Lemma emits_for_fold {A S : Type} (g : A -> list B) (l : list A) (body : A -> S -> prog S)
    (s : S) :
  (forall x s, emits obs (g x) (body x s)) -> emits obs (mjoin (g <$> l)) (for_fold l body s).
Proof.
  intros Hb. revert s. induction l as [| x l IH]; intros s; cbn; [constructor |].
  apply emits_bind; [apply Hb | apply IH].
Qed.

Lemma emits_run {W A : Type} (h : handler W) (l : list B) (p : prog A) (w : W) :
  emits obs l p ->
  omap obs (trace h p w) `prefix_of` l
  /\ forall a w', result h p w = Ok a w' -> omap obs (trace h p w) = l.
Proof.
  unfold trace, result. intros Hp. revert w.
  induction Hp as [a | X c k b l Hb _ IH | X c k l Hb _ IH]; intros w; cbn.
  - split; [done |]. done.
  - destruct (h X c w) as [x w1 | e w1]; cbn.
    + specialize (IH x w1). destruct (run h (k x) w1) as [t o]. cbn in *. rewrite Hb.
      destruct IH as [IH1 IH2]. split; [by apply prefix_cons |].
      intros a w' Ho. f_equal. by eapply IH2.
    + rewrite Hb. split; [| done]. apply prefix_cons, prefix_nil.
  - destruct (h X c w) as [x w1 | e w1]; cbn.
    + specialize (IH x w1). destruct (run h (k x) w1) as [t o]. cbn in *. by rewrite Hb.
    + rewrite Hb. split; [apply prefix_nil | done].
Qed.

End Emits.

Section Schedules.

Context {B : Type} (obs : event -> option B).

Lemma emits_none {A : Type} (p : prog A) :
  calls_ok (fun ev => obs ev = None) p -> emits obs [] p.
Proof.
  induction 1 as [a | X c k Hc _ IH]; [constructor |]. by apply emits_unseen.
Qed.

Lemma emits_call_unseen {X A : Type} (c : ext X) (f : X -> prog A) (l : list B) :
  obs (Ev c) = None -> (forall x, emits obs l (f x)) -> emits obs l (bind (call c) f).
Proof. intros Hc Hf. by apply emits_unseen. Qed.

Lemma emits_call_seen {X A : Type} (c : ext X) (f : X -> prog A) (b : B) (l : list B) :
  obs (Ev c) = Some b -> (forall x, emits obs l (f x)) -> emits obs (b :: l) (bind (call c) f).
Proof. intros Hc Hf. by apply emits_seen. Qed.

End Schedules.

Ltac each_call :=
  repeat first
    [ apply calls_ok_ret
    | apply calls_ok_one
    | match goal with
      | |- calls_ok _ (for_each _ _) => apply calls_ok_for_each_in; intros ? ?
      | |- calls_ok _ (for_fold _ _ _) => apply calls_ok_for_fold; intros ? ?
      | |- calls_ok _ (let '(_, _) := ?z in _) => destruct z
      end
    | apply calls_ok_bind; [| intro] ].

Ltac silent :=
  apply emits_none;
  unfold plot_conditional_samples_ssvae, plot_llk, plot_vae_samples, mnist_test_tsne,
    mnist_test_tsne_ssvae, plot_tsne, label_row, conditional_sample, unconditional_sample,
    sample_image, reduce_2d, to_numpy, plot_class;
  unmonad; each_call; done.

Lemma plot_tsne_saves (z_loc classes : tensor) (name : pyobj) :
  emits saved_path (Tsne.paths name) (plot_tsne z_loc classes name).
Proof.
  unfold plot_tsne. unmonad.
  apply emits_call_unseen; [done | intros _].
  apply emits_silent; [silent | intros z_embed].
  apply emits_silent; [silent | intros cls].
  apply emits_call_unseen; [done | intros fig].
  apply (emits_bind saved_path (class_path name <$> range 10) [aggregate_path name]).
  - apply (emits_for_each saved_path (fun ic => [class_path name ic]) (range 10)).
    intros ic. unfold plot_class. unmonad.
    do 9 (apply emits_call_unseen; [done | intros ?]).
    apply (emits_one saved_path (FigSavefig fig (class_path name ic))).
  - intros _. apply (emits_one saved_path (FigSavefig fig (aggregate_path name))).
Qed.

(** X5: the files of an operation are saved in a fixed order, each at most
    once.  Whatever the libraries answer, the paths of the savefig calls of
    a run are the beginning of the list of the operation (nothing for the
    sample grids, the chart for plot_llk, the ten class files in the order
    of the class indices and then the aggregate for the embedding plots),
    and the whole list when the run returns. *)
Theorem files_saved_in_order (op : operation) {W : Type} (h : handler W) (w : W) :
  saved_paths (trace h (body op) w) `prefix_of` scheduled op
  /\ forall w', result h (body op) w = Ok tt w' ->
       saved_paths (trace h (body op) w) = scheduled op.
Proof.
  destruct (emits_run saved_path h (scheduled op) (body op) w) as [Hpre Hall].
  - destruct op as [m v | tr te | m v | m l | name m l | z cl name]; cbn [body scheduled].
    + silent.
    + unfold plot_llk. unmonad.
      do 11 (apply emits_call_unseen; [done | intros ?]).
      apply emits_call_seen; [done | intros ?].
      apply (emits_one saved_path (PltClose "all")).
    + silent.
    + unfold mnist_test_tsne. unmonad.
      do 4 (apply emits_call_unseen; [done | intros ?]).
      match goal with |- emits _ _ (let '(_, _) := ?z in _) => destruct z end.
      apply plot_tsne_saves.
    + unfold mnist_test_tsne_ssvae. unmonad.
      do 4 (apply emits_call_unseen; [done | intros ?]).
      match goal with |- emits _ _ (let '(_, _) := ?z in _) => destruct z end.
      destruct name; apply plot_tsne_saves.
    + apply plot_tsne_saves.
  - split; [exact Hpre |]. intros w'. apply Hall.
Qed.

Lemma sample_grid_rows (vis : handle) (body : nat -> nat -> list ndarray -> prog (list ndarray)) :
  (forall i rr images, emits grid_call_of [ModelCall] (body i rr images)) ->
  emits grid_call_of (mjoin (replicate 10 (replicate 100 ModelCall ++ [RowSent])%list))
    (for_each (range 10) (fun i =>
       bind (for_fold (range 100) (body i) []) (fun images => call (VisImages vis images 10 2)))).
Proof.
  intros Hbody.
  apply (emits_for_each grid_call_of (fun _ => (replicate 100 ModelCall ++ [RowSent])%list)
           (range 10)).
  intros i. apply emits_bind.
  - apply (emits_for_fold grid_call_of (fun _ => [ModelCall]) (range 100)). apply Hbody.
  - intros images. apply (emits_one grid_call_of (VisImages vis images 10 2)).
Qed.

(** X6: a sample grid sends a row only after a hundred samples, ten times
    at most.  Whatever the model and the display do, the samples asked of
    the model and the rows sent by plot_conditional_samples_ssvae or
    plot_vae_samples are the beginning of ten times a hundred samples and
    one row, and all of it when the run returns; the other operations ask
    for no sample and send no row. *)
Theorem rows_follow_hundred_samples (op : operation) {W : Type} (h : handler W) (w : W) :
  grid_calls (trace h (body op) w) `prefix_of` grid_schedule op
  /\ forall w', result h (body op) w = Ok tt w' ->
       grid_calls (trace h (body op) w) = grid_schedule op.
Proof.
  destruct (emits_run grid_call_of h (grid_schedule op) (body op) w) as [Hpre Hall].
  - destruct op as [m v | tr te | m v | m l | name m l | z cl name]; cbn [body grid_schedule];
      [| silent | | silent ..].
    + unfold plot_conditional_samples_ssvae. unmonad.
      apply emits_silent; [silent | intros ys].
      apply emits_call_unseen; [done | intros xs].
      apply sample_grid_rows. intros i rr images. unfold conditional_sample. unmonad.
      apply emits_call_unseen; [done | intros yi].
      apply emits_call_seen; [done | intros s].
      apply emits_silent; [silent | intros img]. constructor.
    + unfold plot_vae_samples. unmonad.
      apply emits_call_unseen; [done | intros x].
      apply (sample_grid_rows v (fun _ => unconditional_sample m x)).
      intros i rr images. unfold unconditional_sample. unmonad.
      apply emits_call_seen; [done | intros s].
      apply emits_silent; [silent | intros img]. constructor.
  - split; [exact Hpre |]. intros w'. apply Hall.
Qed.

(** *** What plot_tsne leaves behind *)





(** *** Where plot_tsne stops on input that is not well formed *)

Lemma run_bind_raise {W A C : Type} (h : handler W) (p : prog A) (f : A -> prog C) (w : W)
    t e w' :
  run h p w = (t, Raise e w') -> run h (bind p f) w = (t, Raise e w').
Proof. intros Hp. by rewrite run_bind, Hp. Qed.

Lemma run_call_raise {W X C : Type} (h : handler W) (c : ext X) (f : X -> prog C) (w : W)
    e w' :
  h X c w = Raise e w' -> run h (bind (call c) f) w = ([Ev c], Raise e w').
Proof. intros Hc. by rewrite run_call_bind, Hc. Qed.

Lemma run_for_each_app {W A : Type} (h : handler W) (l1 l2 : list A) (body : A -> prog unit)
    (w : W) t1 w1 :
  run h (for_each l1 body) w = (t1, Ok tt w1) ->
  run h (for_each (l1 ++ l2) body) w
  = ((t1 ++ (run h (for_each l2 body) w1).1)%list, (run h (for_each l2 body) w1).2).
Proof.
  revert w t1. induction l1 as [| x l1 IH]; intros w t1; cbn [for_each app].
  - intros [= <- <-]. by destruct (run h (for_each l2 body) w).
  - rewrite !run_bind. destruct (run h (body x) w) as [ta [[] wa | e wa]]; [| done].
    destruct (run h (for_each l1 body) wa) as [tb [[] wb | e wb]] eqn:Hb; [| done].
    intros [= <- ->]. rewrite (IH wa tb Hb).
    destruct (run h (for_each l2 body) w1). cbn. by rewrite app_assoc.
Qed.

(** The run of plot_tsne up to its loop: the backend is set, the
    embedding is computed and an empty figure is opened. *)
Lemma plot_tsne_start (c : collab) (z_loc classes : tensor) (name : pyobj) (w : world)
    (z_embed : ndarray) :
  tsne_fit c 2 0 (numpy_of z_loc) = inr z_embed ->
  exists t0,
    saved_paths t0 = [] /\ scatter_calls t0 = []
    /\ run (py c) (plot_tsne z_loc classes name) w
       = ((t0 ++ (run (py c)
                    (bind (for_each (range 10)
                             (plot_class z_embed (numpy_of classes) (next_fig (figs w)) name))
                       (fun _ => call (FigSavefig (next_fig (figs w)) (aggregate_path name))))
                    (with_figs (with_backend w "Agg")
                       (<[next_fig (figs w) := blank None (style w)]> (figs w))
                       (Some (next_fig (figs w))))).1)%list,
          (run (py c)
             (bind (for_each (range 10)
                      (plot_class z_embed (numpy_of classes) (next_fig (figs w)) name))
                (fun _ => call (FigSavefig (next_fig (figs w)) (aggregate_path name))))
             (with_figs (with_backend w "Agg")
                (<[next_fig (figs w) := blank None (style w)]> (figs w))
                (Some (next_fig (figs w))))).2).
Proof.
  intros Hz.
  set (w0 := with_backend w "Agg").
  exists ([Ev (MplUse "Agg")]
            ++ [ Ev (TsneNew 2 (Some 0)); Ev (TensorDetach z_loc); Ev (TensorCpu z_loc);
                 Ev (TensorNumpy z_loc);
                 Ev (TsneFitTransform (TSNE 2 (Some 0)) (numpy_of z_loc)) ]
            ++ [Ev (TensorDetach classes); Ev (TensorCpu classes); Ev (TensorNumpy classes)]
            ++ [Ev (PltFigure None)])%list.
  split; [reflexivity |]. split; [reflexivity |].
  unfold plot_tsne. unmonad.
  rewrite (run_call_ok (py c) (MplUse _) _ w tt w0); [| reflexivity].
  erewrite (run_bind_ok (py c) (reduce_2d z_loc) _ w0 _ z_embed w0);
    [| by rewrite run_reduce_2d, Hz].
  erewrite (run_bind_ok (py c) (to_numpy classes) _ w0 _ (numpy_of classes) w0);
    [| apply run_to_numpy].
  erewrite (run_call_ok (py c) (PltFigure None) _ w0); [| reflexivity].
  cbn [fst snd]. rewrite <- !app_assoc. reflexivity.
Qed.



Lemma files_lookup_aggregate (name : pyobj) (pic : nat -> figure)
    (fs0 : gmap (list string) node) (i : nat) :
  (i <= 10)%nat ->
  Embedding.files name pic i fs0 !! resolve (aggregate_path name)
  = fs0 !! resolve (aggregate_path name).
Proof.
  induction i as [| i IH]; intros Hi; [done |].
  rewrite files_next, lookup_insert_ne; [apply IH; lia |].
  intros Heq. symmetry in Heq. revert Heq. apply aggregate_file_differs. lia.
Qed.





(** *** The output directory *)

Lemma split_on_out_dir (s : string) :
  slash_free s -> split_on "/" ("./vae_results/" +:+ s) = ["."; "vae_results"; s].
Proof.
  unfold slash_free. intros Hs. rewrite !string_app_cons. change ("" +:+ s) with s.
  cbn. by rewrite Hs.
Qed.

Lemma resolve_below_out_dir (s u : string) :
  slash_free s -> split_on "/" u = [u] -> (2 < String.length u)%nat ->
  resolve (("./vae_results/" +:+ s) +:+ u) = ["vae_results"; s +:+ u].
Proof.
  intros Hs Hu Hlen. rewrite (resolve_app _ u Hu Hlen), (split_on_out_dir s Hs). reflexivity.
Qed.

Lemma embedding_paths_below_out_dir (name : pyobj) :
  slash_free (py_str name) ->
  Forall (fun p => exists u, u ∈ Tsne.suffixes /\ resolve p = ["vae_results"; py_str name +:+ u])
    (Tsne.paths name).
Proof.
  intros Hs. rewrite paths_suffixes, Forall_fmap. apply Forall_forall. intros u Hu.
  pose proof suffixes_are_names as Hn. rewrite Forall_forall in Hn.
  destruct (Hn u Hu) as [Hu1 Hu2]. exists u. split; [done |].
  by apply resolve_below_out_dir.
Qed.

Lemma class_path_below_out_dir (name : pyobj) (ic : nat) :
  slash_free (py_str name) -> (ic < 10)%nat ->
  exists f, resolve (class_path name ic) = ["vae_results"; f].
Proof.
  intros Hs Hic. pose proof (embedding_paths_below_out_dir name Hs) as Hall.
  rewrite Forall_forall in Hall. destruct (Hall (class_path name ic)) as (u & _ & Hu).
  - unfold Tsne.paths. apply elem_of_app. left. apply list_elem_of_fmap_2, elem_of_seq. lia.
  - by eexists.
Qed.

Section UnwritablePlot.

Context (c : collab) (z_embed cls : ndarray) (n k m : nat) (name : pyobj).
Context (w0 : world) (fig : nat).
Hypothesis embed_shape : shape z_embed = [n; k].
Hypothesis embed_columns : (2 <= k)%nat.
Hypothesis embed_size : length (data z_embed) = (n * k)%nat.
Hypothesis labels_shape : shape cls = [n; m].

Abbreviation pic' := (Embedding.picture (style w0) k m z_embed cls).
Abbreviation after' := (Embedding.after_classes w0 fig name pic').

Lemma run_plot_class_unwritable (i : nat) (e : exn) :
  (i < m)%nat ->
  write_file (class_path name i) (pic' (S i)) (fs (after' i)) = inl e ->
  exists t w',
    run (py c) (plot_class z_embed cls fig name i) (after' i) = (t, Raise e w')
    /\ saved_paths t = [class_path name i]
    /\ fs w' = fs (after' i)
    /\ figs w' = <[fig := pic' (S i)]> (figs w0).
Proof.
  intros Hic He.
  apply Nat.ltb_lt in Hic.
  assert ((0 <? k)%nat = true /\ (1 <? k)%nat = true) as [Hk0 Hk1]
    by (split; apply Nat.ltb_lt; lia).
  set (dots := Embedding.dots k m z_embed cls i).
  set (w1 := draw fig (add_layer dots) (after' i)).
  set (w2 := draw fig (set_title Embedding.title) w1).
  assert (length (l_x dots) = length (l_y dots)) as Hxy.
  { unfold dots, Embedding.dots. cbn [l_x l_y].
    rewrite !(class_points_length z_embed n k embed_size) by lia. done. }
  assert (figs (after' i) !! fig = Some (pic' i)) as Hf0 by apply lookup_insert_eq.
  assert (figs w2 = <[fig := pic' (S i)]> (figs w0)) as Hf2.
  { unfold w2, w1, draw. cbn [figs with_figs Embedding.after_classes].
    rewrite !alter_insert_eq. unfold dots. by rewrite picture_next. }
  exists ([ Ev (NpZerosLike cls);
            Ev (NpSetColumn (NdArray (shape cls) (replicate (length (data cls)) 0%Q)) i 1%Q);
            Ev (NpGetColumn cls i);
            Ev (NpEqScalar (NdArray [n] (select (fun j => (column_of m [] j =? i)%nat) (data cls)))
                  1%Q);
            Ev (CmSet1 (Z.of_nat i));
            Ev (NpMaskColumn z_embed (BoolArray [n] (Tsne.class_mask m cls i)) 0);
            Ev (NpMaskColumn z_embed (BoolArray [n] (Tsne.class_mask m cls i)) 1);
            Ev (PltScatter
                  (NdArray
                     [length (filter (fun b => b = true) (Tsne.class_mask m cls i))]
                     (l_x dots))
                  (NdArray
                     [length (filter (fun b => b = true) (Tsne.class_mask m cls i))]
                     (l_y dots))
                  10 (Set1 (Z.of_nat i)));
            Ev (PltTitle Embedding.title);
            Ev (FigSavefig fig (class_path name i)) ]), w2.
  split; [| split; [reflexivity | split; [reflexivity | exact Hf2]]].
  unfold plot_class. unmonad.
  erewrite run_call_ok; [| reflexivity].
  erewrite run_call_ok;
    [| cbn [py]; unfold np_set_column; cbn [shape]; rewrite labels_shape, Hic; reflexivity].
  erewrite run_call_ok;
    [| cbn [py]; unfold np_get_column; rewrite labels_shape, Hic; reflexivity].
  erewrite run_call_ok; [| reflexivity].
  erewrite run_call_ok; [| reflexivity].
  erewrite run_call_ok;
    [| cbn [py]; unfold np_mask_column; cbn [b_shape shape];
       rewrite embed_shape, Nat.eqb_refl, Hk0; reflexivity].
  erewrite run_call_ok;
    [| cbn [py]; unfold np_mask_column; cbn [b_shape shape];
       rewrite embed_shape, Nat.eqb_refl, Hk1; reflexivity].
  rewrite (run_call_ok (py c) (PltScatter _ _ _ _) _ (after' i) tt w1).
  2:{ cbn [py]. unfold plt_scatter.
      match goal with
      | |- context [(length ?a =? length ?b)%nat] =>
          change a with (l_x dots); change b with (l_y dots)
      end.
      rewrite Hxy, Nat.eqb_refl. unfold gcf.
      change (cur_fig (after' i)) with (Some fig). cbv beta iota.
      rewrite (bool_decide_eq_true_2 (is_Some (figs (after' i) !! fig)))
        by (rewrite Hf0; by eexists).
      reflexivity. }
  rewrite (run_call_ok (py c) (PltTitle _) _ w1 tt w2).
  2:{ cbn [py]. unfold gcf. change (cur_fig w1) with (Some fig). cbv beta iota.
      rewrite (bool_decide_eq_true_2 (is_Some (figs w1 !! fig))); [reflexivity |].
      unfold w1, draw. cbn [figs with_figs]. rewrite lookup_alter_eq, Hf0. by eexists. }
  cbn [fst snd run call]. cbn [py]. unfold savefig. rewrite Hf2, lookup_insert_eq.
  change (fs w2) with (fs (after' i)). rewrite He. reflexivity.
Qed.

End UnwritablePlot.



Lemma suffixes_not_the_chart :
  Forall (fun u => forall s, s +:+ u <> "test_elbo_vae.png") Tsne.suffixes.
Proof.
  let l := eval vm_compute in Tsne.suffixes in change Tsne.suffixes with l.
  repeat constructor; intros s Heq;
    pose proof (f_equal String.length Heq) as Hlen;
    rewrite string_length_app in Hlen; cbn in Hlen;
    destruct s as [| a1 [| a2 [| a3 [| a4 s]]]]; cbn in Hlen; try lia;
    cbv in Heq; discriminate Heq.
Qed.



(** *** The chart of plot_llk, for any two loss records *)

Lemma select_all {A : Type} (keep : nat -> bool) (l : list A) :
  (forall j, (j < length l)%nat -> keep j = true) -> select keep l = l.
Proof.
  revert keep. induction l as [| x l IH]; intros keep H; [done |].
  rewrite select_cons, (H 0%nat) by (cbn; lia). cbn [app]. f_equal.
  apply IH. intros j Hj. apply (H (S j)). cbn. lia.
Qed.

Lemma select_first {A : Type} (keep : nat -> bool) (l1 l2 : list A) :
  (forall j, (j < length l1)%nat -> keep j = true) ->
  (forall j, (j < length l2)%nat -> keep (length l1 + j)%nat = false) ->
  select keep (l1 ++ l2) = l1.
Proof.
  intros H1 H2. by rewrite select_app, (select_all _ _ H1), (select_none _ _ H2), app_nil_r.
Qed.

Lemma select_second {A : Type} (keep : nat -> bool) (l1 l2 : list A) :
  (forall j, (j < length l1)%nat -> keep j = false) ->
  (forall j, (j < length l2)%nat -> keep (length l1 + j)%nat = true) ->
  select keep (l1 ++ l2) = l2.
Proof. intros H1 H2. by rewrite select_app, (select_none _ _ H1), (select_all _ _ H2). Qed.

Lemma mapM_fmap_Some {A B C : Type} (f : B -> option C) (g : A -> B) (h : A -> C)
    (l : list A) :
  (forall x, f (g x) = Some (h x)) -> mapM f (g <$> l) = Some (h <$> l).
Proof.
  intros Hf. induction l as [| x l IH]; [done |].
  cbn [fmap list_fmap mapM]. change (list_fmap A B g l) with (g <$> l).
  by rewrite Hf, IH.
Qed.

Lemma mapM_imap_Some_from {A B C : Type} (F : nat -> B -> option C) (G : A -> B)
    (H : nat -> A -> C) (l : list A) (j : nat) :
  (forall k x, x ∈ l -> F (j + k)%nat (G x) = Some (H (j + k)%nat x)) ->
  mapM (fun kn => F kn.1 kn.2) (imap (fun i => pair (j + i)%nat) (G <$> l))
  = Some (imap (fun i => H (j + i)%nat) l).
Proof.
  revert j. induction l as [| x l IH]; intros j HF; [done |].
  cbn [fmap list_fmap imap mapM]. change (list_fmap A B G l) with (G <$> l).
  cbn [fst snd]. rewrite (HF 0%nat x) by (by left). cbn [mbind option_bind].
  rewrite (imap_ext _ (fun i => pair (S j + i)%nat) (G <$> l))
    by (intros; unfold compose; f_equal; lia).
  rewrite (IH (S j)).
  - cbn [mbind option_bind mret option_ret]. do 2 f_equal.
    apply imap_ext. intros. unfold compose. f_equal. lia.
  - intros k y Hy. replace (S j + k)%nat with (j + S k)%nat by lia. apply HF. by right.
Qed.

Lemma mapM_imap_Some {A B C : Type} (F : nat -> B -> option C) (G : A -> B)
    (H : nat -> A -> C) (l : list A) :
  (forall k x, x ∈ l -> F k (G x) = Some (H k x)) ->
  mapM (fun kn => F kn.1 kn.2) (imap pair (G <$> l)) = Some (imap H l).
Proof. intros HF. exact (mapM_imap_Some_from F G H l 0 HF). Qed.

Lemma distinct_test (b : nat) :
  distinct_cells (replicate b (CStr "Test") ++ [])
  = match b with O => [] | S _ => [CStr "Test"] end.
Proof.
  induction b as [| b IH]; [done |].
  change (replicate (S b) (CStr "Test") ++ [])%list
    with (CStr "Test" :: (replicate b (CStr "Test") ++ []))%list.
  cbn [distinct_cells]. rewrite IH. by destruct b.
Qed.

Lemma distinct_train (a : nat) (l : list cell) :
  distinct_cells l = [] \/ distinct_cells l = [CStr "Test"] ->
  distinct_cells (replicate (S a) (CStr "Train") ++ l) = CStr "Train" :: distinct_cells l.
Proof.
  intros Hl. induction a as [| a IH].
  - change (replicate 1 (CStr "Train") ++ l)%list with (CStr "Train" :: l).
    cbn [distinct_cells]. by destruct Hl as [-> | ->].
  - change (replicate (S (S a)) (CStr "Train") ++ l)%list
      with (CStr "Train" :: (replicate (S a) (CStr "Train") ++ l))%list.
    cbn [distinct_cells]. rewrite IH. by destruct Hl as [-> | ->].
Qed.

Lemma hue_names_drawn (tr te : loss_record) :
  Llk.hue_names tr te = (fun sp => CStr sp.1) <$> Curves.drawn_splits tr te.
Proof.
  unfold Llk.hue_names, Curves.drawn_splits.
  pose proof (distinct_test (length te)) as Hte.
  destruct tr as [| p tr].
  - change (replicate (length []) (CStr "Train") ++ ?l)%list with l. rewrite Hte.
    by destruct te.
  - change (length (p :: tr)) with (S (length tr)). rewrite distinct_train, Hte.
    + by destruct te.
    + rewrite Hte. destruct (length te); first [by left | by right].
Qed.

Section Hues.

Context (tr te : loss_record) (f : plotfn) (ls : option string).

Abbreviation hues :=
  (replicate (length tr) (CStr "Train") ++ replicate (length te) (CStr "Test") ++ [])%list.
Abbreviation epochs := ((CInt <$> keys tr) ++ (CInt <$> keys te) ++ [])%list.
Abbreviation losses :=
  ((CFloat <$> (Qopp <$> values tr)) ++ (CFloat <$> (Qopp <$> values te)) ++ [])%list.

Lemma train_hue_found (j : nat) :
  (j < length tr)%nat -> default false (cell_eqb (CStr "Train") <$> hues !! j) = true.
Proof.
  intros Hj. rewrite lookup_app_l by (by rewrite length_replicate).
  by rewrite lookup_replicate_2.
Qed.

Lemma train_hue_ends (j : nat) :
  (j < length te)%nat ->
  default false (cell_eqb (CStr "Train") <$> hues !! (length tr + j)%nat) = false.
Proof.
  intros Hj. rewrite lookup_app_r by (rewrite length_replicate; lia).
  rewrite length_replicate, Nat.add_comm, Nat.add_sub, app_nil_r.
  by rewrite lookup_replicate_2.
Qed.

Lemma test_hue_found (j : nat) :
  (j < length te)%nat ->
  default false (cell_eqb (CStr "Test") <$> hues !! (length tr + j)%nat) = true.
Proof.
  intros Hj. rewrite lookup_app_r by (rewrite length_replicate; lia).
  rewrite length_replicate, Nat.add_comm, Nat.add_sub, app_nil_r.
  by rewrite lookup_replicate_2.
Qed.

Lemma test_hue_starts (j : nat) :
  (j < length tr)%nat -> default false (cell_eqb (CStr "Test") <$> hues !! j) = false.
Proof.
  intros Hj. rewrite lookup_app_l by (by rewrite length_replicate).
  by rewrite lookup_replicate_2.
Qed.

Lemma hue_layer_train (k : nat) :
  hue_layer hues epochs losses f ls k (CStr "Train") = Some (curve f ls k ("Train", tr)).
Proof.
  unfold hue_layer, keys, values.
  rewrite !select_first.
  - rewrite (mapM_fmap_Some cell_number CInt inject_Z) by done.
    rewrite (mapM_fmap_Some cell_number CFloat id) by done.
    cbn [mbind option_bind]. unfold curve, keys, values. cbn [fst snd].
    by rewrite list_fmap_id.
  - intros j Hj. rewrite !length_fmap in Hj. by apply train_hue_found.
  - intros j Hj. rewrite app_nil_r, !length_fmap in Hj. rewrite !length_fmap.
    by apply train_hue_ends.
  - intros j Hj. rewrite !length_fmap in Hj. by apply train_hue_found.
  - intros j Hj. rewrite app_nil_r, !length_fmap in Hj. rewrite !length_fmap.
    by apply train_hue_ends.
Qed.

Lemma hue_layer_test (k : nat) :
  hue_layer hues epochs losses f ls k (CStr "Test") = Some (curve f ls k ("Test", te)).
Proof.
  unfold hue_layer, keys, values.
  rewrite !select_second.
  - rewrite !app_nil_r.
    rewrite (mapM_fmap_Some cell_number CInt inject_Z) by done.
    rewrite (mapM_fmap_Some cell_number CFloat id) by done.
    cbn [mbind option_bind]. unfold curve, keys, values. cbn [fst snd].
    by rewrite list_fmap_id.
  - intros j Hj. rewrite !length_fmap in Hj. by apply test_hue_starts.
  - intros j Hj. rewrite app_nil_r, !length_fmap in Hj. rewrite !length_fmap.
    by apply test_hue_found.
  - intros j Hj. rewrite !length_fmap in Hj. by apply test_hue_starts.
  - intros j Hj. rewrite app_nil_r, !length_fmap in Hj. rewrite !length_fmap.
    by apply test_hue_found.
Qed.

Lemma layers_are_curves : Llk.layers f ls tr te = curves f ls tr te.
Proof.
  unfold Llk.layers, curves. rewrite hue_names_drawn.
  rewrite (mapM_imap_Some
             (fun k name => hue_layer hues epochs losses f ls k name)
             (fun sp => CStr sp.1) (curve f ls) (Curves.drawn_splits tr te)); [done |].
  intros k' sp Hsp. unfold Curves.drawn_splits in Hsp.
  apply list_elem_of_filter in Hsp as [_ Hsp].
  apply elem_of_cons in Hsp as [-> | Hsp].
  - apply hue_layer_train.
  - apply list_elem_of_singleton in Hsp as ->. apply hue_layer_test.
Qed.

End Hues.

Lemma foldl_add_layer (l : list layer) (fg : figure) :
  foldl (fun fg l => add_layer l fg) fg l
  = Figure (f_size fg) (f_style fg) (f_layers fg ++ l) (f_title fg) (f_legend fg)
      (f_integer_ticks fg).
Proof.
  revert fg. induction l as [| x l IH]; intros fg.
  - cbn [foldl]. rewrite app_nil_r. by destruct fg.
  - cbn [foldl]. rewrite IH. unfold add_layer. cbn. by rewrite <- app_assoc.
Qed.

Lemma chart_layers (tr te : loss_record) :
  Llk.chart tr te
  = Figure (Some (4 * (3 # 2), 4)%Q) "whitegrid"
      (curves scatterplot None tr te ++ curves lineplot (Some "--") tr te) None true true.
Proof.
  unfold Llk.chart. rewrite !foldl_add_layer, !layers_are_curves. reflexivity.
Qed.



(** With no training epochs the test losses are the only series, in the
    first colour. *)
Example test_series_alone :
  imap (fun k sp => Curves.series k sp.1 sp.2) (Curves.drawn_splits [] Demo.test)
  = [ (Palette 0, Some "Test", [(0, 130); (1, 1107 # 10)]%Q) ].
Proof. reflexivity. Qed.

(** X15: plot_llk closes every figure.  After a run that returns no
    figure is open, not those that were open before the call either, and
    there is no current figure; the style is whitegrid whatever it was;
    the backend, the display and the generators are as they were. *)
Theorem plot_llk_closes_every_figure (c : collab) (train_elbo test_elbo : loss_record)
    (w : world) :
  fs w !! resolve "vae_results" = None \/ fs w !! resolve "vae_results" = Some Dir ->
  fs w !! resolve "./vae_results/test_elbo_vae.png" <> Some Dir ->
  exists w',
    result (py c) (plot_llk train_elbo test_elbo) w = Ok tt w'
    /\ figs w' = ∅ /\ cur_fig w' = None /\ style w' = "whitegrid"
    /\ (backend w', displayed w', np_seed w', torch_seed w')
       = (backend w, displayed w, np_seed w, torch_seed w).
Proof.
  change (resolve "vae_results") with Llk.out_dir.
  change (resolve "./vae_results/test_elbo_vae.png") with Llk.out_file.
  intros Hd Hf.
  destruct (run_plot_llk c train_elbo test_elbo w Hd Hf) as (t & Hrun & _).
  exists (Llk.after train_elbo test_elbo w). unfold result. by rewrite Hrun.
Qed.

Lemma plot_llk_closes_every_figure_witness :
  exists w',
    result (py Demo.nets) (plot_llk Demo.train Demo.test)
      (with_figs Demo.ready {[ 7%nat := blank None "dark" ]} (Some 7%nat)) = Ok tt w'
    /\ figs w' = ∅ /\ cur_fig w' = None /\ style w' = "whitegrid"
    /\ (backend w', displayed w', np_seed w', torch_seed w')
       = (backend Demo.ready, displayed Demo.ready, np_seed Demo.ready, torch_seed Demo.ready).
Proof.
  apply (plot_llk_closes_every_figure Demo.nets Demo.train Demo.test
           (with_figs Demo.ready {[ 7%nat := blank None "dark" ]} (Some 7%nat))).
  - right. reflexivity.
  - vm_compute. discriminate.
Defined.

(** *** Where plot_llk stops *)

(** X16: plot_llk stops at once when vae_results is a regular file.  The
    mkdir call raises a FileExistsError (exist_ok covers directories
    only); no other call is made and the world is as it was. *)
Theorem plot_llk_output_dir_is_a_file (c : collab) (train_elbo test_elbo : loss_record)
    (w : world) (f : figure) :
  fs w !! resolve "vae_results" = Some (File f) ->
  run (py c) (plot_llk train_elbo test_elbo) w
  = ([Ev (PathMkdir "vae_results" true true)], Raise FileExistsError w).
Proof.
  intros Hf. unfold plot_llk. unmonad.
  apply run_call_raise. cbn [py]. unfold mkdir, is_dir.
  change (resolve "vae_results") with ["vae_results"] in *. by rewrite Hf.
Qed.

Lemma plot_llk_output_dir_is_a_file_witness :
  run (py Demo.nets) (plot_llk Demo.train Demo.test)
    (with_fs Demo.empty {[ ["vae_results"] := File (blank None "white") ]})
  = ([Ev (PathMkdir "vae_results" true true)],
     Raise FileExistsError
       (with_fs Demo.empty {[ ["vae_results"] := File (blank None "white") ]})).
Proof.
  apply (plot_llk_output_dir_is_a_file Demo.nets Demo.train Demo.test
           (with_fs Demo.empty {[ ["vae_results"] := File (blank None "white") ]})
           (blank None "white")).
  reflexivity.
Defined.



(** *** The unconditional sample grid *)

Lemma after_nothing (w : world) (vis : handle) : Samples.after w vis 0 [] = w.
Proof.
  destruct w. unfold Samples.after, Samples.shown, with_displayed, with_torch_seed.
  cbn. by rewrite Z.add_0_r, app_nil_r.
Qed.

Lemma after_calls (w : world) (vis : handle) (a : Z) :
  Samples.after w vis a [] = with_torch_seed w (torch_seed w + a).
Proof.
  destruct w. unfold Samples.after, Samples.shown, with_displayed, with_torch_seed.
  cbn. by rewrite app_nil_r.
Qed.

Lemma after_after (w : world) (vis : handle) (a b : Z) (rs1 rs2 : list (list ndarray)) :
  Samples.after (Samples.after w vis a rs1) vis b rs2 = Samples.after w vis (a + b) (rs1 ++ rs2).
Proof.
  unfold Samples.after, Samples.shown, with_displayed, with_torch_seed. cbn.
  by rewrite fmap_app, app_assoc, Z.add_assoc.
Qed.

Lemma rows_S (sample : Z -> tensor) (s0 : Z) (b : nat) :
  Samples.rows sample s0 (S b) = Samples.row sample s0 :: Samples.rows sample (s0 + 100) b.
Proof.
  unfold Samples.rows. cbn [seq fmap list_fmap].
  change (list_fmap nat (list ndarray) ?f ?l) with (f <$> l).
  f_equal.
  - f_equal. lia.
  - rewrite <- fmap_S_seq, <- list_fmap_compose. apply list_fmap_ext.
    intros ? r _. unfold compose. apply (f_equal (Samples.row sample)). lia.
Qed.

Section VaeGrid.

Context (c : collab) (vae vis : handle) (sample : Z -> tensor).

Lemma run_unconditional_sample (rr : nat) (images : list ndarray) (w : world) :
  returns_sample c vae sample (torch_seed w) ->
  exists t,
    run (py c) (unconditional_sample vae blank_input rr images) w
      = (t, Ok (images ++ [Samples.as_image (sample (torch_seed w))])%list
              (with_torch_seed w (torch_seed w + 1)))
    /\ image_rows t = [].
Proof.
  intros (rest & Hm & Hs).
  destruct (run_sample_image c (sample (torch_seed w)) rest
              (with_torch_seed w (torch_seed w + 1)) Hs) as (t & Ht & Hrows & _).
  eexists. unfold unconditional_sample. unmonad.
  rewrite run_call_bind. cbn [py]. rewrite Hm. cbn [lift].
  rewrite run_bind, Ht. cbn [run]. split; [reflexivity |].
  cbn. by rewrite image_rows_app, Hrows.
Qed.

Lemma run_unconditional_sample_raise (rr : nat) (images : list ndarray) (w : world) (e : exn) :
  vae_model c vae (torch_seed w) blank_input = inl e ->
  run (py c) (unconditional_sample vae blank_input rr images) w
  = ([Ev (VaeModel vae blank_input)], Raise e (with_torch_seed w (torch_seed w + 1))).
Proof.
  intros Hm. unfold unconditional_sample. unmonad.
  apply run_call_raise. cbn [py]. by rewrite Hm.
Qed.

Lemma run_row (l : list nat) (images : list ndarray) (w : world) :
  (forall j, (j < length l)%nat -> returns_sample c vae sample (torch_seed w + Z.of_nat j)) ->
  exists t,
    run (py c) (for_fold l (unconditional_sample vae blank_input) images) w
      = (t, Ok (images ++ ((fun j => Samples.as_image (sample (torch_seed w + Z.of_nat j)))
                             <$> seq 0 (length l)))%list
              (with_torch_seed w (torch_seed w + Z.of_nat (length l))))
    /\ image_rows t = [].
Proof.
  revert images w. induction l as [| rr l IH]; intros images w Hgood.
  - exists []. cbn [for_fold run length seq fmap list_fmap]. rewrite app_nil_r.
    split; [| done]. do 2 f_equal. destruct w. unfold with_torch_seed. cbn.
    by rewrite Z.add_0_r.
  - destruct (run_unconditional_sample rr images w) as (t1 & H1 & Hr1).
    { specialize (Hgood 0%nat). rewrite Z.add_0_r in Hgood. apply Hgood. cbn. lia. }
    destruct (IH (images ++ [Samples.as_image (sample (torch_seed w))])%list
                (with_torch_seed w (torch_seed w + 1))) as (t2 & H2 & Hr2).
    { intros j Hj. cbn [torch_seed with_torch_seed].
      replace (torch_seed w + 1 + Z.of_nat j) with (torch_seed w + Z.of_nat (S j)) by lia.
      apply Hgood. cbn. lia. }
    exists (t1 ++ t2)%list. cbn [for_fold]. rewrite (run_bind_ok _ _ _ _ _ _ _ H1), H2.
    cbn [fst snd]. split; [| by rewrite image_rows_app, Hr1, Hr2].
    f_equal. f_equal.
    + rewrite <- app_assoc. f_equal. cbn [length seq fmap list_fmap app].
      change (list_fmap nat ndarray ?f ?l) with (f <$> l).
      rewrite Z.add_0_r. f_equal.
      rewrite <- fmap_S_seq, <- list_fmap_compose. apply list_fmap_ext.
      intros ? j _. unfold compose. cbn [torch_seed with_torch_seed]. do 2 f_equal. lia.
    + unfold with_torch_seed. cbn. f_equal. lia.
Qed.

Lemma run_row_raise (l : list nat) (images : list ndarray) (w : world) (j : nat) (e : exn) :
  (j < length l)%nat ->
  (forall i, (i < j)%nat -> returns_sample c vae sample (torch_seed w + Z.of_nat i)) ->
  vae_model c vae (torch_seed w + Z.of_nat j) blank_input = inl e ->
  exists t,
    run (py c) (for_fold l (unconditional_sample vae blank_input) images) w
      = (t, Raise e (with_torch_seed w (torch_seed w + (Z.of_nat j + 1))))
    /\ image_rows t = [].
Proof.
  revert images w j. induction l as [| rr l IH]; intros images w j Hj Hgood He;
    [cbn in Hj; lia |].
  destruct j as [| j].
  - rewrite Z.add_0_r in He. eexists. cbn [for_fold].
    rewrite (run_bind_raise _ _ _ _ _ _ _ (run_unconditional_sample_raise rr images w e He)).
    split; reflexivity.
  - destruct (run_unconditional_sample rr images w) as (t1 & H1 & Hr1).
    { specialize (Hgood 0%nat). rewrite Z.add_0_r in Hgood. apply Hgood. lia. }
    destruct (IH (images ++ [Samples.as_image (sample (torch_seed w))])%list
                (with_torch_seed w (torch_seed w + 1)) j) as (t2 & H2 & Hr2).
    { cbn in Hj. lia. }
    { intros i Hi. cbn [torch_seed with_torch_seed].
      replace (torch_seed w + 1 + Z.of_nat i) with (torch_seed w + Z.of_nat (S i)) by lia.
      apply Hgood. lia. }
    { cbn [torch_seed with_torch_seed].
      replace (torch_seed w + 1 + Z.of_nat j) with (torch_seed w + Z.of_nat (S j)) by lia.
      exact He. }
    exists (t1 ++ t2)%list. cbn [for_fold]. rewrite (run_bind_ok _ _ _ _ _ _ _ H1), H2.
    cbn [fst snd]. split; [| by rewrite image_rows_app, Hr1, Hr2].
    f_equal. f_equal. unfold with_torch_seed. cbn. f_equal. lia.
Qed.

Abbreviation grid_row :=
  (fun _ : nat =>
     bind (for_fold (range 100) (unconditional_sample vae blank_input) [])
       (fun images => call (VisImages vis images 10 2))).

Lemma run_grid_row (i : nat) (w : world) :
  (forall j, (j < 100)%nat -> returns_sample c vae sample (torch_seed w + Z.of_nat j)) ->
  exists t,
    run (py c) (grid_row i) w
      = (t, Ok tt (Samples.after w vis 100 [Samples.row sample (torch_seed w)]))
    /\ image_rows t = [Samples.row sample (torch_seed w)].
Proof.
  intros Hgood. destruct (run_row (range 100) [] w Hgood) as (t1 & H1 & Hr1).
  exists (t1 ++ [Ev (VisImages vis (Samples.row sample (torch_seed w)) 10 2)])%list.
  rewrite (run_bind_ok _ _ _ _ _ _ _ H1). cbn [fst snd app].
  split; [reflexivity |]. by rewrite image_rows_app, Hr1.
Qed.

Lemma run_grid_row_raise (i : nat) (w : world) (j : nat) (e : exn) :
  (j < 100)%nat ->
  (forall i, (i < j)%nat -> returns_sample c vae sample (torch_seed w + Z.of_nat i)) ->
  vae_model c vae (torch_seed w + Z.of_nat j) blank_input = inl e ->
  exists t,
    run (py c) (grid_row i) w = (t, Raise e (Samples.after w vis (Z.of_nat j + 1) []))
    /\ image_rows t = [].
Proof.
  intros Hj Hgood He.
  destruct (run_row_raise (range 100) [] w j e Hj Hgood He) as (t1 & H1 & Hr1).
  exists t1. rewrite (run_bind_raise _ _ _ _ _ _ _ H1), after_calls. done.
Qed.

Lemma run_grid_rows (l : list nat) (w : world) :
  (forall j, (j < 100 * length l)%nat ->
     returns_sample c vae sample (torch_seed w + Z.of_nat j)) ->
  exists t,
    run (py c) (for_each l grid_row) w
      = (t, Ok tt (Samples.after w vis (100 * Z.of_nat (length l))
                     (Samples.rows sample (torch_seed w) (length l))))
    /\ image_rows t = Samples.rows sample (torch_seed w) (length l).
Proof.
  revert w. induction l as [| i l IH]; intros w Hgood.
  - exists []. by rewrite after_nothing.
  - destruct (run_grid_row i w) as (t1 & H1 & Hr1).
    { intros j Hj. apply Hgood. cbn [length]. lia. }
    set (w1 := Samples.after w vis 100 [Samples.row sample (torch_seed w)]) in *.
    assert (torch_seed w1 = torch_seed w + 100) as Hseed by reflexivity.
    destruct (IH w1) as (t2 & H2 & Hr2).
    { intros j Hj. rewrite Hseed.
      replace (torch_seed w + 100 + Z.of_nat j) with (torch_seed w + Z.of_nat (100 + j)) by lia.
      apply Hgood. cbn [length]. lia. }
    exists (t1 ++ t2)%list. cbn [for_each]. rewrite (run_bind_ok _ _ _ _ _ _ _ H1), H2.
    cbn [fst snd]. rewrite image_rows_app, Hr1, Hr2, Hseed. cbn [length].
    rewrite rows_S. split; [| reflexivity].
    unfold w1. rewrite after_after. do 3 f_equal. lia.
Qed.

Lemma run_grid_rows_raise (l : list nat) (w : world) (j : nat) (e : exn) :
  (j < 100 * length l)%nat ->
  (forall i, (i < j)%nat -> returns_sample c vae sample (torch_seed w + Z.of_nat i)) ->
  vae_model c vae (torch_seed w + Z.of_nat j) blank_input = inl e ->
  exists t,
    run (py c) (for_each l grid_row) w
      = (t, Raise e (Samples.after w vis (Z.of_nat j + 1)
                       (Samples.rows sample (torch_seed w) (j / 100))))
    /\ image_rows t = Samples.rows sample (torch_seed w) (j / 100).
Proof.
  revert w j. induction l as [| i l IH]; intros w j Hj Hgood He; [cbn in Hj; lia |].
  destruct (decide (j < 100)%nat) as [Hlt | Hge].
  - destruct (run_grid_row_raise i w j e Hlt Hgood He) as (t1 & H1 & Hr1).
    exists t1. cbn [for_each]. rewrite (run_bind_raise _ _ _ _ _ _ _ H1).
    rewrite Nat.div_small by done. done.
  - destruct (run_grid_row i w) as (t1 & H1 & Hr1).
    { intros i' Hi'. apply Hgood. lia. }
    set (w1 := Samples.after w vis 100 [Samples.row sample (torch_seed w)]) in *.
    assert (torch_seed w1 = torch_seed w + 100) as Hseed by reflexivity.
    destruct (IH w1 (j - 100)%nat) as (t2 & H2 & Hr2).
    { cbn [length] in Hj. lia. }
    { intros i' Hi'. rewrite Hseed.
      replace (torch_seed w + 100 + Z.of_nat i') with (torch_seed w + Z.of_nat (100 + i'))
        by lia.
      apply Hgood. lia. }
    { rewrite Hseed.
      replace (torch_seed w + 100 + Z.of_nat (j - 100)) with (torch_seed w + Z.of_nat j) by lia.
      exact He. }
    assert (j / 100 = S ((j - 100) / 100))%nat as Hdiv.
    { replace j with (1 * 100 + (j - 100))%nat at 1 by lia.
      rewrite Nat.div_add_l by lia. lia. }
    exists (t1 ++ t2)%list. cbn [for_each]. rewrite (run_bind_ok _ _ _ _ _ _ _ H1), H2.
    cbn [fst snd]. rewrite image_rows_app, Hr1, Hr2, Hseed, Hdiv, rows_S.
    split; [| reflexivity].
    unfold w1. rewrite after_after. do 3 f_equal. lia.
Qed.

End VaeGrid.

Lemma rows_are_rows (sample : Z -> tensor) (s0 : Z) (b : nat) :
  Forall is_row (Samples.rows sample s0 b).
Proof.
  unfold Samples.rows. rewrite Forall_fmap. apply Forall_true. intros r.
  unfold compose, is_row, Samples.row. split.
  - by rewrite length_fmap.
  - rewrite Forall_fmap. by apply Forall_true.
Qed.

(** X18: plot_vae_samples shows the next thousand samples of the model,
    row by row.  When the model returns a sample of 784 pixels at each of
    its next 1000 calls on the blank input, the run completes: the display
    receives ten rows, 10 images per line and a padding of 2; the row [r]
    holds, in the order in which they were drawn, the samples 100 r to
    100 r + 99 as images of one channel of 28 by 28 pixels; the model has
    been called 1000 times and nothing else has changed. *)
Theorem vae_grid_rows (c : collab) (vae visdom_session : handle) (sample : Z -> tensor)
    (w : world) :
  (forall j, (j < 1000)%nat -> returns_sample c vae sample (torch_seed w + Z.of_nat j)) ->
  exists t,
    run (py c) (plot_vae_samples vae visdom_session) w
      = (t, Ok tt (Samples.after w visdom_session 1000 (Samples.rows sample (torch_seed w) 10)))
    /\ image_rows t = Samples.rows sample (torch_seed w) 10
    /\ Forall is_row (image_rows t).
Proof.
  intros Hgood.
  destruct (run_grid_rows c vae visdom_session sample (range 10) w Hgood) as (t & Hrun & Hrows).
  exists (Ev (TorchZeros [1; 784]%nat) :: t). unfold plot_vae_samples. unmonad.
  rewrite (run_call_ok (py c) (TorchZeros _) _ w blank_input w); [| reflexivity].
  rewrite Hrun. cbn [fst snd]. split; [reflexivity |].
  change (image_rows (Ev (TorchZeros [1; 784]%nat) :: t)) with (image_rows t).
  rewrite Hrows. split; [reflexivity | apply rows_are_rows].
Qed.

Lemma vae_grid_rows_witness :
  exists t,
    run (py Demo.nets) (plot_vae_samples 0%nat 1%nat) Demo.empty
      = (t, Ok tt (Samples.after Demo.empty 1%nat 1000
                     (Samples.rows half_grey (torch_seed Demo.empty) 10)))
    /\ image_rows t = Samples.rows half_grey (torch_seed Demo.empty) 10
    /\ Forall is_row (image_rows t).
Proof.
  apply (vae_grid_rows Demo.nets 0%nat 1%nat half_grey Demo.empty).
  intros j Hj. exists []. split; reflexivity.
Defined.

(** X19: a sample grid that fails keeps the rows it has sent.  When the
    model returns samples at its next [j] calls and raises at the call
    after them, [j] below 1000, plot_vae_samples ends with the exception of
    the model; the [j / 100] rows that were complete have been sent to the
    display and stay there, and the samples of the row that was being
    drawn are lost. *)
Theorem vae_grid_keeps_rows_before_failure (c : collab) (vae visdom_session : handle)
    (sample : Z -> tensor) (w : world) (j : nat) (e : exn) :
  (j < 1000)%nat ->
  (forall i, (i < j)%nat -> returns_sample c vae sample (torch_seed w + Z.of_nat i)) ->
  vae_model c vae (torch_seed w + Z.of_nat j) blank_input = inl e ->
  exists t,
    run (py c) (plot_vae_samples vae visdom_session) w
      = (t, Raise e (Samples.after w visdom_session (Z.of_nat j + 1)
                       (Samples.rows sample (torch_seed w) (j / 100))))
    /\ image_rows t = Samples.rows sample (torch_seed w) (j / 100).
Proof.
  intros Hj Hgood He.
  destruct (run_grid_rows_raise c vae visdom_session sample (range 10) w j e Hj Hgood He)
    as (t & Hrun & Hrows).
  exists (Ev (TorchZeros [1; 784]%nat) :: t). unfold plot_vae_samples. unmonad.
  rewrite (run_call_ok (py c) (TorchZeros _) _ w blank_input w); [| reflexivity].
  rewrite Hrun. cbn [fst snd]. split; [reflexivity |].
  change (image_rows (Ev (TorchZeros [1; 784]%nat) :: t)) with (image_rows t).
  exact Hrows.
Qed.

Lemma vae_grid_keeps_rows_before_failure_witness :
  exists t,
    run (py flaky) (plot_vae_samples 0%nat 1%nat) Demo.empty
      = (t, Raise RuntimeError
              (Samples.after Demo.empty 1%nat (Z.of_nat 250 + 1)
                 (Samples.rows half_grey (torch_seed Demo.empty) (250 / 100))))
    /\ image_rows t = Samples.rows half_grey (torch_seed Demo.empty) (250 / 100).
Proof.
  apply (vae_grid_keeps_rows_before_failure flaky 0%nat 1%nat half_grey Demo.empty 250
           RuntimeError).
  - lia.
  - intros i Hi. exists []. split; [| reflexivity].
    change (vae_model flaky 0%nat (torch_seed Demo.empty + Z.of_nat i) blank_input)
      with (if 0 + Z.of_nat i <? 250
            then vae_model Demo.nets 0%nat (0 + Z.of_nat i) blank_input
            else inl RuntimeError).
    destruct (Z.ltb_spec (0 + Z.of_nat i) 250) as [_ | Hge]; [reflexivity | lia].
  - reflexivity.
Defined.

(** X20: a sample that does not have 784 pixels stops plot_vae_samples at
    its first image.  The view as one channel of 28 by 28 pixels raises a
    RuntimeError after one call of the model; no row is sent to the
    display. *)
Theorem vae_grid_wrong_sample_size (c : collab) (vae visdom_session : handle) (w : world)
    (s : tensor) (rest : list tensor) :
  vae_model c vae (torch_seed w) blank_input = inr (s :: rest) ->
  length (t_data s) <> 784%nat ->
  run (py c) (plot_vae_samples vae visdom_session) w
  = ( [ Ev (TorchZeros [1; 784]%nat); Ev (VaeModel vae blank_input);
        Ev (TupleGetItem (s :: rest) 0); Ev (TensorView s [1; 28; 28]%nat) ],
      Raise RuntimeError (with_torch_seed w (torch_seed w + 1)) ).
Proof.
  intros Hm Hs.
  assert (run (py c) (unconditional_sample vae blank_input 0 []) w
          = ( [ Ev (VaeModel vae blank_input); Ev (TupleGetItem (s :: rest) 0);
                Ev (TensorView s [1; 28; 28]%nat) ],
              Raise RuntimeError (with_torch_seed w (torch_seed w + 1)) )) as Hsample.
  { assert (forall w', run (py c) (sample_image (s :: rest)) w'
                       = ( [Ev (TupleGetItem (s :: rest) 0); Ev (TensorView s [1; 28; 28]%nat)],
                           Raise RuntimeError w' )) as Himage.
    { intros w'. unfold sample_image. unmonad.
      rewrite run_call_bind. cbn [py lookup list_lookup from_option lift].
      rewrite run_call_bind. cbn [py]. unfold tensor_view.
      change (numel [1; 28; 28]%nat) with 784%nat.
      rewrite (proj2 (Nat.eqb_neq 784 (length (t_data s)))) by (intros Heq; by apply Hs).
      reflexivity. }
    unfold unconditional_sample. unmonad.
    rewrite run_call_bind. cbn [py]. rewrite Hm. cbn [lift].
    rewrite run_bind, Himage. reflexivity. }
  unfold plot_vae_samples. unmonad.
  rewrite (run_call_ok (py c) (TorchZeros _) _ w blank_input w); [| reflexivity].
  change (range 10) with (0 :: seq 1 9)%nat. cbn [for_each].
  change (range 100) with (0 :: seq 1 99)%nat. cbn [for_fold].
  rewrite (run_bind_raise _ _ _ _ _ _ _
             (run_bind_raise _ _ _ _ _ _ _ (run_bind_raise _ _ _ _ _ _ _ Hsample))).
  reflexivity.
Qed.

Lemma vae_grid_wrong_sample_size_witness :
  run (py tiny) (plot_vae_samples 0%nat 1%nat) Demo.empty
  = ( [ Ev (TorchZeros [1; 784]%nat); Ev (VaeModel 0%nat blank_input);
        Ev (TupleGetItem [Tensor [2; 2]%nat [1; 2; 3; 4]%Q] 0);
        Ev (TensorView (Tensor [2; 2]%nat [1; 2; 3; 4]%Q) [1; 28; 28]%nat) ],
      Raise RuntimeError (with_torch_seed Demo.empty (torch_seed Demo.empty + 1)) ).
Proof.
  apply (vae_grid_wrong_sample_size tiny 0%nat 1%nat Demo.empty
           (Tensor [2; 2]%nat [1; 2; 3; 4]%Q) []).
  - reflexivity.
  - cbn. lia.
Defined.

(** *** plot_tsne, called again *)

Lemma files_id (name : pyobj) (pic : nat -> figure) (fs0 : gmap (list string) node) (i : nat) :
  (forall ic, (ic < i)%nat -> fs0 !! resolve (class_path name ic) = Some (File (pic (S ic)))) ->
  Embedding.files name pic i fs0 = fs0.
Proof.
  induction i as [| i IH]; intros Hfs; [done |].
  rewrite files_next, IH by (intros; apply Hfs; lia). apply insert_id, Hfs. lia.
Qed.



(** *** The points of a class *)

Lemma omap_seq_S {A : Type} (g : nat -> option A) (a n : nat) :
  omap g (seq (S a) n) = omap (g ∘ S) (seq a n).
Proof.
  revert a. induction n as [| n IH]; intros a; [done |].
  cbn [seq omap list_omap compose]. change (list_omap ?f ?l) with (omap f l).
  by rewrite IH.
Qed.

Lemma select_one_of_row {A : Type} (col : nat) (b : bool) (l : list A) :
  select (fun j => (j =? col)%nat && b) l = option_list (if b then l !! col else None).
Proof.
  revert col. induction l as [| x l IH]; intros col.
  - by destruct b.
  - rewrite select_cons. destruct col as [| col].
    + rewrite select_none by (intros j _; done). cbn. by destruct b.
    + cbn [Nat.eqb andb app]. rewrite (select_ext _ (fun j => (j =? col)%nat && b)) by done.
      by rewrite IH.
Qed.

(** In an array of [n] rows of [k] elements, a mask on the rows and a
    column select the elements of the column in the rows of the mask. *)
Lemma select_rows {A : Type} (k col n : nat) (b : nat -> bool) (l : list A) :
  (col < k)%nat -> length l = (n * k)%nat ->
  select (fun j => (column_of k [] j =? col)%nat && b (row_of k [] j)) l
  = omap (fun r => if b r then l !! (r * k + col)%nat else None) (seq 0 n).
Proof.
  intros Hc. revert b l. induction n as [| n IH]; intros b l Hl.
  - by destruct l.
  - rewrite <- (take_drop k l) at 1. rewrite select_app.
    assert (length (take k l) = k) as Hk by (rewrite length_take; cbn in Hl; lia).
    rewrite Hk.
    rewrite (select_ext _ (fun j => (j =? col)%nat && b 0%nat)).
    2:{ intros j Hj. rewrite Hk in Hj. unfold column_of, row_of. cbn [numel foldr].
        rewrite Nat.div_1_r, Nat.mul_1_r, Nat.mod_small, Nat.div_small by lia. done. }
    rewrite select_one_of_row, lookup_take_lt by done.
    rewrite (select_ext _ (fun j => (column_of k [] j =? col)%nat && (b ∘ S) (row_of k [] j))).
    2:{ intros j _. unfold column_of, row_of. cbn [numel foldr].
        rewrite !Nat.div_1_r, Nat.mul_1_r.
        replace (k + j)%nat with (j + 1 * k)%nat by lia.
        rewrite Nat.Div0.mod_add, Nat.div_add by lia. cbn. by rewrite Nat.add_1_r. }
    rewrite IH by (rewrite length_drop; cbn in Hl; lia).
    cbn [seq omap list_omap]. change (list_omap ?f ?l) with (omap f l).
    rewrite omap_seq_S. cbn [Nat.mul Nat.add].
    assert (omap (fun r => if (b ∘ S) r then drop k l !! (r * k + col)%nat else None) (seq 0 n)
            = omap ((fun r => if b r then l !! (r * k + col)%nat else None) ∘ S) (seq 0 n))
      as ->.
    { apply list_omap_ext. apply Forall2_same_length_lookup_2; [done |].
      intros i x y Hx Hy. assert (x = y) as -> by congruence.
      unfold compose. rewrite lookup_drop.
      replace (k + (y * k + col))%nat with (S y * k + col)%nat by lia. done. }
    by destruct (b 0%nat), (l !! col).
Qed.

Lemma omap_seq_total {A : Type} (g : nat -> option A) (n : nat) :
  (forall i, (i < n)%nat -> is_Some (g i)) ->
  length (omap g (seq 0 n)) = n /\ forall r, (r < n)%nat -> omap g (seq 0 n) !! r = g r.
Proof.
  induction n as [| n IH]; intros Hg; [split; [done | intros; lia] |].
  destruct IH as [IH1 IH2]; [intros; apply Hg; lia |].
  destruct (Hg n) as [x Hx]; [lia |].
  rewrite seq_S, omap_app. cbn [Nat.add omap list_omap]. rewrite Hx.
  rewrite length_app, IH1. split; [cbn; lia |].
  intros r Hr. destruct (decide (r < n)%nat) as [Hlt | Hge].
  - rewrite lookup_app_l by lia. by apply IH2.
  - assert (r = n) as -> by lia. rewrite lookup_app_r by lia.
    rewrite IH1, Nat.sub_diag. by rewrite Hx.
Qed.

Lemma class_mask_labelled (n m : nat) (cls : ndarray) (ic r : nat) :
  length (data cls) = (n * m)%nat -> (ic < m)%nat -> (r < n)%nat ->
  default false (Tsne.class_mask m cls ic !! r) = labelled m cls r ic.
Proof.
  intros Hl Hic Hr. unfold Tsne.class_mask, labelled.
  rewrite (select_ext _ (fun j => (column_of m [] j =? ic)%nat && (fun _ => true) (row_of m [] j)))
    by (intros; by rewrite andb_true_r).
  rewrite (select_rows m ic n (fun _ => true) (data cls) Hic Hl).
  rewrite list_lookup_fmap.
  destruct (omap_seq_total (fun r => data cls !! (r * m + ic)%nat) n) as [_ Hlookup].
  { intros i Hi. apply lookup_lt_is_Some. rewrite Hl. nia. }
  rewrite (Hlookup r Hr). by destruct (data cls !! (r * m + ic)%nat).
Qed.

Lemma class_points_coordinates (n k m : nat) (z_embed cls : ndarray) (ic col : nat) :
  length (data z_embed) = (n * k)%nat -> length (data cls) = (n * m)%nat ->
  (col < k)%nat -> (ic < m)%nat ->
  Tsne.class_points k z_embed (Tsne.class_mask m cls ic) col
  = class_coordinates n k m z_embed cls ic col.
Proof.
  intros Hz Hl Hcol Hic. unfold Tsne.class_points, class_coordinates.
  rewrite (select_rows k col n (fun r => default false (Tsne.class_mask m cls ic !! r))
             (data z_embed) Hcol Hz).
  apply list_omap_ext. apply Forall2_same_length_lookup_2; [done |].
  intros i x y Hx Hy. assert (x = y) as -> by congruence.
  apply lookup_seq in Hx as [-> Hlt]. cbn [Nat.add].
  by rewrite (class_mask_labelled n m cls ic i Hl Hic Hlt).
Qed.



(** On the sample input the rows 0 and 1 are of class 0 and the row 2 is
    of class 4. *)
Example coordinates_of_the_classes :
  (fun ic => class_coordinates 3 2 10 (Demo.keep_two (numpy_of Demo.z_loc))
               (numpy_of Demo.one_hot) ic 0) <$> [0; 4; 7]%nat
  = [[1; 4]; [7]; []]%Q.
Proof. reflexivity. Qed.

(** *** The conditional sample grid, image by image *)

Lemma labelled_rows_S (sample : Z -> nat -> tensor) (s0 : Z) (a b : nat) :
  labelled_rows sample s0 a (S b)
  = labelled_row sample s0 a :: labelled_rows sample (s0 + 100) (S a) b.
Proof.
  unfold labelled_rows. cbn [seq fmap list_fmap].
  change (list_fmap nat (list ndarray) ?f ?l) with (f <$> l).
  f_equal.
  - rewrite Nat.add_0_r. apply (f_equal (fun s => labelled_row sample s a)). lia.
  - rewrite <- fmap_S_seq, <- list_fmap_compose. apply list_fmap_ext.
    intros ? r _. unfold compose.
    replace (a + S r)%nat with (S a + r)%nat by lia.
    apply (f_equal (fun s => labelled_row sample s (S a + r))). lia.
Qed.

Section ConditionalGridImages.

Context (c : collab) (ssvae vis : handle) (sample : Z -> nat -> tensor).
Context (ys : gmap nat tensor).

Lemma run_labelled_sample (i rr : nat) (images : list ndarray) (w : world) :
  ys !! i = Some (indicator_row i) ->
  returns_sample_for c ssvae sample (torch_seed w) i ->
  exists t,
    run (py c) (conditional_sample ssvae blank_input ys i rr images) w
      = (t, Ok (images ++ [Samples.as_image (sample (torch_seed w) i)])%list
              (with_torch_seed w (torch_seed w + 1)))
    /\ image_rows t = [].
Proof.
  intros Hy (rest & Hm & Hs).
  destruct (run_sample_image c (sample (torch_seed w) i) rest
              (with_torch_seed w (torch_seed w + 1)) Hs) as (t & Ht & Hrows & _).
  eexists. unfold conditional_sample. unmonad.
  rewrite run_call_bind. cbn [py]. rewrite Hy. cbn [from_option lift].
  rewrite run_call_bind. cbn [py]. rewrite Hm. cbn [lift].
  rewrite run_bind, Ht. cbn [run]. split; [reflexivity |].
  cbn. by rewrite image_rows_app, Hrows.
Qed.

Lemma run_labelled_row (i : nat) (l : list nat) (images : list ndarray) (w : world) :
  ys !! i = Some (indicator_row i) ->
  (forall j, (j < length l)%nat ->
     returns_sample_for c ssvae sample (torch_seed w + Z.of_nat j) i) ->
  exists t,
    run (py c) (for_fold l (conditional_sample ssvae blank_input ys i) images) w
      = (t, Ok (images ++ ((fun j => Samples.as_image (sample (torch_seed w + Z.of_nat j) i))
                             <$> seq 0 (length l)))%list
              (with_torch_seed w (torch_seed w + Z.of_nat (length l))))
    /\ image_rows t = [].
Proof.
  intros Hy. revert images w. induction l as [| rr l IH]; intros images w Hgood.
  - exists []. cbn [for_fold run length seq fmap list_fmap]. rewrite app_nil_r.
    split; [| done]. do 2 f_equal. destruct w. unfold with_torch_seed. cbn.
    by rewrite Z.add_0_r.
  - destruct (run_labelled_sample i rr images w Hy) as (t1 & H1 & Hr1).
    { specialize (Hgood 0%nat). rewrite Z.add_0_r in Hgood. apply Hgood. cbn. lia. }
    destruct (IH (images ++ [Samples.as_image (sample (torch_seed w) i)])%list
                (with_torch_seed w (torch_seed w + 1))) as (t2 & H2 & Hr2).
    { intros j Hj. cbn [torch_seed with_torch_seed].
      replace (torch_seed w + 1 + Z.of_nat j) with (torch_seed w + Z.of_nat (S j)) by lia.
      apply Hgood. cbn. lia. }
    exists (t1 ++ t2)%list. cbn [for_fold]. rewrite (run_bind_ok _ _ _ _ _ _ _ H1), H2.
    cbn [fst snd]. split; [| by rewrite image_rows_app, Hr1, Hr2].
    f_equal. f_equal.
    + rewrite <- app_assoc. f_equal. cbn [length seq fmap list_fmap app].
      change (list_fmap nat ndarray ?f ?l) with (f <$> l).
      rewrite Z.add_0_r. f_equal.
      rewrite <- fmap_S_seq, <- list_fmap_compose. apply list_fmap_ext.
      intros ? j _. unfold compose. cbn [torch_seed with_torch_seed].
      apply (f_equal (fun s => Samples.as_image (sample s i))). lia.
    + unfold with_torch_seed. cbn. f_equal. lia.
Qed.

Abbreviation labelled_grid_row :=
  (fun i : nat =>
     bind (for_fold (range 100) (conditional_sample ssvae blank_input ys i) [])
       (fun images => call (VisImages vis images 10 2))).

Lemma run_labelled_grid_row (i : nat) (w : world) :
  ys !! i = Some (indicator_row i) ->
  (forall j, (j < 100)%nat -> returns_sample_for c ssvae sample (torch_seed w + Z.of_nat j) i) ->
  exists t,
    run (py c) (labelled_grid_row i) w
      = (t, Ok tt (Samples.after w vis 100 [labelled_row sample (torch_seed w) i]))
    /\ image_rows t = [labelled_row sample (torch_seed w) i].
Proof.
  intros Hy Hgood. destruct (run_labelled_row i (range 100) [] w Hy Hgood) as (t1 & H1 & Hr1).
  exists (t1 ++ [Ev (VisImages vis (labelled_row sample (torch_seed w) i) 10 2)])%list.
  rewrite (run_bind_ok _ _ _ _ _ _ _ H1). cbn [fst snd app].
  split; [reflexivity |]. by rewrite image_rows_app, Hr1.
Qed.

Lemma run_labelled_grid_rows (b a : nat) (w : world) :
  (forall r, (r < b)%nat -> ys !! (a + r)%nat = Some (indicator_row (a + r))) ->
  (forall r j, (r < b)%nat -> (j < 100)%nat ->
     returns_sample_for c ssvae sample (torch_seed w + Z.of_nat (100 * r + j)) (a + r)) ->
  exists t,
    run (py c) (for_each (seq a b) labelled_grid_row) w
      = (t, Ok tt (Samples.after w vis (100 * Z.of_nat b)
                     (labelled_rows sample (torch_seed w) a b)))
    /\ image_rows t = labelled_rows sample (torch_seed w) a b.
Proof.
  revert a w. induction b as [| b IH]; intros a w Hys Hgood.
  - exists []. by rewrite after_nothing.
  - destruct (run_labelled_grid_row a w) as (t1 & H1 & Hr1).
    { specialize (Hys 0%nat). rewrite Nat.add_0_r in Hys. apply Hys. lia. }
    { intros j Hj. specialize (Hgood 0%nat j). rewrite Nat.add_0_r in Hgood.
      apply Hgood; lia. }
    set (w1 := Samples.after w vis 100 [labelled_row sample (torch_seed w) a]) in *.
    assert (torch_seed w1 = torch_seed w + 100) as Hseed by reflexivity.
    destruct (IH (S a) w1) as (t2 & H2 & Hr2).
    { intros r Hr. replace (S a + r)%nat with (a + S r)%nat by lia. apply Hys. lia. }
    { intros r j Hr Hj. rewrite Hseed.
      replace (S a + r)%nat with (a + S r)%nat by lia.
      replace (torch_seed w + 100 + Z.of_nat (100 * r + j))
        with (torch_seed w + Z.of_nat (100 * S r + j)) by lia.
      apply Hgood; lia. }
    exists (t1 ++ t2)%list. cbn [seq for_each]. rewrite (run_bind_ok _ _ _ _ _ _ _ H1), H2.
    cbn [fst snd]. rewrite image_rows_app, Hr1, Hr2, Hseed.
    rewrite labelled_rows_S. split; [| reflexivity].
    unfold w1. rewrite after_after. do 3 f_equal. lia.
Qed.

End ConditionalGridImages.

(** X23: plot_conditional_samples_ssvae shows, label by label, the next
    thousand samples of the model.  When the model returns a sample of 784
    pixels at each of its next 1000 calls, the calls 100 i to 100 i + 99
    being made on the blank input and the indicator row of the label [i],
    the run completes: the row [i] of the display holds these hundred
    samples of the label [i], in the order in which they were drawn, as
    images of one channel of 28 by 28 pixels; the model has been called
    1000 times and nothing else has changed. *)
Theorem conditional_grid_images (c : collab) (ssvae visdom_session : handle)
    (sample : Z -> nat -> tensor) (w : world) :
  (forall i j, (i < 10)%nat -> (j < 100)%nat ->
     returns_sample_for c ssvae sample (torch_seed w + Z.of_nat (100 * i + j)) i) ->
  exists t,
    run (py c) (plot_conditional_samples_ssvae ssvae visdom_session) w
      = (t, Ok tt (Samples.after w visdom_session 1000
                     (labelled_rows sample (torch_seed w) 0 10)))
    /\ image_rows t = labelled_rows sample (torch_seed w) 0 10.
Proof.
  intros Hgood.
  destruct (run_label_rows c w) as (t0 & ys & H0 & Hr0 & _ & Hys).
  rewrite Forall_forall in Hys.
  destruct (run_labelled_grid_rows c ssvae visdom_session sample ys 10 0 w)
    as (t1 & H1 & Hr1).
  { intros r Hr. apply Hys. apply elem_of_seq. lia. }
  { intros r j Hr Hj. by apply Hgood. }
  exists (t0 ++ Ev (TorchZeros [1; 784]%nat) :: t1)%list.
  unfold plot_conditional_samples_ssvae. unmonad.
  rewrite (run_bind_ok _ _ _ _ _ _ _ H0).
  rewrite (run_call_ok (py c) (TorchZeros _) _ w blank_input w); [| reflexivity].
  change (range 10) with (seq 0 10). rewrite H1. cbn [fst snd]. split; [reflexivity |].
  rewrite image_rows_app, Hr0. exact Hr1.
Qed.

Lemma conditional_grid_images_witness :
  exists t,
    run (py Demo.nets) (plot_conditional_samples_ssvae 0%nat 1%nat) Demo.empty
      = (t, Ok tt (Samples.after Demo.empty 1%nat 1000
                     (labelled_rows half_grey_for (torch_seed Demo.empty) 0 10)))
    /\ image_rows t = labelled_rows half_grey_for (torch_seed Demo.empty) 0 10.
Proof.
  apply (conditional_grid_images Demo.nets 0%nat 1%nat half_grey_for Demo.empty).
  intros i j Hi Hj. exists []. split; reflexivity.
Defined.
